(** * ContentFlow: a shallow embedding of the workflow step handlers

    The repository is a set of Motia step handlers (TypeScript, with the
    compiled JavaScript next to it).  Every handler reads and writes a
    key-value state store, may push to a real-time stream and may emit
    events.  This development embeds the handlers as functions over an
    explicit world (store, clock, trace of effects) and an environment that
    decides what the external collaborators do (LLM call, JSON.parse,
    stream and event bus failures). *)

From Stdlib Require Import ZArith QArith Qminmax String Ascii List Bool Lia.
From stdpp Require Import base option list gmap strings pretty.

Set Warnings "-register-all".
Open Scope string_scope.
Open Scope list_scope.

(** ** JavaScript values the handlers compute with *)

Module JS.

(** A JS string is a sequence of UTF-16 code units.  The embedding uses
    Rocq strings: one [ascii] stands for one code unit below 256, so
    [String.length] is [s.length]. *)

Definition code (c : ascii) : N := N_of_ascii c.

(** [\s] of a regular expression and the characters removed by [trim],
    restricted to code units below 256: TAB, LF, VT, FF, CR, SPACE, NBSP. *)
Definition is_ws (c : ascii) : bool :=
  let n := code c in
  ((9 <=? n) && (n <=? 13) || (n =? 32) || (n =? 160))%N.

(** [String.prototype.toLowerCase] on one code unit below 256: A-Z and the
    Latin-1 capitals U+00C0..U+00DE other than the multiplication sign. *)
Definition lower_char (c : ascii) : ascii :=
  let n := code c in
  if ((65 <=? n) && (n <=? 90) ||
      (192 <=? n) && (n <=? 222) && negb (n =? 215))%N
  then ascii_of_N (n + 32) else c.

Fixpoint toLowerCase (s : string) : string :=
  match s with
  | EmptyString => EmptyString
  | String c s' => String (lower_char c) (toLowerCase s')
  end.

Fixpoint trimStart (s : string) : string :=
  match s with
  | EmptyString => EmptyString
  | String c s' => if is_ws c then trimStart s' else s
  end.

(** [trimEnd] keeps a character when it is not white space or when something
    that is kept follows it. *)
Fixpoint trimEnd (s : string) : string :=
  match s with
  | EmptyString => EmptyString
  | String c s' =>
      match trimEnd s' with
      | EmptyString => if is_ws c then EmptyString else String c EmptyString
      | r => String c r
      end
  end.

Definition trim (s : string) : string := trimEnd (trimStart s).

Definition startsWith (p s : string) : bool := String.prefix p s.

(** [s.substring(a, b)] for [a <= b]. *)
Definition substring (a b : nat) (s : string) : string :=
  String.substring a (b - a) s.

Fixpoint drop_chars (n : nat) (s : string) : string :=
  match n, s with
  | O, _ => s
  | S n', String _ s' => drop_chars n' s'
  | S _, EmptyString => EmptyString
  end.

(** [s.replace(/<pat>\n?/g, '')] for a literal, non-empty [pat]: matches are
    found left to right and do not overlap.  The recursion is on [fuel],
    which the caller sets to the length of the string. *)
Fixpoint remove_all (fuel : nat) (pat s : string) : string :=
  match fuel with
  | O => s
  | S fuel' =>
      match s with
      | EmptyString => EmptyString
      | String c s' =>
          if String.prefix pat s then
            let rest := drop_chars (String.length pat) s in
            let rest' :=
              match rest with
              | String c' r => if Ascii.eqb c' "010"%char then r else rest
              | EmptyString => rest
              end in
            remove_all fuel' pat rest'
          else String c (remove_all fuel' pat s')
      end
  end.

Definition removeFence (pat s : string) : string :=
  remove_all (String.length s) pat s.

(** [s.split(/\s+/)]: the pieces between maximal runs of white space, the
    empty piece before a leading run and after a trailing run included; the
    empty string gives one empty piece. *)
Fixpoint split_ws_from (in_ws : bool) (tok s : string) : list string :=
  match s with
  | EmptyString => [tok]
  | String c s' =>
      if is_ws c
      then (if in_ws then split_ws_from true tok s'
            else tok :: split_ws_from true EmptyString s')
      else split_ws_from false (tok +:+ String c EmptyString) s'
  end.

Definition split_ws (s : string) : list string :=
  split_ws_from false EmptyString s.

(** [arr.includes(x)] on strings. *)
Definition includes (x : string) (l : list string) : bool :=
  existsb (String.eqb x) l.

(** [arr.join(sep)] on strings. *)
Definition join (sep : string) (l : list string) : string :=
  String.concat sep l.

(** A JS number other than NaN: a finite double (every double is a
    rational; comparison, [Math.min] and [Math.max] are exact on them) or an
    infinity. *)
Inductive xreal : Type :=
  | NegInf
  | Fin (q : Q)
  | PosInf.

(** A JS number: [None] is NaN. *)
Definition number : Type := option xreal.

Definition num (q : Q) : number := Some (Fin q).
Definition of_nat (n : nat) : number := num (inject_Z (Z.of_nat n)).

Definition xle (a b : xreal) : bool :=
  match a, b with
  | NegInf, _ => true
  | _, PosInf => true
  | Fin p, Fin q => Qle_bool p q
  | _, _ => false
  end.

Definition xlt (a b : xreal) : bool := negb (xle b a).

(** [a >= b], [a < b]: false as soon as one side is NaN. *)
Definition ge (a b : number) : bool :=
  match a, b with
  | Some x, Some y => xle y x
  | _, _ => false
  end.

Definition lt (a b : number) : bool :=
  match a, b with
  | Some x, Some y => xlt x y
  | _, _ => false
  end.

Definition Math_min (a b : number) : number :=
  match a, b with
  | Some x, Some y => Some (if xle x y then x else y)
  | _, _ => None
  end.

Definition Math_max (a b : number) : number :=
  match a, b with
  | Some x, Some y => Some (if xle x y then y else x)
  | _, _ => None
  end.

(** What [JSON.parse] returns.  JSON has no NaN, so numbers are [xreal];
    an object keeps its members in source order. *)
Inductive json : Type :=
  | JNull
  | JBool (b : bool)
  | JNum (x : xreal)
  | JStr (s : string)
  | JArr (l : list json)
  | JObj (members : list (string * json)).

(** Reading a member of an object whose key occurs several times gives the
    last one; [None] is [undefined]. *)
Fixpoint find_member (k : string) (ms : list (string * json)) : option json :=
  match ms with
  | [] => None
  | (k', v) :: ms' =>
      match find_member k ms' with
      | Some v' => Some v'
      | None => if String.eqb k k' then Some v else None
      end
  end.

(** [j.k] for a value [j] other than [null] and a key [k] that no prototype
    defines (the handlers read only such keys). *)
Definition get (j : json) (k : string) : option json :=
  match j with
  | JObj ms => find_member k ms
  | _ => None
  end.

Definition xzero (x : xreal) : bool :=
  match x with Fin q => Qeq_bool q 0 | _ => false end.

(** Truthiness of a value that may be [undefined]. *)
Definition truthy (v : option json) : bool :=
  match v with
  | None | Some JNull => false
  | Some (JBool b) => b
  | Some (JNum x) => negb (xzero x)
  | Some (JStr s) => negb (String.eqb s EmptyString)
  | Some (JArr _) | Some (JObj _) => true
  end.

Section ToString.
(** [Number.prototype.toString] is the runtime's. *)
Variable Number_toString : xreal -> string.

(** [String(j)], as a template literal computes it; inside an array
    [null] prints as the empty string. *)
Fixpoint toString (j : json) : string :=
  match j with
  | JNull => "null"
  | JBool true => "true"
  | JBool false => "false"
  | JNum x => Number_toString x
  | JStr s => s
  | JArr l =>
      join "," (List.map (fun e => match e with
                                   | JNull => EmptyString
                                   | _ => toString e
                                   end) l)
  | JObj _ => "[object Object]"
  end.

(** [arr.join(sep)] on arbitrary values. *)
Definition join_values (sep : string) (l : list json) : string :=
  join sep (List.map (fun e => match e with
                               | JNull => EmptyString
                               | _ => toString e
                               end) l).
End ToString.

End JS.

(** ** Data model *)

(** Modelled from the spec: the type declarations of [types/index.ts] are
    not among the sources; the records below follow section 3 of the
    specification and the fields the handlers read and write. *)

Module WorkflowStatus.
Inductive t : Type :=
  | pending | validating | validated | rejected
  | analyzing | analyzed | completed | failed.

#[global] Instance eq_dec : EqDecision t.
Proof. solve_decision. Defined.

(** [['completed', 'failed', 'rejected'].includes(status)] *)
Definition is_final (s : t) : bool :=
  match s with
  | completed | failed | rejected => true
  | _ => false
  end.
End WorkflowStatus.

Module ValidationResult.
Record t : Type := mk {
  isValid : bool;
  errors : list string;
  warnings : list string;
  validatedAt : string
}.
End ValidationResult.

Module AIAnalysisResult.
(** The declared types of [sentiment] and of the array members are
    strings; at run time they hold whatever the LLM's JSON held. *)
Record t : Type := mk {
  sentiment : JS.json;
  topics : list JS.json;
  readabilityScore : JS.number;
  wordCount : JS.number;
  qualityScore : JS.number;
  summary : string;
  strengths : list JS.json;
  weaknesses : list JS.json;
  analyzedAt : string
}.
End AIAnalysisResult.

Module Votes.
Record t : Type := mk {
  upvotes : nat;
  downvotes : nat;
  userVotes : gmap string string
}.
End Votes.

Module Recommendation.
Inductive kind : Type := publish | review | improve | optimize.
Inductive level : Type := high | medium | low.

#[global] Instance kind_eq_dec : EqDecision kind.
Proof. solve_decision. Defined.
#[global] Instance level_eq_dec : EqDecision level.
Proof. solve_decision. Defined.

Record t : Type := mk {
  id : string;
  type : kind;
  title : string;
  description : string;
  priority : level;
  actionableSteps : list string;
  votes : option Votes.t
}.

Definition with_votes (v : Votes.t) (r : t) : t :=
  mk (id r) (type r) (title r) (description r) (priority r)
     (actionableSteps r) (Some v).
End Recommendation.

Module ImprovedContent.
Inductive progress : Type := generating | completed | failed.

#[global] Instance progress_eq_dec : EqDecision progress.
Proof. solve_decision. Defined.

Record t : Type := mk {
  originalBody : string;
  improvedBody : string;
  generatedAt : string;
  status : progress;
  appliedAt : option string
}.

Definition with_appliedAt (a : string) (i : t) : t :=
  mk (originalBody i) (improvedBody i) (generatedAt i) (status i) (Some a).
End ImprovedContent.

Module ContentState.
Record t : Type := mk {
  contentId : string;
  title : string;
  body : string;
  author : string;
  language : string;
  userId : option string;
  createdAt : string;
  updatedAt : string;
  workflowStatus : WorkflowStatus.t;
  validationResult : option ValidationResult.t;
  aiAnalysis : option AIAnalysisResult.t;
  recommendations : option (list Recommendation.t);
  improvedContent : option ImprovedContent.t
}.

(** Assignments to one field of the object read from the store. *)
Definition with_body (b : string) (c : t) : t :=
  mk (contentId c) (title c) b (author c) (language c) (userId c)
     (createdAt c) (updatedAt c) (workflowStatus c) (validationResult c)
     (aiAnalysis c) (recommendations c) (improvedContent c).
Definition with_updatedAt (u : string) (c : t) : t :=
  mk (contentId c) (title c) (body c) (author c) (language c) (userId c)
     (createdAt c) u (workflowStatus c) (validationResult c)
     (aiAnalysis c) (recommendations c) (improvedContent c).
Definition with_workflowStatus (s : WorkflowStatus.t) (c : t) : t :=
  mk (contentId c) (title c) (body c) (author c) (language c) (userId c)
     (createdAt c) (updatedAt c) s (validationResult c)
     (aiAnalysis c) (recommendations c) (improvedContent c).
Definition with_validationResult (v : option ValidationResult.t) (c : t) : t :=
  mk (contentId c) (title c) (body c) (author c) (language c) (userId c)
     (createdAt c) (updatedAt c) (workflowStatus c) v
     (aiAnalysis c) (recommendations c) (improvedContent c).
Definition with_aiAnalysis (a : option AIAnalysisResult.t) (c : t) : t :=
  mk (contentId c) (title c) (body c) (author c) (language c) (userId c)
     (createdAt c) (updatedAt c) (workflowStatus c) (validationResult c)
     a (recommendations c) (improvedContent c).
Definition with_recommendations (r : option (list Recommendation.t)) (c : t) : t :=
  mk (contentId c) (title c) (body c) (author c) (language c) (userId c)
     (createdAt c) (updatedAt c) (workflowStatus c) (validationResult c)
     (aiAnalysis c) r (improvedContent c).
Definition with_improvedContent (i : option ImprovedContent.t) (c : t) : t :=
  mk (contentId c) (title c) (body c) (author c) (language c) (userId c)
     (createdAt c) (updatedAt c) (workflowStatus c) (validationResult c)
     (aiAnalysis c) (recommendations c) i.
End ContentState.

(** The value the handlers keep under [('workflow', contentId)]. *)
Module WorkflowRecord.
Record t : Type := mk {
  status : WorkflowStatus.t;
  contentId : string
}.
End WorkflowRecord.

(** The two records of the daily job under the ['system'] group. *)
Module Metrics.
Record t : Type := mk {
  processedAt : string;
  staleContentCount : nat;
  totalContentProcessed : nat;
  deletedContentCount : nat;
  averageProcessingTime : option Z;
  activeContentCount : nat
}.
End Metrics.

Module LastRun.
Record t : Type := mk {
  timestamp : string;
  deletedContentIds : list string
}.
End LastRun.

(** ** The state store, the environment and the handler monad *)

(** The store groups the handlers use, each a map from key to value.
    [state.get] hands out a copy of the stored value: a handler's
    assignments reach the store only through [state.set]. *)
Module Store.
Record t : Type := mk {
  content : gmap string ContentState.t;
  workflow : gmap string WorkflowRecord.t;
  validation : gmap string ValidationResult.t;
  ai_analysis : gmap string AIAnalysisResult.t;
  recommendations : gmap string (list Recommendation.t);
  votes : gmap string (gmap string string);
  daily_metrics : option Metrics.t;
  daily_processing_last_run : option LastRun.t
}.

Definition empty : t := mk ∅ ∅ ∅ ∅ ∅ ∅ None None.

Definition with_content f (s : t) : t :=
  mk (f (content s)) (workflow s) (validation s) (ai_analysis s)
     (recommendations s) (votes s) (daily_metrics s)
     (daily_processing_last_run s).
Definition with_workflow f (s : t) : t :=
  mk (content s) (f (workflow s)) (validation s) (ai_analysis s)
     (recommendations s) (votes s) (daily_metrics s)
     (daily_processing_last_run s).
Definition with_validation f (s : t) : t :=
  mk (content s) (workflow s) (f (validation s)) (ai_analysis s)
     (recommendations s) (votes s) (daily_metrics s)
     (daily_processing_last_run s).
Definition with_ai_analysis f (s : t) : t :=
  mk (content s) (workflow s) (validation s) (f (ai_analysis s))
     (recommendations s) (votes s) (daily_metrics s)
     (daily_processing_last_run s).
Definition with_recommendations f (s : t) : t :=
  mk (content s) (workflow s) (validation s) (ai_analysis s)
     (f (recommendations s)) (votes s) (daily_metrics s)
     (daily_processing_last_run s).
Definition with_votes f (s : t) : t :=
  mk (content s) (workflow s) (validation s) (ai_analysis s)
     (recommendations s) (f (votes s)) (daily_metrics s)
     (daily_processing_last_run s).
Definition with_daily_metrics (m : Metrics.t) (s : t) : t :=
  mk (content s) (workflow s) (validation s) (ai_analysis s)
     (recommendations s) (votes s) (Some m)
     (daily_processing_last_run s).
Definition with_last_run (r : LastRun.t) (s : t) : t :=
  mk (content s) (workflow s) (validation s) (ai_analysis s)
     (recommendations s) (votes s) (daily_metrics s) (Some r).
End Store.

(** What a handler passes to [emit] as [data]. *)
Inductive EventData : Type :=
  | DContent (contentId traceId : string)
  | DValidation (contentId : string) (v : ValidationResult.t) (traceId : string)
  | DAnalysis (contentId : string) (a : AIAnalysisResult.t) (traceId : string)
  | DRecommendations (contentId : string) (l : list Recommendation.t)
                     (traceId : string)
  | DVote (contentId recommendationId userId vote : string).

(** What a handler does to its collaborators, in the order it does it.  A
    stream push or an emission is recorded when it is attempted; the payload
    of a stream push is left out. *)
Inductive Effect : Type :=
  | StateSet (group key : string)
  | StateDelete (group key : string)
  | StreamSend (groupId type : string)
  | Emit (topic : string) (data : EventData).

Definition is_notification (e : Effect) : bool :=
  match e with
  | StreamSend _ _ | Emit _ _ => true
  | _ => false
  end.

Definition is_store_write (e : Effect) : bool :=
  match e with
  | StateSet _ _ | StateDelete _ _ => true
  | _ => false
  end.

Definition emitted_topic (e : Effect) : option string :=
  match e with
  | Emit topic _ => Some topic
  | _ => None
  end.

(** The collaborators a handler invocation meets.  The store does not fail;
    the logger is total and leaves no trace. *)
Module Env.
Record t : Type := mk {
(** [new Date().toISOString()] at the n-th reading of the clock *)
clock : nat -> string;
(** [new Date(s).getTime()]; [None] is NaN *)
Date_getTime : string -> option Z;
(** [Date.now()] *)
Date_now : Z;
traceId : string;
(** whether [process.env.MISTRAL_API_KEY] is set *)
MISTRAL_API_KEY : bool;
(** the content of the first choice of the chat completion, after
    [|| '']; [None] when the call rejects or the timeout wins the race *)
chat_complete : option string;
JSON_parse : string -> option JS.json;
Number_toString : JS.xreal -> string;
(** whether [streams.contentUpdates.send] and [emit] resolve *)
stream_ok : bool;
emit_ok : bool
}.
End Env.

Module World.
Record t : Type := mk {
  store : Store.t;
  ticks : nat;
  trace : list Effect
}.

Definition init (s : Store.t) : t := mk s 0 [].
End World.

Inductive Outcome (A : Type) : Type :=
  | Ok (a : A)
  | Throw (error : string).
Arguments Ok {A} a.
Arguments Throw {A} error.

(** A handler step: it runs in a world, ends normally or throws, and
    leaves a world. *)
Definition M (A : Type) : Type := World.t -> Outcome A * World.t.

Definition ret {A} (a : A) : M A := fun w => (Ok a, w).

Definition bind {A B} (m : M A) (k : A -> M B) : M B :=
  fun w =>
    match m w with
    | (Ok a, w') => k a w'
    | (Throw e, w') => (Throw e, w')
    end.

Definition throw {A} (e : string) : M A := fun w => (Throw e, w).

(** [try { m } catch (e) { h e }] *)
Definition try_catch {A} (m : M A) (h : string -> M A) : M A :=
  fun w =>
    match m w with
    | (Ok a, w') => (Ok a, w')
    | (Throw e, w') => h e w'
    end.

Notation "'let*' x ':=' m 'in' k" := (bind m (fun x => k))
  (at level 10, x name, m at level 100, k at level 200).
Notation "m ';;' k" := (bind m (fun _ => k))
  (at level 100, k at level 200, right associativity).

Definition perform (e : Effect) : M unit :=
  fun w => (Ok tt, World.mk (World.store w) (World.ticks w)
                            (World.trace w ++ [e])).

Definition update_store (f : Store.t -> Store.t) : M unit :=
  fun w => (Ok tt, World.mk (f (World.store w)) (World.ticks w)
                            (World.trace w)).

Definition read_store {A} (f : Store.t -> A) : M A :=
  fun w => (Ok (f (World.store w)), w).

Section Primitives.
Variable env : Env.t.

(** [new Date().toISOString()] *)
Definition now : M string :=
  fun w => (Ok (Env.clock env (World.ticks w)),
            World.mk (World.store w) (S (World.ticks w)) (World.trace w)).

(** [state.get(group, key)] and [state.set(group, key, value)], one pair
    per group. *)
Definition get_content (k : string) : M (option ContentState.t) :=
  read_store (fun s => Store.content s !! k).
Definition set_content (k : string) (v : ContentState.t) : M unit :=
  perform (StateSet "content" k);;
  update_store (Store.with_content (insert k v)).
Definition set_workflow (k : string) (v : WorkflowRecord.t) : M unit :=
  perform (StateSet "workflow" k);;
  update_store (Store.with_workflow (insert k v)).
Definition set_validation (k : string) (v : ValidationResult.t) : M unit :=
  perform (StateSet "validation" k);;
  update_store (Store.with_validation (insert k v)).
Definition set_ai_analysis (k : string) (v : AIAnalysisResult.t) : M unit :=
  perform (StateSet "ai_analysis" k);;
  update_store (Store.with_ai_analysis (insert k v)).
Definition set_recommendations (k : string) (v : list Recommendation.t)
  : M unit :=
  perform (StateSet "recommendations" k);;
  update_store (Store.with_recommendations (insert k v)).
Definition get_votes (k : string) : M (option (gmap string string)) :=
  read_store (fun s => Store.votes s !! k).
Definition set_votes (k : string) (v : gmap string string) : M unit :=
  perform (StateSet "votes" k);;
  update_store (Store.with_votes (insert k v)).

(** [state.delete(group, key)] *)
Definition delete_content (k : string) : M unit :=
  perform (StateDelete "content" k);;
  update_store (Store.with_content (delete k)).
Definition delete_workflow (k : string) : M unit :=
  perform (StateDelete "workflow" k);;
  update_store (Store.with_workflow (delete k)).

(** [streams.contentUpdates.send({ groupId }, { type, data })] *)
Definition stream_send (groupId type : string) : M unit :=
  perform (StreamSend groupId type);;
  if Env.stream_ok env then ret tt else throw "stream send failed".

(** [emit({ topic, data })] *)
Definition emit (topic : string) (data : EventData) : M unit :=
  perform (Emit topic data);;
  if Env.emit_ok env then ret tt else throw "emit failed".
End Primitives.

(** ** Event steps and their subscriptions *)

Module Step.
Inductive t : Type :=
  | ValidateContent
  | AnalyzeWithAI
  | GenerateRecommendations
  | GenerateImprovedContent.

#[global] Instance eq_dec : EqDecision t.
Proof. solve_decision. Defined.

Definition all : list t :=
  [ValidateContent; AnalyzeWithAI; GenerateRecommendations;
   GenerateImprovedContent].

(** [config.subscribes] of each event step *)
Definition subscribes (s : t) : list string :=
  match s with
  | ValidateContent => ["content.created"]
  | AnalyzeWithAI => ["content.validated"]
  | GenerateRecommendations => ["content.analyzed"]
  | GenerateImprovedContent => ["content.improvement.requested"]
  end.

(** The steps the runtime invokes for an event on [topic]. *)
Definition triggered_by (topic : string) : list t :=
  List.filter (fun s => JS.includes topic (subscribes s)) all.

(** The steps invoked for the events a trace attempted to emit. *)
Definition triggered (tr : list Effect) : list t :=
  flat_map (fun e => match emitted_topic e with
                     | Some topic => triggered_by topic
                     | None => []
                     end) tr.
End Step.

(** ** Validation stage ([validate-content.step.ts]) *)

Module ValidateContent.
Definition MIN_BODY_LENGTH : nat := 100.
Definition SUPPORTED_LANGUAGES : list string :=
  ["en"; "es"; "fr"; "de"; "it"; "pt"].

Definition body_error (c : ContentState.t) : list string :=
  if (String.length (ContentState.body c) <? MIN_BODY_LENGTH)%nat
  then ["Content body must be at least " +:+ pretty MIN_BODY_LENGTH +:+
        " characters. Current: " +:+
        pretty (String.length (ContentState.body c))]
  else [].

Definition language_ok (language : string) : bool :=
  JS.includes (JS.toLowerCase language) SUPPORTED_LANGUAGES.

Definition language_error (c : ContentState.t) : list string :=
  if negb (language_ok (ContentState.language c))
  then ["Language '" +:+ ContentState.language c +:+
        "' is not supported. Supported: " +:+
        JS.join ", " SUPPORTED_LANGUAGES]
  else [].

Definition errors (c : ContentState.t) : list string :=
  body_error c ++ language_error c.

Definition warnings (c : ContentState.t) : list string :=
  (if (String.length (ContentState.title c) <? 10)%nat
   then ["Title is quite short. Consider a more descriptive title."]
   else []) ++
  (if (String.length (ContentState.body c) <? 500)%nat
   then ["Content body is relatively short. Consider adding more detail."]
   else []).

Definition validate (contentState : ContentState.t) (validatedAt : string)
    : ValidationResult.t :=
  ValidationResult.mk (Nat.eqb (List.length (errors contentState)) 0)
    (errors contentState) (warnings contentState) validatedAt.

Section WithEnv.
Variable env : Env.t.

Definition handler (contentId : string) : M unit :=
  try_catch
    (let* found := get_content contentId in
     match found with
     | None => ret tt
     | Some contentState =>
         let* validatedAt := now env in
         let validationResult := validate contentState validatedAt in
         let* updatedAt := now env in
         let contentState :=
           ContentState.with_updatedAt updatedAt
             (ContentState.with_validationResult (Some validationResult)
                contentState) in
         set_content contentId contentState;;
         set_validation contentId validationResult;;
         if negb (ValidationResult.isValid validationResult) then
           let contentState :=
             ContentState.with_workflowStatus WorkflowStatus.rejected
               contentState in
           set_content contentId contentState;;
           set_workflow contentId
             (WorkflowRecord.mk WorkflowStatus.rejected contentId);;
           emit env "content.rejected"
             (DValidation contentId validationResult (Env.traceId env))
         else
           let contentState :=
             ContentState.with_workflowStatus WorkflowStatus.validated
               contentState in
           set_content contentId contentState;;
           set_workflow contentId
             (WorkflowRecord.mk WorkflowStatus.validated contentId);;
           let* timestamp := now env in
           stream_send env contentId "validation_completed";;
           emit env "content.validated"
             (DValidation contentId validationResult (Env.traceId env))
     end)
    (fun _ => ret tt).
End WithEnv.
End ValidateContent.

(** ** Analysis stage ([analyze-with-ai.step.ts]) *)

Module AnalyzeWithAI.
(** Clean response - remove markdown code blocks if present. *)
Definition clean (aiResponse : string) : string :=
  let cleanedResponse := JS.trim aiResponse in
  if JS.startsWith "```json" cleanedResponse then
    JS.removeFence "```" (JS.removeFence "```json" cleanedResponse)
  else if JS.startsWith "```" cleanedResponse then
    JS.removeFence "```" cleanedResponse
  else cleanedResponse.

Definition body_wordCount (body : string) : JS.number :=
  JS.of_nat (List.length (JS.split_ws body)).

Definition body_summary (body : string) : string :=
  JS.substring 0 200 body +:+ "...".

(** Fallback: create basic analysis from content. *)
Definition fallback (body : string) : JS.json :=
  JS.JObj
    [("sentiment", JS.JStr "neutral");
     ("topics", JS.JArr []);
     ("readabilityScore", JS.JNum (JS.Fin 50));
     ("wordCount",
       JS.JNum (JS.Fin (inject_Z (Z.of_nat (List.length (JS.split_ws body))))));
     ("qualityScore", JS.JNum (JS.Fin 50));
     ("summary", JS.JStr (body_summary body));
     ("strengths", JS.JArr []);
     ("weaknesses", JS.JArr [])].

Definition array_or_empty (v : option JS.json) : list JS.json :=
  match v with
  | Some (JS.JArr l) => l
  | _ => []
  end.

(** [typeof v === 'number' ? Math.max(0, Math.min(100, v)) : 50] *)
Definition score (v : option JS.json) : JS.number :=
  match v with
  | Some (JS.JNum x) =>
      JS.Math_max (JS.num 0) (JS.Math_min (JS.num 100) (Some x))
  | _ => JS.num 50
  end.

(** Validate and construct complete analysis result, for a parsed value
    other than [null]. *)
Definition construct (body : string) (analysisData : JS.json)
    (analyzedAt : string) : AIAnalysisResult.t :=
  AIAnalysisResult.mk
    (match JS.get analysisData "sentiment" with
     | Some v => if JS.truthy (Some v) then v else JS.JStr "neutral"
     | None => JS.JStr "neutral"
     end)
    (array_or_empty (JS.get analysisData "topics"))
    (score (JS.get analysisData "readabilityScore"))
    (match JS.get analysisData "wordCount" with
     | Some (JS.JNum x) => Some x
     | _ => body_wordCount body
     end)
    (score (JS.get analysisData "qualityScore"))
    (match JS.get analysisData "summary" with
     | Some (JS.JStr s) =>
         if (0 <? String.length s)%nat then s else body_summary body
     | _ => body_summary body
     end)
    (array_or_empty (JS.get analysisData "strengths"))
    (array_or_empty (JS.get analysisData "weaknesses"))
    analyzedAt.

Section WithEnv.
Variable env : Env.t.

(** Parse and validate AI JSON output. *)
Definition parse (body aiResponse : string) : JS.json :=
  match Env.JSON_parse env (clean aiResponse) with
  | Some analysisData => analysisData
  | None => fallback body
  end.

Definition set_status (contentId : string) (status : WorkflowStatus.t)
    (contentState : ContentState.t) : M unit :=
  let* updatedAt := now env in
  let contentState :=
    ContentState.with_updatedAt updatedAt
      (ContentState.with_workflowStatus status contentState) in
  set_content contentId contentState;;
  set_workflow contentId (WorkflowRecord.mk status contentId).

Definition handler (contentId : string) : M unit :=
  try_catch
    (if negb (Env.MISTRAL_API_KEY env) then
       throw "MISTRAL_API_KEY environment variable is required"
     else
       let* found := get_content contentId in
       match found with
       | None => ret tt
       | Some contentState =>
           let* updatedAt := now env in
           let contentState :=
             ContentState.with_updatedAt updatedAt
               (ContentState.with_workflowStatus WorkflowStatus.analyzing
                  contentState) in
           set_content contentId contentState;;
           set_workflow contentId
             (WorkflowRecord.mk WorkflowStatus.analyzing contentId);;
           let* aiResponse :=
             match Env.chat_complete env with
             | Some r => ret r
             | None => throw "Mistral AI API call failed"
             end in
           let analysisData := parse (ContentState.body contentState)
                                     aiResponse in
           let* aiAnalysis :=
             match analysisData with
             | JS.JNull => throw "TypeError: cannot read properties of null"
             | _ =>
                 let* analyzedAt := now env in
                 ret (construct (ContentState.body contentState)
                        analysisData analyzedAt)
             end in
           let* updatedAt := now env in
           let contentState :=
             ContentState.with_updatedAt updatedAt
               (ContentState.with_workflowStatus WorkflowStatus.analyzed
                  (ContentState.with_aiAnalysis (Some aiAnalysis)
                     contentState)) in
           set_content contentId contentState;;
           set_ai_analysis contentId aiAnalysis;;
           set_workflow contentId
             (WorkflowRecord.mk WorkflowStatus.analyzed contentId);;
           try_catch
             (let* timestamp := now env in
              stream_send env contentId "analysis_completed")
             (fun _ => ret tt);;
           try_catch
             (emit env "content.analyzed"
                (DAnalysis contentId aiAnalysis (Env.traceId env)))
             (fun _ => ret tt)
       end)
    (fun _ =>
       try_catch
         (let* found := get_content contentId in
          match found with
          | Some contentState =>
              match ContentState.aiAnalysis contentState with
              | None =>
                  set_status contentId WorkflowStatus.failed contentState
              | Some _ =>
                  set_status contentId WorkflowStatus.analyzed contentState
              end
          | None => ret tt
          end)
         (fun _ => ret tt)).
End WithEnv.
End AnalyzeWithAI.

(** ** Recommendation stage ([generate-recommendations.step]) *)

Module GenerateRecommendations.
Import Recommendation.

Definition is_positive (sentiment : JS.json) : bool :=
  match sentiment with
  | JS.JStr s => String.eqb s "positive"
  | _ => false
  end.

(** The [if / else if / else] that opens the rule list. *)
Definition publishing (contentId : string) (aiAnalysis : AIAnalysisResult.t)
    : Recommendation.t :=
  if JS.ge (AIAnalysisResult.qualityScore aiAnalysis) (JS.num 80) &&
     is_positive (AIAnalysisResult.sentiment aiAnalysis)
  then
    mk ("rec_" +:+ contentId +:+ "_publish_1") publish "Ready to Publish"
      "Content meets high quality standards and is ready for publication."
      high
      ["Review final content for typos";
       "Add relevant tags/categories";
       "Schedule publication";
       "Share on social media channels"]
      None
  else if JS.ge (AIAnalysisResult.qualityScore aiAnalysis) (JS.num 60)
  then
    mk ("rec_" +:+ contentId +:+ "_publish_2") publish
      "Publish with Minor Edits"
      "Content is good but could benefit from minor improvements before publishing."
      medium
      ["Address identified weaknesses";
       "Enhance strengths";
       "Review and publish"]
      None
  else
    mk ("rec_" +:+ contentId +:+ "_review_1") review
      "Needs Review Before Publishing"
      "Content requires significant improvements before it's ready for publication."
      high
      ["Address all identified weaknesses";
       "Improve quality score above 60";
       "Get peer review";
       "Revise and resubmit"]
      None.

Section Rules.
Variable Number_toString : JS.xreal -> string.

(** The three independent [if]s that follow. *)
Definition additional (contentId : string)
    (aiAnalysis : AIAnalysisResult.t) : list Recommendation.t :=
  (if (0 <? List.length (AIAnalysisResult.weaknesses aiAnalysis))%nat
   then
     [mk ("rec_" +:+ contentId +:+ "_improve_1") improve
        "Address Content Weaknesses"
        ("Focus on improving: " +:+
         JS.join_values Number_toString ", "
           (take 3 (AIAnalysisResult.weaknesses aiAnalysis)))
        (if JS.lt (AIAnalysisResult.qualityScore aiAnalysis) (JS.num 60)
         then high else medium)
        (List.map (fun w => "Work on: " +:+ JS.toString Number_toString w)
           (take 5 (AIAnalysisResult.weaknesses aiAnalysis)))
        None]
   else []) ++
  (if JS.lt (AIAnalysisResult.readabilityScore aiAnalysis) (JS.num 60)
   then
     [mk ("rec_" +:+ contentId +:+ "_optimize_1") optimize
        "Improve Readability"
        "Content readability can be improved for better audience engagement."
        medium
        ["Use shorter sentences";
         "Break up long paragraphs";
         "Add subheadings for structure";
         "Simplify complex vocabulary where possible"]
        None]
   else []) ++
  (if (0 <? List.length (AIAnalysisResult.topics aiAnalysis))%nat &&
      (List.length (AIAnalysisResult.topics aiAnalysis) <? 3)%nat
   then
     [mk ("rec_" +:+ contentId +:+ "_optimize_2") optimize
        "Expand Topic Coverage"
        "Consider adding more related topics to improve SEO and depth."
        low
        ["Research related subtopics";
         "Add supporting examples";
         "Include relevant keywords naturally"]
        None]
   else []).

(** The array [recommendations] after all the pushes. *)
Definition generate (contentId : string) (aiAnalysis : AIAnalysisResult.t)
    : list Recommendation.t :=
  publishing contentId aiAnalysis :: additional contentId aiAnalysis.
End Rules.

Section WithEnv.
Variable env : Env.t.

Definition set_status (contentId : string) (status : WorkflowStatus.t)
    (contentState : ContentState.t) : M unit :=
  let* updatedAt := now env in
  let contentState :=
    ContentState.with_updatedAt updatedAt
      (ContentState.with_workflowStatus status contentState) in
  set_content contentId contentState;;
  set_workflow contentId (WorkflowRecord.mk status contentId).

Definition handler (contentId : string) (aiAnalysis : AIAnalysisResult.t)
    : M unit :=
  try_catch
    (let* found := get_content contentId in
     match found with
     | None => ret tt
     | Some contentState =>
         let recommendations :=
           generate (Env.Number_toString env) contentId aiAnalysis in
         let* updatedAt := now env in
         let contentState :=
           ContentState.with_updatedAt updatedAt
             (ContentState.with_workflowStatus WorkflowStatus.completed
                (ContentState.with_recommendations (Some recommendations)
                   contentState)) in
         set_content contentId contentState;;
         set_recommendations contentId recommendations;;
         set_workflow contentId
           (WorkflowRecord.mk WorkflowStatus.completed contentId);;
         try_catch
           (let* timestamp := now env in
            stream_send env contentId "recommendations_completed")
           (fun _ => ret tt);;
         try_catch
           (emit env "content.completed"
              (DRecommendations contentId recommendations
                 (Env.traceId env)))
           (fun _ => ret tt)
     end)
    (fun _ =>
       try_catch
         (let* found := get_content contentId in
          match found with
          | Some contentState =>
              match ContentState.recommendations contentState with
              | Some (_ :: _) =>
                  set_status contentId WorkflowStatus.completed
                    contentState
              | _ =>
                  match ContentState.aiAnalysis contentState with
                  | Some _ =>
                      set_status contentId WorkflowStatus.analyzed
                        contentState
                  | None => ret tt
                  end
              end
          | None => ret tt
          end)
         (fun _ => ret tt)).
End WithEnv.
End GenerateRecommendations.

(** ** HTTP handlers *)

Module Http.
(** [req.pathParams] and [req.body] of the two POST routes; [None] is a
    missing member. *)
Record Request : Type := mkRequest {
  id : option string;
  recId : option string;
  userId : option string;
  vote : option string
}.

Record Response : Type := mkResponse {
  status : nat;
  body : JS.json
}.

(** [!x] for a string that may be missing. *)
Definition missing (x : option string) : bool :=
  match x with
  | None => true
  | Some s => String.eqb s EmptyString
  end.

Definition text (x : option string) : string := default EmptyString x.

Definition length_of (s : string) : JS.json :=
  JS.JNum (JS.Fin (inject_Z (Z.of_nat (String.length s)))).
Definition count_of (n : nat) : JS.json :=
  JS.JNum (JS.Fin (inject_Z (Z.of_nat n))).

Definition status_text (s : WorkflowStatus.t) : string :=
  match s with
  | WorkflowStatus.pending => "pending"
  | WorkflowStatus.validating => "validating"
  | WorkflowStatus.validated => "validated"
  | WorkflowStatus.rejected => "rejected"
  | WorkflowStatus.analyzing => "analyzing"
  | WorkflowStatus.analyzed => "analyzed"
  | WorkflowStatus.completed => "completed"
  | WorkflowStatus.failed => "failed"
  end.
End Http.

(** ** Vote handler ([vote-recommendation.step]) *)

Module VoteRecommendation.
Import Http.

(** [votes[userId] = vote] on a plain object: assigning a string to
    [__proto__] is ignored unless the object has it as an own property. *)
Definition obj_set (k v : string) (o : gmap string string)
    : gmap string string :=
  if String.eqb k "__proto__" && negb (bool_decide (is_Some (o !! k)))
  then o else <[k:=v]> o.

(** [Object.values(votes).filter(v => v === x).length] *)
Definition count (x : string) (o : gmap string string) : nat :=
  List.length
    (List.filter (fun v => String.eqb v x) (map_to_list o).*2).

Definition has_id (recommendationId : string) (r : Recommendation.t) : bool :=
  String.eqb (Recommendation.id r) recommendationId.

(** The object [find] returned is a member of the array: assigning to it
    changes that member. *)
Fixpoint update_first {A} (p : A -> bool) (f : A -> A) (l : list A)
    : list A :=
  match l with
  | [] => []
  | x :: l' => if p x then f x :: l' else x :: update_first p f l'
  end.

Definition voteKey (contentId recommendationId : string) : string :=
  "votes_" +:+ contentId +:+ "_" +:+ recommendationId.

Section WithEnv.
Variable env : Env.t.

Definition handler (req : Request) : M Response :=
  try_catch
    (if missing (id req) || missing (recId req) then
       ret (mkResponse 400
              (JS.JObj [("error",
                 JS.JStr "Content ID and Recommendation ID are required")]))
     else if missing (userId req) || missing (vote req) ||
             negb (JS.includes (text (vote req)) ["up"; "down"]) then
       ret (mkResponse 400
              (JS.JObj [("error", JS.JStr "Missing required fields");
                        ("required",
                          JS.JArr [JS.JStr "userId";
                                   JS.JStr "vote (up or down)"])]))
     else
       let contentId := text (id req) in
       let recommendationId := text (recId req) in
       let* found := get_content contentId in
       match found with
       | None =>
           ret (mkResponse 404
                  (JS.JObj [("error", JS.JStr "Content not found")]))
       | Some contentState =>
           match List.find (has_id recommendationId)
                   (default [] (ContentState.recommendations contentState))
           with
           | None =>
               ret (mkResponse 404
                      (JS.JObj [("error",
                         JS.JStr "Recommendation not found")]))
           | Some _ =>
               let* existingVotes :=
                 get_votes (voteKey contentId recommendationId) in
               let votes :=
                 obj_set (text (userId req)) (text (vote req))
                   (default ∅ existingVotes) in
               set_votes (voteKey contentId recommendationId) votes;;
               let upvotes := count "up" votes in
               let downvotes := count "down" votes in
               let contentState :=
                 ContentState.with_recommendations
                   (Some
                      (update_first (has_id recommendationId)
                         (Recommendation.with_votes
                            (Votes.mk upvotes downvotes votes))
                         (default []
                            (ContentState.recommendations contentState))))
                   contentState in
               set_content contentId contentState;;
               stream_send env contentId "vote_updated";;
               emit env "vote.cast"
                 (DVote contentId recommendationId (text (userId req))
                    (text (vote req)));;
               ret (mkResponse 200
                      (JS.JObj
                         [("recommendationId", JS.JStr recommendationId);
                          ("upvotes", count_of upvotes);
                          ("downvotes", count_of downvotes);
                          ("userVote", JS.JStr (text (vote req)));
                          ("message",
                            JS.JStr "Vote recorded successfully")]))
           end
       end)
    (fun _ =>
       ret (mkResponse 500
              (JS.JObj [("error", JS.JStr "Internal server error");
                        ("message", JS.JStr "Failed to record vote")]))).
End WithEnv.
End VoteRecommendation.

(** ** Apply handler, the variant that swaps the body
    ([steps/api/apply-improved-content.step]) *)

Module ApplyImprovedContent.
Import Http.

Definition error_response (code : nat) (message : string)
    (contentId : string) : Response :=
  mkResponse code
    (JS.JObj [("error", JS.JStr message); ("contentId", JS.JStr contentId)]).

Section WithEnv.
Variable env : Env.t.

Definition handler (req : Request) : M Response :=
  try_catch
    (if missing (id req) then
       ret (mkResponse 400
              (JS.JObj [("error", JS.JStr "Content ID is required")]))
     else
       let contentId := text (id req) in
       let* found := get_content contentId in
       match found with
       | None => ret (error_response 404 "Content not found" contentId)
       | Some contentState =>
           match ContentState.improvedContent contentState with
           | None =>
               ret (error_response 400
                      "No completed improved content available" contentId)
           | Some improvedContent =>
               if negb (bool_decide (ImprovedContent.status improvedContent
                                     = ImprovedContent.completed)) then
                 ret (error_response 400
                        "No completed improved content available"
                        contentId)
               else if String.eqb
                         (ImprovedContent.improvedBody improvedContent)
                         EmptyString then
                 ret (error_response 400 "Improved content body is empty"
                        contentId)
               else
                 let originalBody := ContentState.body contentState in
                 let* appliedAt := now env in
                 let* updatedAt := now env in
                 let contentState :=
                   ContentState.with_updatedAt updatedAt
                     (ContentState.with_improvedContent
                        (Some (ImprovedContent.with_appliedAt appliedAt
                                 improvedContent))
                        (ContentState.with_body
                           (ImprovedContent.improvedBody improvedContent)
                           contentState)) in
                 set_content contentId contentState;;
                 ret (mkResponse 200
                        (JS.JObj
                           [("contentId", JS.JStr contentId);
                            ("message",
                              JS.JStr
                                "Improved content applied successfully");
                            ("originalBodyLength", length_of originalBody);
                            ("newBodyLength",
                              length_of (ContentState.body contentState));
                            ("appliedAt", JS.JStr appliedAt);
                            ("status",
                              JS.JStr
                                (status_text
                                   (ContentState.workflowStatus
                                      contentState)))]))
           end
       end)
    (fun _ =>
       ret (mkResponse 500
              (JS.JObj [("error", JS.JStr "Internal server error")]))).
End WithEnv.
End ApplyImprovedContent.

(** ** Apply handler, the variant that re-runs the pipeline
    ([content-flow/src/api/apply-improved-content.step.ts]) *)

Module ApplyAndReanalyze.
Import Http.

Section WithEnv.
Variable env : Env.t.

Definition handler (req : Request) : M Response :=
  try_catch
    (if missing (id req) then
       ret (mkResponse 400
              (JS.JObj [("error", JS.JStr "Content ID is required")]))
     else
       let contentId := text (id req) in
       let* found := get_content contentId in
       match found with
       | None =>
           ret (ApplyImprovedContent.error_response 404
                  "Content not found" contentId)
       | Some contentState =>
           match ContentState.improvedContent contentState with
           | None =>
               ret (ApplyImprovedContent.error_response 400
                      "No improved content available" contentId)
           | Some improvedContent =>
               if negb (bool_decide (ImprovedContent.status improvedContent
                                     = ImprovedContent.completed)) then
                 ret (ApplyImprovedContent.error_response 400
                        ("Cannot apply improvement - status is " +:+
                         match ImprovedContent.status improvedContent with
                         | ImprovedContent.generating => "generating"
                         | ImprovedContent.completed => "completed"
                         | ImprovedContent.failed => "failed"
                         end)
                        contentId)
               else if String.eqb
                         (ImprovedContent.improvedBody improvedContent)
                         EmptyString then
                 ret (ApplyImprovedContent.error_response 400
                        "Improved content body is empty" contentId)
               else
                 let originalBody := ContentState.body contentState in
                 let* appliedAt := now env in
                 let* updatedAt := now env in
                 let contentState :=
                   ContentState.with_recommendations None
                     (ContentState.with_aiAnalysis None
                        (ContentState.with_workflowStatus
                           WorkflowStatus.pending
                           (ContentState.with_updatedAt updatedAt
                              (ContentState.with_improvedContent
                                 (Some (ImprovedContent.with_appliedAt
                                          appliedAt improvedContent))
                                 (ContentState.with_body
                                    (ImprovedContent.improvedBody
                                       improvedContent)
                                    contentState))))) in
                 set_content contentId contentState;;
                 set_workflow contentId
                   (WorkflowRecord.mk WorkflowStatus.pending contentId);;
                 try_catch
                   (let* timestamp := now env in
                    stream_send env contentId "improvement_applied")
                   (fun _ => ret tt);;
                 emit env "content.created"
                   (DContent contentId (Env.traceId env));;
                 ret (mkResponse 200
                        (JS.JObj
                           [("contentId", JS.JStr contentId);
                            ("message",
                              JS.JStr
                                "Improved content applied. Re-analyzing content...");
                            ("originalBodyLength", length_of originalBody);
                            ("newBodyLength",
                              length_of (ContentState.body contentState));
                            ("appliedAt", JS.JStr appliedAt);
                            ("status", JS.JStr "reanalyzing")]))
           end
       end)
    (fun _ =>
       ret (mkResponse 500
              (JS.JObj
                 [("error", JS.JStr "Internal server error");
                  ("message",
                    JS.JStr "Failed to apply improved content")]))).
End WithEnv.
End ApplyAndReanalyze.

(** ** Retention job ([daily-processing.step]) *)

Module DailyProcessing.
Definition STALE_AGE_DAYS : Z := 90.

Definition staleThreshold (now : Z) : Z :=
  (now - STALE_AGE_DAYS * 24 * 60 * 60 * 1000)%Z.

(** [createdAt < staleThreshold]; false when [createdAt] is NaN. *)
Definition before (createdAt : option Z) (threshold : Z) : bool :=
  match createdAt with
  | Some t => (t <? threshold)%Z
  | None => false
  end.

(** [updatedAt - createdAt] *)
Definition minus (a b : option Z) : option Z :=
  match a, b with
  | Some x, Some y => Some (x - y)%Z
  | _, _ => None
  end.

Definition plus (a b : option Z) : option Z :=
  match a, b with
  | Some x, Some y => Some (x + y)%Z
  | _, _ => None
  end.

(** [Math.round] of the mean of [processingTimes], 0 for an empty array;
    [Math.round] rounds a half upwards. *)
Definition average (processingTimes : list (option Z)) : option Z :=
  match processingTimes with
  | [] => Some 0%Z
  | _ =>
      let n := Z.of_nat (List.length processingTimes) in
      match fold_left plus processingTimes (Some 0%Z) with
      | Some sum => Some ((2 * sum + n) / (2 * n))%Z
      | None => None
      end
  end.

(** The variables the loop updates. *)
Record Counters : Type := mkCounters {
  staleContentCount : nat;
  deletedContentIds : list string;
  processingTimes : list (option Z)
}.

Section WithEnv.
Variable env : Env.t.

Definition stale (content : ContentState.t) : bool :=
  before (Env.Date_getTime env (ContentState.createdAt content))
         (staleThreshold (Env.Date_now env)).

(** One iteration of the [for] loop.  Nothing in its [try] block throws
    here, as the store does not fail. *)
Definition process (acc : Counters) (content : ContentState.t)
    : M Counters :=
  try_catch
    (let createdAt :=
       Env.Date_getTime env (ContentState.createdAt content) in
     let updatedAt :=
       Env.Date_getTime env (ContentState.updatedAt content) in
     let times :=
       if bool_decide (ContentState.workflowStatus content
                       = WorkflowStatus.completed)
       then processingTimes acc ++ [minus updatedAt createdAt]
       else processingTimes acc in
     if stale content then
       if WorkflowStatus.is_final (ContentState.workflowStatus content)
       then
         delete_content (ContentState.contentId content);;
         delete_workflow (ContentState.contentId content);;
         ret (mkCounters (S (staleContentCount acc))
                (deletedContentIds acc ++ [ContentState.contentId content])
                times)
       else ret (mkCounters (staleContentCount acc)
                   (deletedContentIds acc) times)
     else ret (mkCounters (staleContentCount acc)
                 (deletedContentIds acc) times))
    (fun _ => ret acc).

Fixpoint for_each (allContent : list ContentState.t) (acc : Counters)
    : M Counters :=
  match allContent with
  | [] => ret acc
  | content :: rest =>
      let* acc' := process acc content in
      for_each rest acc'
  end.

(** [state.getGroup('content')]: the values of the group, in the order of
    the map. *)
Definition getGroup_content : M (list ContentState.t) :=
  read_store (fun s => (map_to_list (Store.content s)).*2).

(** The job.  The guard [allContent && allContent.length > 0] around the
    loop is left implicit: on an empty group the loop does nothing and the
    count of processed items is 0 either way.  The result is the metrics
    record, or [None] for [{ success: false }]. *)
Definition handler : M (option Metrics.t) :=
  try_catch
    (let* allContent := getGroup_content in
     let* acc := for_each allContent (mkCounters 0 [] []) in
     let totalContentProcessed := List.length allContent in
     let* processedAt := now env in
     let metrics :=
       Metrics.mk processedAt (staleContentCount acc)
         totalContentProcessed (List.length (deletedContentIds acc))
         (average (processingTimes acc))
         (totalContentProcessed - List.length (deletedContentIds acc)) in
     perform (StateSet "system" "daily_metrics");;
     update_store (Store.with_daily_metrics metrics);;
     let* timestamp := now env in
     perform (StateSet "system" "daily_processing_last_run");;
     update_store
       (Store.with_last_run
          (LastRun.mk timestamp (take 100 (deletedContentIds acc))));;
     ret (Some metrics))
    (fun _ => ret None).
End WithEnv.
End DailyProcessing.

(** ** Vocabulary of the statements *)

(** The world a handler leaves behind. *)
Definition after {A} (m : M A) (w : World.t) : World.t := snd (m w).
Definition result {A} (m : M A) (w : World.t) : Outcome A := fst (m w).

(** [x] is a number of the closed interval from [lo] to [hi]. *)
Definition within (lo hi : Q) (x : JS.number) : Prop :=
  match x with
  | Some (JS.Fin q) => (lo <= q)%Q /\ (q <= hi)%Q
  | _ => False
  end.

(** [x] is a number of the half-open interval from [lo] to [hi]. *)
Definition within_below (lo hi : Q) (x : JS.number) : Prop :=
  match x with
  | Some (JS.Fin q) => (lo <= q)%Q /\ (q < hi)%Q
  | _ => False
  end.

(** [x] is a number and is at least [lo]. *)
Definition at_least (lo : Q) (x : JS.number) : Prop :=
  match x with
  | Some (JS.Fin q) => (lo <= q)%Q
  | Some JS.PosInf => True
  | _ => False
  end.

Definition is_publish_or_review (r : Recommendation.t) : bool :=
  match Recommendation.type r with
  | Recommendation.publish | Recommendation.review => true
  | _ => false
  end.

Definition is_improve_or_optimize (r : Recommendation.t) : bool :=
  match Recommendation.type r with
  | Recommendation.improve | Recommendation.optimize => true
  | _ => false
  end.

(** The rule "publish with minor edits, medium priority" fired. *)
Definition minor_edits (r : Recommendation.t) : Prop :=
  Recommendation.type r = Recommendation.publish /\
  Recommendation.title r = "Publish with Minor Edits" /\
  Recommendation.priority r = Recommendation.medium.

Definition produces_minor_edits (l : list Recommendation.t) : Prop :=
  exists r, In r l /\ minor_edits r.

(** The three stages of the pipeline and the status each one records
    when it completes. *)
Inductive Stage : Type := Validation | Analysis | Recommending.

Definition run_stage (st : Stage) (env : Env.t) (contentId : string)
    (aiAnalysis : AIAnalysisResult.t) : M unit :=
  match st with
  | Validation => ValidateContent.handler env contentId
  | Analysis => AnalyzeWithAI.handler env contentId
  | Recommending => GenerateRecommendations.handler env contentId aiAnalysis
  end.

Definition completion (st : Stage) : list WorkflowStatus.t :=
  match st with
  | Validation => [WorkflowStatus.validated; WorkflowStatus.rejected]
  | Analysis => [WorkflowStatus.analyzed]
  | Recommending => [WorkflowStatus.completed]
  end.

(** The same collaborators, with the given fate of stream pushes and of
    emissions. *)
Definition with_delivery (stream_ok emit_ok : bool) (env : Env.t) : Env.t :=
  Env.mk (Env.clock env) (Env.Date_getTime env) (Env.Date_now env)
    (Env.traceId env) (Env.MISTRAL_API_KEY env) (Env.chat_complete env)
    (Env.JSON_parse env) (Env.Number_toString env) stream_ok emit_ok.

(** No store write follows a notification. *)
Fixpoint writes_precede_notifications (tr : list Effect) : bool :=
  match tr with
  | [] => true
  | e :: tr' =>
      if is_notification e
      then forallb (fun e' => negb (is_store_write e')) tr'
      else writes_precede_notifications tr'
  end.

Definition is_set (group key : string) (e : Effect) : bool :=
  match e with
  | StateSet g k => String.eqb g group && String.eqb k key
  | _ => false
  end.

(** When the trace reaches its first notification, the content record and
    the workflow record of [contentId] have both been written; [c] and [w]
    tell whether they were written so far. *)
Fixpoint status_written_first (contentId : string) (c w : bool)
    (tr : list Effect) : bool :=
  match tr with
  | [] => true
  | e :: tr' =>
      if is_notification e then c && w
      else status_written_first contentId
             (c || is_set "content" contentId e)
             (w || is_set "workflow" contentId e) tr'
  end.

(** The content record and the workflow record of [contentId] both carry
    one of the given statuses. *)
Definition stored_status (s : Store.t) (contentId : string)
    (allowed : list WorkflowStatus.t) : Prop :=
  exists cs st,
    Store.content s !! contentId = Some cs /\
    ContentState.workflowStatus cs = st /\
    Store.workflow s !! contentId = Some (WorkflowRecord.mk st contentId) /\
    In st allowed.

(** The creation time of the item parses and lies more than 90 days
    before the current time. *)
Definition older_than_90_days (env : Env.t) (c : ContentState.t) : Prop :=
  exists t,
    Env.Date_getTime env (ContentState.createdAt c) = Some t /\
    (90 * (24 * 60 * 60 * 1000) < Env.Date_now env - t)%Z.

Definition terminal (st : WorkflowStatus.t) : Prop :=
  st = WorkflowStatus.completed \/ st = WorkflowStatus.failed \/
  st = WorkflowStatus.rejected.

(** Every content record is kept under its own contentId, as the creation
    handler stores it. *)
Definition keyed_by_contentId (s : Store.t) : Prop :=
  forall k c, Store.content s !! k = Some c -> ContentState.contentId c = k.

(** ASCII letters and their case, for the statements about language
    codes. *)
Definition is_lower_letter (c : ascii) : bool :=
  ((97 <=? JS.code c) && (JS.code c <=? 122))%N.

Definition upper_char (c : ascii) : ascii :=
  if is_lower_letter c then ascii_of_N (JS.code c - 32) else c.

(** [v] spells the lower-case word [c], each letter in either case. *)
Fixpoint casing_variant (v c : string) : bool :=
  match v, c with
  | EmptyString, EmptyString => true
  | String a v', String b c' =>
      is_lower_letter b && (Ascii.eqb a b || Ascii.eqb a (upper_char b)) &&
      casing_variant v' c'
  | _, _ => false
  end.

(** ** Concrete inputs *)

(** An analysis of quality 85 whose sentiment is not 'positive'. *)
Definition analysis_85_neutral : AIAnalysisResult.t :=
  AIAnalysisResult.mk (JS.JStr "neutral") [] (JS.num 70) (JS.num 120)
    (JS.num 85) "A summary." [] [] "2025-01-01T00:00:00.000Z".


(** A collaborator set in which everything succeeds; the LLM answers with
    text that is not JSON. *)
Definition sample_env : Env.t :=
  Env.mk (fun n => "2025-06-01T10:00:0" +:+ pretty n +:+ ".000Z")
    (fun _ => None) 1748772000000 "trace-1" true (Some "I cannot answer.")
    (fun _ => None) (fun _ => "0") true true.

Definition sample_content (body language : string) : ContentState.t :=
  ContentState.mk "c1" "A title of some length" body "Ann" language None
    "2025-01-01T00:00:00.000Z" "2025-01-01T00:00:00.000Z"
    WorkflowStatus.pending None None None None.

Definition sample_store (c : ContentState.t) : Store.t :=
  Store.with_content (insert (ContentState.contentId c) c) Store.empty.

(** Collaborators whose LLM answers with the JSON text of an object that
    has one member, [wordCount], of value 250; ["034"] is the double
    quote. *)
Definition wordy_text : string :=
  "{" +:+ String "034"%char "wordCount" +:+ String "034"%char ": 250}".

Definition wordy_json : JS.json :=
  JS.JObj [("wordCount", JS.JNum (JS.Fin 250))].

Definition wordy_env : Env.t :=
  Env.mk (Env.clock sample_env) (fun _ => None) 1748772000000 "trace-1" true
    (Some wordy_text)
    (fun s => if String.eqb s wordy_text then Some wordy_json else None)
    (fun _ => "0") true true.

(** A content record that was analysed and has a finished rewrite. *)
Definition improved_content : ContentState.t :=
  ContentState.mk "c1" "A title of some length" "The old body." "Ann" "en"
    None "2025-01-01T00:00:00.000Z" "2025-01-02T00:00:00.000Z"
    WorkflowStatus.completed None (Some analysis_85_neutral)
    (Some [GenerateRecommendations.publishing "c1" analysis_85_neutral])
    (Some (ImprovedContent.mk "The old body." "The new body."
             "2025-01-02T00:00:00.000Z" ImprovedContent.completed None)).

Definition apply_request : Http.Request :=
  Http.mkRequest (Some "c1") None None None.

(** A clock for the retention job: the one creation date it knows lies 151
    days before the current time. *)
Definition retention_env : Env.t :=
  Env.mk (Env.clock sample_env)
    (fun s => if String.eqb s "2025-01-01T00:00:00.000Z"
              then Some 1735689600000%Z else None)
    1748772000000 "trace-1" true None (fun _ => None) (fun _ => "0")
    true true.

Definition old_item (contentId : string) (status : WorkflowStatus.t)
    : ContentState.t :=
  ContentState.mk contentId "A title of some length" "A body." "Ann" "en"
    None "2025-01-01T00:00:00.000Z" "2025-01-01T00:05:00.000Z" status
    None None None None.

Definition retention_store : Store.t :=
  Store.with_workflow
    (insert "c1" (WorkflowRecord.mk WorkflowStatus.completed "c1"))
    (Store.with_content
       (insert "c1" (old_item "c1" WorkflowStatus.completed))
       (Store.with_content
          (insert "c2" (old_item "c2" WorkflowStatus.analyzing))
          Store.empty)).

(** An upvote of user-7 on the recommendation of [improved_content]. *)
Definition vote_request : Http.Request :=
  Http.mkRequest (Some "c1") (Some "rec_c1_publish_2") (Some "user-7")
    (Some "up").

(** ** Creation handler ([create-content.step.ts]) *)

Module CreateContent.
Import Http.

(** [req.body] as a [Partial<ContentInput>]; [None] is a missing member. *)
Record Input : Type := mkInput {
  title : option string;
  body : option string;
  author : option string;
  language : option string;
  userId : option string
}.

Section WithEnv.
Variable env : Env.t.
(** [Math.random().toString(36).substring(2, 9)] *)
Variable randomSuffix : string.

(** [`content_${timestamp}_${randomSuffix}`] with [timestamp = Date.now()] *)
Definition new_contentId : string :=
  "content_" +:+ pretty (Env.Date_now env) +:+ "_" +:+ randomSuffix.

Definition handler (input : Input) : M Response :=
  try_catch
    (if missing (title input) || missing (body input) ||
        missing (author input) || missing (language input) then
       ret (mkResponse 400
              (JS.JObj [("error", JS.JStr "Missing required fields");
                        ("required",
                          JS.JArr [JS.JStr "title"; JS.JStr "body";
                                   JS.JStr "author"; JS.JStr "language"])]))
     else
       let contentId := new_contentId in
       let* now := now env in
       let contentState :=
         ContentState.mk contentId (text (title input)) (text (body input))
           (text (author input)) (text (language input)) (userId input)
           now now WorkflowStatus.pending None None None None in
       set_content contentId contentState;;
       set_workflow contentId
         (WorkflowRecord.mk WorkflowStatus.pending contentId);;
       emit env "content.created" (DContent contentId (Env.traceId env));;
       ret (mkResponse 201
              (JS.JObj
                 [("contentId", JS.JStr contentId);
                  ("status", JS.JStr (status_text WorkflowStatus.pending));
                  ("message",
                    JS.JStr
                      "Content submitted successfully. Analysis in progress.")])))
    (fun _ =>
       ret (mkResponse 500
              (JS.JObj
                 [("error", JS.JStr "Internal server error");
                  ("message",
                    JS.JStr "Failed to process content submission")]))).
End WithEnv.
End CreateContent.

(** ** Deletion handler ([delete-content.step]) *)

Module DeleteContent.
Import Http.

Definition handler (req : Request) : M Response :=
  try_catch
    (if missing (id req) then
       ret (mkResponse 400
              (JS.JObj [("error", JS.JStr "Content ID is required")]))
     else
       let contentId := text (id req) in
       let* found := get_content contentId in
       match found with
       | None =>
           ret (mkResponse 404
                  (JS.JObj [("error", JS.JStr "Content not found");
                            ("contentId", JS.JStr contentId)]))
       | Some _ =>
           delete_content contentId;;
           delete_workflow contentId;;
           ret (mkResponse 200
                  (JS.JObj
                     [("success", JS.JBool true);
                      ("message", JS.JStr "Content deleted successfully");
                      ("contentId", JS.JStr contentId)]))
       end)
    (fun _ =>
       ret (mkResponse 500
              (JS.JObj [("error", JS.JStr "Internal server error");
                        ("message", JS.JStr "Failed to delete content")]))).
End DeleteContent.

(** ** Read handler ([get-content.step]) *)

Module GetContent.
(** The body of the 200 answer. *)
Record View : Type := mkView {
  contentId : string;
  title : string;
  body : string;
  author : string;
  language : string;
  createdAt : string;
  updatedAt : string;
  status : WorkflowStatus.t;
  validation : option ValidationResult.t;
  analysis : option AIAnalysisResult.t;
  recommendations : list Recommendation.t;
  improvedContent : option ImprovedContent.t
}.

Inductive Body : Type :=
  | Failure (error : JS.json)
  | Found (view : View).

Record Response : Type := mkResponse {
  code : nat;
  answer : Body
}.

Definition view_of (contentState : ContentState.t) : View :=
  mkView (ContentState.contentId contentState)
    (ContentState.title contentState) (ContentState.body contentState)
    (ContentState.author contentState) (ContentState.language contentState)
    (ContentState.createdAt contentState)
    (ContentState.updatedAt contentState)
    (ContentState.workflowStatus contentState)
    (ContentState.validationResult contentState)
    (ContentState.aiAnalysis contentState)
    (default [] (ContentState.recommendations contentState))
    (ContentState.improvedContent contentState).

Definition handler (req : Http.Request) : M Response :=
  try_catch
    (if Http.missing (Http.id req) then
       ret (mkResponse 400
              (Failure
                 (JS.JObj [("error", JS.JStr "Content ID is required")])))
     else
       let contentId := Http.text (Http.id req) in
       let* found := get_content contentId in
       match found with
       | None =>
           ret (mkResponse 404
                  (Failure
                     (JS.JObj [("error", JS.JStr "Content not found");
                               ("contentId", JS.JStr contentId)])))
       | Some contentState => ret (mkResponse 200 (Found (view_of contentState)))
       end)
    (fun _ =>
       ret (mkResponse 500
              (Failure
                 (JS.JObj
                    [("error", JS.JStr "Internal server error");
                     ("message", JS.JStr "Failed to fetch content data")])))).
End GetContent.

(** ** Improvement request handler ([request-content-improvement.step.ts]) *)

Module RequestContentImprovement.
Import Http.

Section WithEnv.
Variable env : Env.t.

Definition handler (req : Request) : M Response :=
  try_catch
    (if missing (id req) then
       ret (mkResponse 400
              (JS.JObj [("error", JS.JStr "Content ID is required")]))
     else
       let contentId := text (id req) in
       let* found := get_content contentId in
       match found with
       | None =>
           ret (mkResponse 404
                  (JS.JObj [("error", JS.JStr "Content not found");
                            ("contentId", JS.JStr contentId)]))
       | Some contentState =>
           match ContentState.aiAnalysis contentState with
           | None =>
               ret (mkResponse 400
                      (JS.JObj
                         [("error",
                            JS.JStr
                              "Content analysis must be complete before requesting improvement");
                          ("contentId", JS.JStr contentId);
                          ("currentStatus",
                            JS.JStr
                              (status_text
                                 (ContentState.workflowStatus contentState)))]))
           | Some _ =>
               if bool_decide
                    (ImprovedContent.status <$>
                       ContentState.improvedContent contentState
                     = Some ImprovedContent.generating) then
                 ret (mkResponse 409
                        (JS.JObj
                           [("error",
                              JS.JStr
                                "Improvement generation already in progress");
                            ("contentId", JS.JStr contentId)]))
               else
                 emit env "content.improvement.requested"
                   (DContent contentId (Env.traceId env));;
                 ret (mkResponse 202
                        (JS.JObj
                           [("contentId", JS.JStr contentId);
                            ("message",
                              JS.JStr "Improvement generation started");
                            ("status", JS.JStr "generating")]))
           end
       end)
    (fun _ =>
       ret (mkResponse 500
              (JS.JObj
                 [("error", JS.JStr "Internal server error");
                  ("message",
                    JS.JStr "Failed to process improvement request")]))).
End WithEnv.
End RequestContentImprovement.

(** ** Improvement generation ([generate-improved-content.step]) *)

Module GenerateImprovedContent.
(** [\w] of a regular expression *)
Definition is_word (c : ascii) : bool :=
  let n := JS.code c in
  ((48 <=? n) && (n <=? 57) || (65 <=? n) && (n <=? 90) ||
   (97 <=? n) && (n <=? 122) || (n =? 95))%N.

Fixpoint skip_word (s : string) : string :=
  match s with
  | EmptyString => EmptyString
  | String c s' => if is_word c then skip_word s' else s
  end.

(** [s.replace(/```[\w]*\n?/g, '')]; [fuel] is set to the length of the
    string. *)
Fixpoint remove_fences (fuel : nat) (s : string) : string :=
  match fuel with
  | O => s
  | S fuel' =>
      match s with
      | EmptyString => EmptyString
      | String c s' =>
          if String.prefix "```" s then
            let rest := skip_word (JS.drop_chars 3 s) in
            let rest' :=
              match rest with
              | String c' r => if Ascii.eqb c' "010"%char then r else rest
              | EmptyString => rest
              end in
            remove_fences fuel' rest'
          else String c (remove_fences fuel' s')
      end
  end.

(** Clean response. *)
Definition clean (response : string) : string :=
  let improvedBody := JS.trim response in
  if JS.startsWith "```" improvedBody
  then JS.trim (remove_fences (String.length improvedBody) improvedBody)
  else improvedBody.

Section WithEnv.
Variable env : Env.t.

Definition draft (contentState : ContentState.t) (improvedBody : string)
    (status : ImprovedContent.progress) (generatedAt : string)
    : ImprovedContent.t :=
  ImprovedContent.mk (ContentState.body contentState) improvedBody
    generatedAt status None.

(** [contentState.improvedContent = ...; contentState.updatedAt = ...;
    await state.set('content', contentId, contentState)] *)
Definition store_draft (contentId : string) (contentState : ContentState.t)
    (improvedBody : string) (status : ImprovedContent.progress)
    : M ContentState.t :=
  let* generatedAt := now env in
  let* updatedAt := now env in
  let contentState :=
    ContentState.with_updatedAt updatedAt
      (ContentState.with_improvedContent
         (Some (draft contentState improvedBody status generatedAt))
         contentState) in
  set_content contentId contentState;;
  ret contentState.

Definition handler (contentId : string) : M unit :=
  try_catch
    (if negb (Env.MISTRAL_API_KEY env) then
       throw "MISTRAL_API_KEY environment variable is required"
     else
       let* found := get_content contentId in
       match found with
       | None => ret tt
       | Some contentState =>
           match ContentState.aiAnalysis contentState with
           | None => ret tt
           | Some aiAnalysis =>
               let* contentState :=
                 store_draft contentId contentState EmptyString
                   ImprovedContent.generating in
               try_catch
                 (let* timestamp := now env in
                  stream_send env contentId "improvement_started")
                 (fun _ => ret tt);;
               let* improvedBody :=
                 match Env.chat_complete env with
                 | Some response => ret (clean response)
                 | None =>
                     store_draft contentId contentState EmptyString
                       ImprovedContent.failed;;
                     throw "Mistral AI API call failed"
                 end in
               if String.eqb improvedBody EmptyString then
                 throw "Empty response from AI"
               else
                 store_draft contentId contentState improvedBody
                   ImprovedContent.completed;;
                 try_catch
                   (let* timestamp := now env in
                    stream_send env contentId "improvement_completed")
                   (fun _ => ret tt);;
                 try_catch
                   (emit env "content.improvement.completed"
                      (DContent contentId (Env.traceId env)))
                   (fun _ => ret tt)
           end
       end)
    (fun _ =>
       try_catch
         (let* found := get_content contentId in
          match found with
          | Some contentState =>
              match ContentState.improvedContent contentState with
              | Some improvedContent =>
                  if bool_decide (ImprovedContent.status improvedContent
                                  = ImprovedContent.generating) then
                    let* updatedAt := now env in
                    set_content contentId
                      (ContentState.with_updatedAt updatedAt
                         (ContentState.with_improvedContent
                            (Some
                               (ImprovedContent.mk
                                  (ImprovedContent.originalBody improvedContent)
                                  (ImprovedContent.improvedBody improvedContent)
                                  (ImprovedContent.generatedAt improvedContent)
                                  ImprovedContent.failed
                                  (ImprovedContent.appliedAt improvedContent)))
                            contentState))
                  else ret tt
              | None => ret tt
              end
          | None => ret tt
          end)
         (fun _ => ret tt)).
End WithEnv.
End GenerateImprovedContent.


(** ** Vocabulary and inputs of the further properties *)

(** [x] is the number [q]. *)
Definition is_number (q : Q) (x : JS.number) : Prop :=
  match x with
  | Some (JS.Fin p) => (p == q)%Q
  | _ => False
  end.

(** [x] is what clamping the member [v] to the interval from 0 to 100
    gives: [v] itself inside the interval, the nearer bound outside, and 50
    when [v] is missing or not a number. *)
Definition clamped_to_0_100 (v : option JS.json) (x : JS.number) : Prop :=
  match v with
  | Some (JS.JNum (JS.Fin q)) =>
      ((q < 0)%Q -> is_number 0 x) /\
      ((0 <= q)%Q /\ (q <= 100)%Q -> is_number q x) /\
      ((100 < q)%Q -> is_number 100 x)
  | Some (JS.JNum JS.NegInf) => is_number 0 x
  | Some (JS.JNum JS.PosInf) => is_number 100 x
  | _ => is_number 50 x
  end.

(** A body of 113 characters. *)
Definition long_body : string :=
  "Formal methods let a team state what a program must do and then check, by proof, that the code does exactly that.".

(** Collaborators whose LLM call fails. *)
Definition silent_env : Env.t :=
  Env.mk (Env.clock sample_env) (fun _ => None) 1748772000000 "trace-1" true
    None (fun _ => None) (fun _ => "0") true true.

(** [s] between double quotes; ["034"] is the double quote. *)
Definition quoted (s : string) : string :=
  String "034"%char s +:+ String "034"%char EmptyString.

(** Collaborators whose LLM answers with the JSON text of an object that
    gives a readabilityScore of 130 and a qualityScore of 72. *)
Definition scored_text : string :=
  "{" +:+ quoted "readabilityScore" +:+ ": 130, " +:+
  quoted "qualityScore" +:+ ": 72}".

Definition scored_json : JS.json :=
  JS.JObj [("readabilityScore", JS.JNum (JS.Fin 130));
           ("qualityScore", JS.JNum (JS.Fin 72))].

Definition scored_env : Env.t :=
  Env.mk (Env.clock sample_env) (fun _ => None) 1748772000000 "trace-1" true
    (Some scored_text)
    (fun s => if String.eqb s scored_text then Some scored_json else None)
    (fun _ => "0") true true.

(** Collaborators whose LLM answers with the JSON text [42]. *)
Definition bare_env : Env.t :=
  Env.mk (Env.clock sample_env) (fun _ => None) 1748772000000 "trace-1" true
    (Some "42")
    (fun s => if String.eqb s "42" then Some (JS.JNum (JS.Fin 42)) else None)
    (fun _ => "0") true true.

(** Whether the character [c] occurs in [s]. *)
Fixpoint occurs (c : ascii) (s : string) : bool :=
  match s with
  | EmptyString => false
  | String a s' => Ascii.eqb a c || occurs c s'
  end.

(** The line feed, as a string. *)
Definition LF : string := String "010"%char EmptyString.

(** The vote request names a content item, a recommendation and a user,
    none of them empty, and its vote is 'up' or 'down'. *)
Definition well_formed_vote (req : Http.Request) : Prop :=
  Http.missing (Http.id req) = false /\
  Http.missing (Http.recId req) = false /\
  Http.missing (Http.userId req) = false /\
  In (Http.text (Http.vote req)) ["up"; "down"].

(** The recommendations kept on a content record. *)
Definition recommendations_of (c : ContentState.t) : list Recommendation.t :=
  default [] (ContentState.recommendations c).

(** The request names stored content [cs] whose rewrite [ic] is finished
    and not empty: what both apply handlers ask for. *)
Definition applicable (s : Store.t) (req : Http.Request)
    (cs : ContentState.t) (ic : ImprovedContent.t) : Prop :=
  Http.missing (Http.id req) = false /\
  Store.content s !! Http.text (Http.id req) = Some cs /\
  ContentState.improvedContent cs = Some ic /\
  ImprovedContent.status ic = ImprovedContent.completed /\
  ImprovedContent.improvedBody ic <> EmptyString.

(** The items the retention job deletes: created before the threshold and
    in a final state. *)
Definition removable (env : Env.t) (c : ContentState.t) : bool :=
  DailyProcessing.stale env c &&
  WorkflowStatus.is_final (ContentState.workflowStatus c).

(** [updatedAt - createdAt] of an item, in milliseconds. *)
Definition duration (env : Env.t) (c : ContentState.t) : option Z :=
  DailyProcessing.minus
    (Env.Date_getTime env (ContentState.updatedAt c))
    (Env.Date_getTime env (ContentState.createdAt c)).

Definition is_completed (c : ContentState.t) : bool :=
  bool_decide (ContentState.workflowStatus c = WorkflowStatus.completed).

(** A complete submission. *)
Definition sample_input : CreateContent.Input :=
  CreateContent.mkInput (Some "A title of some length") (Some long_body)
    (Some "Ann") (Some "en") (Some "user-7").

(** The submission names a title, a body, an author and a language, none
    of them empty. *)
Definition complete (input : CreateContent.Input) : Prop :=
  Http.missing (CreateContent.title input) = false /\
  Http.missing (CreateContent.body input) = false /\
  Http.missing (CreateContent.author input) = false /\
  Http.missing (CreateContent.language input) = false.

(** A request that names a content item only. *)
Definition content_request (contentId : string) : Http.Request :=
  Http.mkRequest (Some contentId) None None None.

(** The request names stored content [cs] that has an analysis and no
    rewrite in progress: what the improvement request handler asks for. *)
Definition improvable (s : Store.t) (req : Http.Request)
    (cs : ContentState.t) : Prop :=
  Http.missing (Http.id req) = false /\
  Store.content s !! Http.text (Http.id req) = Some cs /\
  is_Some (ContentState.aiAnalysis cs) /\
  ImprovedContent.status <$> ContentState.improvedContent cs
  <> Some ImprovedContent.generating.

(** One invocation of a handler, whatever it answers. *)
Inductive Invocation : Type :=
  | Create (randomSuffix : string) (input : CreateContent.Input)
  | Read (req : Http.Request)
  | Delete (req : Http.Request)
  | Vote (req : Http.Request)
  | Apply (req : Http.Request)
  | ApplyReanalyze (req : Http.Request)
  | RequestImprovement (req : Http.Request)
  | Validate (contentId : string)
  | Analyze (contentId : string)
  | Recommend (contentId : string) (aiAnalysis : AIAnalysisResult.t)
  | Improve (contentId : string)
  | Daily.

(** The store an invocation leaves, with the collaborators [env] and the
    clock at its [n]-th reading. *)
Definition invoke (env : Env.t) (n : nat) (i : Invocation) (s : Store.t)
    : Store.t :=
  let w := World.mk s n [] in
  World.store
    match i with
    | Create randomSuffix input =>
        after (CreateContent.handler env randomSuffix input) w
    | Read req => after (GetContent.handler req) w
    | Delete req => after (DeleteContent.handler req) w
    | Vote req => after (VoteRecommendation.handler env req) w
    | Apply req => after (ApplyImprovedContent.handler env req) w
    | ApplyReanalyze req => after (ApplyAndReanalyze.handler env req) w
    | RequestImprovement req =>
        after (RequestContentImprovement.handler env req) w
    | Validate contentId => after (ValidateContent.handler env contentId) w
    | Analyze contentId => after (AnalyzeWithAI.handler env contentId) w
    | Recommend contentId aiAnalysis =>
        after (GenerateRecommendations.handler env contentId aiAnalysis) w
    | Improve contentId =>
        after (GenerateImprovedContent.handler env contentId) w
    | Daily => after (DailyProcessing.handler env) w
    end.

(** The store after a sequence of invocations, each with its own
    collaborators. *)
Definition replay (calls : list (Env.t * nat * Invocation)) (s : Store.t)
    : Store.t :=
  fold_left (fun s c => invoke c.1.1 c.1.2 c.2 s) calls s.

(** Every content record is kept under its own contentId and has a
    workflow record that carries its contentId and its status. *)
Definition kept (c : gmap string ContentState.t)
    (w : gmap string WorkflowRecord.t) : Prop :=
  forall k cs,
    c !! k = Some cs ->
    ContentState.contentId cs = k /\
    w !! k = Some (WorkflowRecord.mk (ContentState.workflowStatus cs) k).

Definition well_kept (s : Store.t) : Prop :=
  kept (Store.content s) (Store.workflow s).
(** ** The JavaScript helpers at work *)

Lemma drop_chars_length (k : nat) (s : string) :
  String.length (JS.drop_chars k s) = (String.length s - k)%nat.
Proof.
  revert s. induction k as [|k IH]; intros [|c s]; simpl; auto; lia.
Qed.

(** Fuel equal to the length of the string is enough for [remove_all]:
    more fuel gives the same result. *)
Lemma remove_all_enough (pat : string) (fuel : nat) :
  pat <> EmptyString ->
  forall s, (String.length s <= fuel)%nat ->
  JS.remove_all fuel pat s = JS.removeFence pat s.
Proof.
  intros Hpat. unfold JS.removeFence.
  assert (H : forall f1 f2 s,
             (String.length s <= f1)%nat -> (String.length s <= f2)%nat ->
             JS.remove_all f1 pat s = JS.remove_all f2 pat s).
  { induction f1 as [|f1 IH]; intros f2 s H1 H2.
    - destruct s; [|simpl in H1; lia]. destruct f2; reflexivity.
    - destruct f2 as [|f2]; [destruct s; [reflexivity|simpl in H2; lia]|].
      destruct s as [|c s]; [reflexivity|].
      cbn [JS.remove_all]. destruct (String.prefix pat (String c s)).
      + assert (Hlen : (String.length
                          (JS.drop_chars (String.length pat) (String c s))
                        <= String.length s)%nat).
        { rewrite drop_chars_length. destruct pat; [congruence|].
          simpl. lia. }
        destruct (JS.drop_chars (String.length pat) (String c s))
          as [|c' r]; [apply IH; simpl in *; lia|].
        destruct (Ascii.eqb c' "010"); apply IH; simpl in *; lia.
      + f_equal. apply IH; simpl in *; lia. }
  intros s Hs. apply H; [exact Hs|lia].
Qed.

Example split_ws_words : JS.split_ws "One two  three" = ["One"; "two"; "three"].
Proof. reflexivity. Qed.
Example split_ws_edges : JS.split_ws " a " = [""; "a"; ""].
Proof. reflexivity. Qed.
Example split_ws_empty : JS.split_ws "" = [""].
Proof. reflexivity. Qed.
Example trim_both : JS.trim "  a b  " = "a b".
Proof. reflexivity. Qed.
Example toLowerCase_mixed : JS.toLowerCase "Fr-CA" = "fr-ca".
Proof. reflexivity. Qed.
Example clean_fenced : AnalyzeWithAI.clean " ```json{}``` " = "{}".
Proof. reflexivity. Qed.
Example clean_plain : AnalyzeWithAI.clean " {} " = "{}".
Proof. reflexivity. Qed.

(** ** Recommendation rules *)

Section RecommendationRules.
Variable Number_toString : JS.xreal -> string.
Variable contentId : string.

Import GenerateRecommendations.

Lemma ge_at_least (x : JS.number) (q : Q) :
  JS.ge x (JS.num q) = true <-> at_least q x.
Proof.
  destruct x as [[|p|]|]; simpl; try (split; [discriminate|tauto]);
    try tauto.
  apply Qle_bool_iff.
Qed.

Lemma publishing_kind (a : AIAnalysisResult.t) :
  is_publish_or_review (publishing contentId a) = true.
Proof.
  unfold publishing.
  destruct (JS.ge _ (JS.num 80) && _); [reflexivity|].
  destruct (JS.ge _ (JS.num 60)); reflexivity.
Qed.

Lemma additional_kind (a : AIAnalysisResult.t) :
  forallb is_improve_or_optimize (additional Number_toString contentId a)
  = true.
Proof.
  unfold additional.
  rewrite !forallb_app.
  repeat match goal with
         | |- context [if ?c then _ else _] => destruct c
         end; reflexivity.
Qed.

Lemma kinds_disjoint (r : Recommendation.t) :
  is_improve_or_optimize r = true -> is_publish_or_review r = false.
Proof.
  unfold is_improve_or_optimize, is_publish_or_review.
  destruct (Recommendation.type r); congruence.
Qed.

Lemma additional_not_publishing (a : AIAnalysisResult.t) :
  List.filter is_publish_or_review (additional Number_toString contentId a)
  = [].
Proof.
  pose proof (additional_kind a) as H.
  induction (additional Number_toString contentId a) as [|r l IH];
    [reflexivity|].
  simpl in *. apply andb_true_iff in H as [Hr Hl].
  rewrite (kinds_disjoint r Hr). auto.
Qed.

(** C3.  Whatever the analysis, the list the recommendation stage builds
    starts with the one recommendation of the publish/review chain, that
    recommendation is the only one of type publish or review in the list,
    and everything after it is of type improve or optimize: the later
    rules append to the list and leave its head in place. *)
Theorem C3_one_publish_or_review_first (a : AIAnalysisResult.t) :
  let l := generate Number_toString contentId a in
  hd_error l = Some (publishing contentId a) /\
  l = publishing contentId a :: additional Number_toString contentId a /\
  List.filter is_publish_or_review l = [publishing contentId a] /\
  List.length (List.filter is_publish_or_review l) = 1%nat /\
  forallb is_improve_or_optimize (tl l) = true.
Proof.
  cbv zeta. unfold generate. cbn [hd_error tl List.filter].
  rewrite publishing_kind, additional_not_publishing.
  repeat split. apply additional_kind.
Qed.

Lemma minor_edits_publishing (a : AIAnalysisResult.t) :
  minor_edits (publishing contentId a) <->
  JS.ge (AIAnalysisResult.qualityScore a) (JS.num 80) &&
    is_positive (AIAnalysisResult.sentiment a) = false /\
  JS.ge (AIAnalysisResult.qualityScore a) (JS.num 60) = true.
Proof.
  unfold publishing, minor_edits.
  destruct (JS.ge _ (JS.num 80) && _).
  - cbn. split; [intros (_ & H & _); discriminate H|intros [H _]; discriminate H].
  - destruct (JS.ge _ (JS.num 60)); cbn.
    + tauto.
    + split; [intros (H & _); discriminate H|intros [_ H]; discriminate H].
Qed.

Lemma minor_edits_additional (a : AIAnalysisResult.t) (r : Recommendation.t) :
  In r (additional Number_toString contentId a) -> ~ minor_edits r.
Proof.
  intros Hin [Hty _].
  pose proof (additional_kind a) as H.
  rewrite forallb_forall in H. specialize (H r Hin).
  unfold is_improve_or_optimize in H. rewrite Hty in H. discriminate.
Qed.

(** C4, as amended.  The stage produces the recommendation "Publish with
    Minor Edits" (type publish, priority medium) exactly when the quality
    score is at least 60 and the first rule did not fire, that is, unless
    the score is at least 80 with sentiment 'positive'.  A score of 80 or
    more with another sentiment gets it too. *)
Theorem C4_minor_edits_rule (a : AIAnalysisResult.t) :
  produces_minor_edits (generate Number_toString contentId a) <->
  at_least 60 (AIAnalysisResult.qualityScore a) /\
  ~ (at_least 80 (AIAnalysisResult.qualityScore a) /\
     AIAnalysisResult.sentiment a = JS.JStr "positive").
Proof.
  assert (Hpos : is_positive (AIAnalysisResult.sentiment a) = true <->
                 AIAnalysisResult.sentiment a = JS.JStr "positive").
  { unfold is_positive. destruct (AIAnalysisResult.sentiment a); try (split; discriminate).
    rewrite String.eqb_eq. split; congruence. }
  rewrite <- !ge_at_least, <- Hpos, <- andb_true_iff, not_true_iff_false.
  unfold produces_minor_edits, generate. split.
  - intros [r [[<-|Hin] Hr]].
    + apply minor_edits_publishing in Hr. tauto.
    + exfalso. eapply minor_edits_additional; eauto.
  - intros [H60 H80]. exists (publishing contentId a). split; [now left|].
    apply minor_edits_publishing. tauto.
Qed.
End RecommendationRules.

(** The claim C4 as stated fails at [analysis_85_neutral]: the stage
    produces "Publish with Minor Edits" although 85 is not in [60,80). *)
Lemma C4_counterexample :
  ~ (produces_minor_edits
       (GenerateRecommendations.generate (fun _ => "85") "c1"
          analysis_85_neutral) <->
     within_below 60 80 (AIAnalysisResult.qualityScore analysis_85_neutral)).
Proof.
  intros [H _].
  assert (Hp : produces_minor_edits
                 (GenerateRecommendations.generate (fun _ => "85") "c1"
                    analysis_85_neutral)).
  { eexists. split; [left; reflexivity|]. repeat split. }
  destruct (H Hp) as [_ Hlt]. revert Hlt. cbn. unfold Qlt. cbn. lia.
Qed.

(** ** Running the handlers *)

Ltac unfold_monad :=
  unfold after, result, try_catch, bind, ret, throw, perform, update_store,
    read_store, now, get_content, set_content, set_workflow, set_validation,
    set_ai_analysis, set_recommendations, get_votes, set_votes,
    delete_content, delete_workflow, stream_send, emit in *.

Arguments ValidateContent.errors : simpl never.
Arguments ValidateContent.warnings : simpl never.
Arguments AnalyzeWithAI.construct : simpl never.
Arguments AnalyzeWithAI.clean : simpl never.
Arguments GenerateRecommendations.generate : simpl never.

(** ** Recommendation stage *)

(** The run of the handler on stored content: it keeps the generated list
    on the content record and in the recommendations group and records
    'completed'. *)
Lemma handler_stores_recommendations (env : Env.t) (contentId : string)
    (aiAnalysis : AIAnalysisResult.t) (s : Store.t) (n : nat)
    (cs : ContentState.t) :
  Store.content s !! contentId = Some cs ->
  let l := GenerateRecommendations.generate (Env.Number_toString env)
             contentId aiAnalysis in
  let w' := after (GenerateRecommendations.handler env contentId aiAnalysis)
              (World.mk s n []) in
  Store.recommendations (World.store w') !! contentId = Some l /\
  exists cs',
    Store.content (World.store w') !! contentId = Some cs' /\
    ContentState.recommendations cs' = Some l /\
    ContentState.workflowStatus cs' = WorkflowStatus.completed.
Proof.
  intros Hc. cbv zeta.
  unfold GenerateRecommendations.handler. unfold_monad. cbn.
  rewrite Hc. cbn.
  destruct (Env.stream_ok env), (Env.emit_ok env); cbn;
    rewrite !lookup_insert_eq; eauto.
Qed.

(** ** Validation stage *)

Section Validation.
Import ValidateContent.
Variable env : Env.t.
Variable contentId : string.

(** The run of the handler on content with at least one error. *)
Lemma handler_rejects (s : Store.t) (n : nat) (cs : ContentState.t) :
  Store.content s !! contentId = Some cs ->
  errors cs <> [] ->
  let w' := after (handler env contentId) (World.mk s n []) in
  ValidationResult.isValid (validate cs (Env.clock env n)) = false /\
  Store.validation (World.store w') !! contentId
    = Some (validate cs (Env.clock env n)) /\
  Store.content (World.store w') !! contentId
    = Some (ContentState.with_workflowStatus WorkflowStatus.rejected
              (ContentState.with_updatedAt (Env.clock env (S n))
                 (ContentState.with_validationResult
                    (Some (validate cs (Env.clock env n))) cs))) /\
  Store.workflow (World.store w') !! contentId
    = Some (WorkflowRecord.mk WorkflowStatus.rejected contentId) /\
  World.trace w'
    = [StateSet "content" contentId; StateSet "validation" contentId;
       StateSet "content" contentId; StateSet "workflow" contentId;
       Emit "content.rejected"
         (DValidation contentId (validate cs (Env.clock env n)) (Env.traceId env))].
Proof.
  intros Hc He.
  unfold handler. unfold_monad. cbn. rewrite Hc. cbn.
  unfold validate.
  destruct (errors cs) as [|e l] eqn:Herr; [congruence|]. cbn.
  destruct (Env.emit_ok env); cbn;
    rewrite ?lookup_insert_eq; repeat split; reflexivity.
Qed.

Lemma short_body_error (cs : ContentState.t) :
  (String.length (ContentState.body cs) < 100)%nat -> errors cs <> [].
Proof.
  intros Hlen. unfold errors, body_error, MIN_BODY_LENGTH.
  destruct (Nat.ltb_spec (String.length (ContentState.body cs)) 100);
    [discriminate|lia].
Qed.

(** C7.  When the body of the stored content has fewer than 100
    characters, the validation stage stores a validation result with
    isValid = false (in the validation group and on the content record),
    sets workflowStatus to 'rejected' on the content record and on the
    workflow record, attempts exactly one emission, of content.rejected,
    and none of content.validated, so that no event of the run triggers
    the analysis step. *)
Theorem C7_short_body_is_rejected (s : Store.t) (n : nat)
    (cs : ContentState.t) :
  Store.content s !! contentId = Some cs ->
  (String.length (ContentState.body cs) < 100)%nat ->
  let w' := after (handler env contentId) (World.mk s n []) in
  exists vr cs',
    Store.validation (World.store w') !! contentId = Some vr /\
    ValidationResult.isValid vr = false /\
    Store.content (World.store w') !! contentId = Some cs' /\
    ContentState.validationResult cs' = Some vr /\
    ContentState.workflowStatus cs' = WorkflowStatus.rejected /\
    Store.workflow (World.store w') !! contentId
      = Some (WorkflowRecord.mk WorkflowStatus.rejected contentId) /\
    omap emitted_topic (World.trace w') = ["content.rejected"] /\
    ~ In "content.validated" (omap emitted_topic (World.trace w')) /\
    ~ In Step.AnalyzeWithAI (Step.triggered (World.trace w')).
Proof.
  intros Hc Hlen.
  destruct (handler_rejects s n cs Hc (short_body_error cs Hlen))
    as (Hv & Hval & Hcont & Hwf & Htr).
  cbv zeta. rewrite Htr. eexists _, _.
  split; [exact Hval|]. split; [exact Hv|]. split; [exact Hcont|].
  split; [reflexivity|]. split; [reflexivity|]. split; [exact Hwf|].
  split; [reflexivity|]. split.
  - cbn. intros [H|[]]. discriminate H.
  - cbn. tauto.
Qed.
End Validation.

(** C7 at the content ["c1"] with a body of 9 characters. *)
Lemma C7_witness :
  Store.content (sample_store (sample_content "too short" "en")) !! "c1"
    = Some (sample_content "too short" "en") /\
  (String.length (ContentState.body (sample_content "too short" "en"))
   < 100)%nat /\
  exists vr cs',
    let w' := after (ValidateContent.handler sample_env "c1")
                (World.mk (sample_store (sample_content "too short" "en"))
                   0 []) in
    Store.validation (World.store w') !! "c1" = Some vr /\
    ValidationResult.isValid vr = false /\
    Store.content (World.store w') !! "c1" = Some cs' /\
    ContentState.validationResult cs' = Some vr /\
    ContentState.workflowStatus cs' = WorkflowStatus.rejected /\
    Store.workflow (World.store w') !! "c1"
      = Some (WorkflowRecord.mk WorkflowStatus.rejected "c1") /\
    omap emitted_topic (World.trace w') = ["content.rejected"] /\
    ~ In "content.validated" (omap emitted_topic (World.trace w')) /\
    ~ In Step.AnalyzeWithAI (Step.triggered (World.trace w')).
Proof.
  split; [reflexivity|]. split; [cbn; lia|].
  apply (C7_short_body_is_rejected sample_env "c1"
           (sample_store (sample_content "too short" "en")) 0
           (sample_content "too short" "en")).
  - reflexivity.
  - cbn; lia.
Defined.

(** ** Language check *)

Section Language.
Import ValidateContent.

Lemma lower_char_variant (a b : ascii) :
  is_lower_letter b = true ->
  JS.lower_char a = b <-> (Ascii.eqb a b || Ascii.eqb a (upper_char b)) = true.
Proof.
  intros Hb. split.
  - intros <-. revert Hb.
    destruct a as [[] [] [] [] [] [] [] []]; vm_compute; congruence.
  - rewrite orb_true_iff, !Ascii.eqb_eq. intros [->| ->]; revert Hb;
      destruct b as [[] [] [] [] [] [] [] []]; vm_compute; congruence.
Qed.

Lemma toLowerCase_variant (c v : string) :
  casing_variant v c = true <->
  JS.toLowerCase v = c /\ casing_variant c c = true.
Proof.
  revert v. induction c as [|b c IH]; intros [|a v]; simpl;
    try (split; [discriminate|intros [H _]; discriminate H]).
  - tauto.
  - rewrite !andb_true_iff, IH, Ascii.eqb_refl. simpl. split.
    + intros [[Hb Ha] [Hv Hc]].
      apply (lower_char_variant a b Hb) in Ha. subst. tauto.
    + intros [Heq [[Hb _] Hc]]. injection Heq as Ha Hv.
      apply (lower_char_variant a b Hb) in Ha. tauto.
Qed.

Lemma supported_lower (c : string) :
  In c SUPPORTED_LANGUAGES -> casing_variant c c = true.
Proof.
  unfold SUPPORTED_LANGUAGES. simpl.
  intros H; repeat (destruct H as [<-|H]; [reflexivity|]). destruct H.
Qed.

Lemma language_ok_variant (language : string) :
  language_ok language = true <->
  exists c, In c SUPPORTED_LANGUAGES /\ casing_variant language c = true.
Proof.
  unfold language_ok, JS.includes. rewrite existsb_exists. split.
  - intros (c & Hin & Heq). apply String.eqb_eq in Heq. exists c.
    split; [exact Hin|]. apply toLowerCase_variant.
    split; [exact Heq|]. now apply supported_lower.
  - intros (c & Hin & Hv). exists c. split; [exact Hin|].
    apply toLowerCase_variant in Hv as [-> _]. apply String.eqb_refl.
Qed.

(** C10.  The validation stage lowercases the language before it looks it
    up in the list of the six supported codes.  Hence a language that
    spells a supported code, each letter in either case, passes the
    language check (no language error), and a language that spells none of
    them gives a language error, which makes the validation result invalid
    whatever the body is. *)
Theorem C10_language_check_ignores_case (cs : ContentState.t) :
  language_ok (ContentState.language cs)
    = JS.includes (JS.toLowerCase (ContentState.language cs))
        ["en"; "es"; "fr"; "de"; "it"; "pt"] /\
  ((exists c, In c SUPPORTED_LANGUAGES /\
              casing_variant (ContentState.language cs) c = true) ->
   language_error cs = []) /\
  ((forall c, In c SUPPORTED_LANGUAGES ->
              casing_variant (ContentState.language cs) c = false) ->
   (exists message, language_error cs = [message]) /\
   forall body validatedAt,
     language_error (ContentState.with_body body cs) = language_error cs /\
     ValidationResult.isValid
       (validate (ContentState.with_body body cs) validatedAt) = false).
Proof.
  split; [reflexivity|]. split.
  - intros H. apply language_ok_variant in H.
    unfold language_error. now rewrite H.
  - intros H.
    assert (Hno : language_ok (ContentState.language cs) = false).
    { apply not_true_iff_false. intros Hok.
      apply language_ok_variant in Hok as (c & Hin & Hv).
      rewrite (H c Hin) in Hv. discriminate. }
    assert (Herr : exists message, language_error cs = [message]).
    { unfold language_error. rewrite Hno. simpl. eauto. }
    split; [exact Herr|]. intros body validatedAt.
    split; [reflexivity|].
    destruct Herr as [message Herr].
    unfold validate, errors. cbn [ValidationResult.isValid].
    change (language_error (ContentState.with_body body cs))
      with (language_error cs).
    rewrite Herr, length_app, Nat.add_comm. reflexivity.
Qed.
End Language.

(** C10 at the languages ["Fr"] and ["xx"]. *)
Lemma C10_witness :
  (exists c, In c ValidateContent.SUPPORTED_LANGUAGES /\
             casing_variant "Fr" c = true) /\
  ValidateContent.language_error (sample_content "some body" "Fr") = [] /\
  (forall c, In c ValidateContent.SUPPORTED_LANGUAGES ->
             casing_variant "xx" c = false) /\
  (exists message,
     ValidateContent.language_error (sample_content "some body" "xx")
     = [message]) /\
  ValidationResult.isValid
    (ValidateContent.validate
       (ContentState.with_body "" (sample_content "some body" "xx")) "")
  = false.
Proof.
  assert (HFr : exists c, In c ValidateContent.SUPPORTED_LANGUAGES /\
                          casing_variant "Fr" c = true).
  { exists "fr". split; [cbn; tauto|reflexivity]. }
  assert (Hxx : forall c, In c ValidateContent.SUPPORTED_LANGUAGES ->
                          casing_variant "xx" c = false).
  { intros c Hin. cbn in Hin.
    repeat (destruct Hin as [<-|Hin]; [reflexivity|]). destruct Hin. }
  destruct (C10_language_check_ignores_case (sample_content "some body" "Fr"))
    as (_ & Hpass & _).
  destruct (C10_language_check_ignores_case (sample_content "some body" "xx"))
    as (_ & _ & Hfail).
  destruct (Hfail Hxx) as [Hmsg Hbody].
  split; [exact HFr|]. split; [exact (Hpass HFr)|]. split; [exact Hxx|].
  split; [exact Hmsg|]. exact (proj2 (Hbody "" "")).
Defined.

(** ** Status writes and notifications *)

Ltac finish :=
  cbn; rewrite ?String.eqb_refl; cbn;
  split; [reflexivity|]; split; [reflexivity|];
  split; [intros [] []; reflexivity|];
  first [ intros H; discriminate H
        | intros _; unfold stored_status; cbn; rewrite ?lookup_insert_eq;
          eexists _, _; repeat split; cbn; tauto ].

(** C1.  In each of the three stages (validation, analysis,
    recommendation) the content record and the workflow record are written
    before the first attempted stream push or emission and no write to the
    store follows one; the store the stage leaves is the same whether its
    pushes and emissions succeed or fail; and when the stage got as far as
    attempting a notification, the content record and the workflow record
    carry the status the stage records on completion ('validated' or
    'rejected', 'analyzed', 'completed'), so that after the analysis stage
    has persisted 'analyzed' a failing push or emission leaves it
    'analyzed'. *)
Theorem C1_status_written_before_notifications (st : Stage) (env : Env.t)
    (contentId : string) (aiAnalysis : AIAnalysisResult.t) (s : Store.t)
    (n : nat) :
  let w' := after (run_stage st env contentId aiAnalysis) (World.mk s n []) in
  status_written_first contentId false false (World.trace w') = true /\
  writes_precede_notifications (World.trace w') = true /\
  (forall stream_ok emit_ok,
     World.store
       (after (run_stage st (with_delivery stream_ok emit_ok env) contentId
                 aiAnalysis) (World.mk s n []))
     = World.store w') /\
  (existsb is_notification (World.trace w') = true ->
   stored_status (World.store w') contentId (completion st)).
Proof.
  destruct env as [clock gt dn tid key chat parse nts so eo].
  destruct st; cbn.
  - unfold ValidateContent.handler. unfold_monad. cbn.
    destruct (Store.content s !! contentId) as [cs|] eqn:Hc; cbn; [|finish].
    unfold ValidateContent.validate.
    destruct (ValidateContent.errors cs) as [|e l] eqn:He; cbn.
    + destruct so, eo; finish.
    + destruct eo; finish.
  - unfold AnalyzeWithAI.handler, AnalyzeWithAI.set_status,
      AnalyzeWithAI.parse.
    unfold_monad. cbn.
    destruct key; cbn;
      (destruct (Store.content s !! contentId) as [cs|] eqn:Hc; cbn;
       rewrite ?Hc; [|finish]).
    + destruct chat as [r|]; cbn.
      * destruct (parse (AnalyzeWithAI.clean r)) as [j|]; cbn.
        -- destruct j; cbn; rewrite ?lookup_insert_eq; cbn;
             try (destruct so, eo; finish);
             destruct (ContentState.aiAnalysis cs); unfold_monad; finish.
        -- destruct so, eo; finish.
      * rewrite lookup_insert_eq. cbn.
        destruct (ContentState.aiAnalysis cs); finish.
    + destruct (ContentState.aiAnalysis cs); finish.
  - unfold GenerateRecommendations.handler. unfold_monad. cbn.
    destruct (Store.content s !! contentId) as [cs|] eqn:Hc; cbn; [|finish].
    destruct so, eo; finish.
Qed.

(** The analysis of ["c1"] when both the push and the emission fail: the
    stored status is 'analyzed' all the same. *)
Example analyzed_survives_failed_notifications :
  let w' := after (AnalyzeWithAI.handler
                     (with_delivery false false sample_env) "c1")
              (World.init (sample_store (sample_content "One two" "en"))) in
  ContentState.workflowStatus <$> Store.content (World.store w') !! "c1"
    = Some WorkflowStatus.analyzed /\
  World.trace w'
    = [StateSet "content" "c1"; StateSet "workflow" "c1";
       StateSet "content" "c1"; StateSet "ai_analysis" "c1";
       StateSet "workflow" "c1"; StreamSend "c1" "analysis_completed";
       Emit "content.analyzed"
         (DAnalysis "c1"
            (AIAnalysisResult.mk (JS.JStr "neutral") [] (JS.num 50)
               (JS.num 2) (JS.num 50) "One two..." [] []
               "2025-06-01T10:00:01.000Z") "trace-1")].
Proof. split; reflexivity. Qed.

(** ** Analysis stage *)

Section Analysis.
Import AnalyzeWithAI.
Variable env : Env.t.
Variable contentId : string.

(** The run of the handler when the LLM answered and the parsed value is
    not [null]. *)
Lemma handler_stores_analysis (s : Store.t) (n : nat) (cs : ContentState.t)
    (r : string) :
  Env.MISTRAL_API_KEY env = true ->
  Store.content s !! contentId = Some cs ->
  Env.chat_complete env = Some r ->
  parse env (ContentState.body cs) r <> JS.JNull ->
  let a := construct (ContentState.body cs)
             (parse env (ContentState.body cs) r) (Env.clock env (S n)) in
  let w' := after (handler env contentId) (World.mk s n []) in
  Store.ai_analysis (World.store w') !! contentId = Some a /\
  exists cs',
    Store.content (World.store w') !! contentId = Some cs' /\
    ContentState.aiAnalysis cs' = Some a /\
    ContentState.workflowStatus cs' = WorkflowStatus.analyzed.
Proof.
  intros Hkey Hc Hchat Hnull. cbv zeta.
  unfold handler. unfold_monad. cbn.
  rewrite Hkey. cbn. rewrite Hc. cbn. rewrite Hchat. cbn.
  destruct (parse env (ContentState.body cs) r) eqn:Hp;
    [now destruct Hnull|..];
    cbn; destruct (Env.stream_ok env), (Env.emit_ok env); cbn;
    rewrite !lookup_insert_eq; eauto.
Qed.

Lemma length_append (a b : string) :
  String.length (a +:+ b) = (String.length a + String.length b)%nat.
Proof.
  induction a as [|c a IH]; [reflexivity|].
  change (String c a +:+ b) with (String c (a +:+ b)). simpl. congruence.
Qed.

Lemma substring_prefix (k : nat) (s : string) :
  String.length (JS.substring 0 k s) = Nat.min k (String.length s) /\
  exists rest, s = JS.substring 0 k s +:+ rest.
Proof.
  unfold JS.substring. rewrite Nat.sub_0_r. revert s.
  induction k as [|k IH]; intros s.
  - destruct s; simpl; eauto.
  - destruct s as [|c s]; simpl.
    + split; [reflexivity|]. exists EmptyString. reflexivity.
    + destruct (IH s) as [Hlen [rest Hrest]]. split; [congruence|].
      exists rest.
      change (String c (String.substring 0 k s) +:+ rest)
        with (String c (String.substring 0 k s +:+ rest)).
      congruence.
Qed.

Lemma construct_fallback (body analyzedAt : string) :
  construct body (fallback body) analyzedAt
  = AIAnalysisResult.mk (JS.JStr "neutral") [] (JS.num 50)
      (JS.of_nat (List.length (JS.split_ws body))) (JS.num 50)
      (JS.substring 0 200 body +:+ "...") [] [] analyzedAt.
Proof.
  unfold construct, fallback. cbn.
  unfold body_summary. rewrite length_append, Nat.add_comm. reflexivity.
Qed.

(** C5.  When the LLM answered and [JSON.parse] rejects the answer
    stripped of its code fences, the analysis stored for the content (in
    the ai_analysis group and on the content record) is the fallback
    computed from the body: sentiment 'neutral', no topics, strengths or
    weaknesses, readability and quality 50, wordCount the number of pieces
    [body.split(/\s+/)] gives, and summary the first 200 characters of the
    body (all of it when it is shorter) followed by '...'. *)
Theorem C5_fallback_analysis (s : Store.t) (n : nat) (cs : ContentState.t)
    (r : string) :
  Env.MISTRAL_API_KEY env = true ->
  Store.content s !! contentId = Some cs ->
  Env.chat_complete env = Some r ->
  Env.JSON_parse env (clean r) = None ->
  let w' := after (handler env contentId) (World.mk s n []) in
  let body := ContentState.body cs in
  let a := AIAnalysisResult.mk (JS.JStr "neutral") [] (JS.num 50)
             (JS.of_nat (List.length (JS.split_ws body))) (JS.num 50)
             (JS.substring 0 200 body +:+ "...") [] []
             (Env.clock env (S n)) in
  Store.ai_analysis (World.store w') !! contentId = Some a /\
  (exists cs',
     Store.content (World.store w') !! contentId = Some cs' /\
     ContentState.aiAnalysis cs' = Some a) /\
  String.length (JS.substring 0 200 body) = Nat.min 200 (String.length body) /\
  exists rest, body = JS.substring 0 200 body +:+ rest.
Proof.
  intros Hkey Hc Hchat Hparse. cbv zeta.
  assert (Hp : parse env (ContentState.body cs) r
               = fallback (ContentState.body cs)).
  { unfold parse. now rewrite Hparse. }
  destruct (handler_stores_analysis s n cs r Hkey Hc Hchat)
    as (Hai & cs' & Hcs' & Ha & _).
  { rewrite Hp. discriminate. }
  rewrite Hp, construct_fallback in Hai, Ha.
  split; [exact Hai|]. split; [eauto|]. apply substring_prefix.
Qed.

Lemma score_within (v : option JS.json) : within 0 100 (score v).
Proof.
  assert (H50 : within 0 100 (JS.num 50)).
  { cbn. split; apply Qle_bool_iff; reflexivity. }
  unfold score. destruct v as [[| |x| | |]|]; try exact H50.
  destruct x as [|q|]; cbn.
  - split; apply Qle_bool_iff; reflexivity.
  - destruct (Qle_bool 100 q) eqn:H100; cbn.
    + split; apply Qle_bool_iff; reflexivity.
    + destruct (Qle_bool 0 q) eqn:H0; cbn.
      * split; [now apply Qle_bool_iff|].
        apply Qlt_le_weak, Qnot_le_lt. intros H.
        apply Qle_bool_iff in H. congruence.
      * split; apply Qle_bool_iff; reflexivity.
  - split; apply Qle_bool_iff; reflexivity.
Qed.

(** C6, as amended.  When the LLM answered and the parsed value is not
    [null], the stored analysis has readabilityScore and qualityScore in
    [0,100]; wordCount is not clamped: it is the number the LLM gave when it
    gave one, and the number of pieces of the body otherwise. *)
Theorem C6_scores_clamped (s : Store.t) (n : nat) (cs : ContentState.t)
    (r : string) :
  Env.MISTRAL_API_KEY env = true ->
  Store.content s !! contentId = Some cs ->
  Env.chat_complete env = Some r ->
  parse env (ContentState.body cs) r <> JS.JNull ->
  let w' := after (handler env contentId) (World.mk s n []) in
  exists a,
    Store.ai_analysis (World.store w') !! contentId = Some a /\
    (exists cs',
       Store.content (World.store w') !! contentId = Some cs' /\
       ContentState.aiAnalysis cs' = Some a) /\
    within 0 100 (AIAnalysisResult.readabilityScore a) /\
    within 0 100 (AIAnalysisResult.qualityScore a) /\
    AIAnalysisResult.wordCount a
    = match JS.get (parse env (ContentState.body cs) r) "wordCount" with
      | Some (JS.JNum x) => Some x
      | _ => JS.of_nat (List.length (JS.split_ws (ContentState.body cs)))
      end.
Proof.
  intros Hkey Hc Hchat Hnull. cbv zeta.
  destruct (handler_stores_analysis s n cs r Hkey Hc Hchat Hnull)
    as (Hai & cs' & Hcs' & Ha & _).
  eexists. split; [exact Hai|]. split; [eauto|].
  unfold construct. cbn.
  split; [apply score_within|]. split; [apply score_within|]. reflexivity.
Qed.
End Analysis.

(** C5 at the content ["c1"], whose LLM answer is not JSON. *)
Lemma C5_witness :
  Env.MISTRAL_API_KEY sample_env = true /\
  Store.content (sample_store (sample_content "One two  three" "en")) !! "c1"
    = Some (sample_content "One two  three" "en") /\
  Env.chat_complete sample_env = Some "I cannot answer." /\
  Env.JSON_parse sample_env (AnalyzeWithAI.clean "I cannot answer.") = None /\
  Store.ai_analysis
    (World.store
       (after (AnalyzeWithAI.handler sample_env "c1")
          (World.mk (sample_store (sample_content "One two  three" "en"))
             0 []))) !! "c1"
  = Some (AIAnalysisResult.mk (JS.JStr "neutral") [] (JS.num 50) (JS.num 3)
            (JS.num 50) "One two  three..." [] []
            "2025-06-01T10:00:01.000Z").
Proof.
  repeat (split; [reflexivity|]).
  apply (C5_fallback_analysis sample_env "c1"
           (sample_store (sample_content "One two  three" "en")) 0
           (sample_content "One two  three" "en") "I cannot answer.");
    reflexivity.
Defined.

(** The claim C6 as stated fails for [wordy_env]: the stored wordCount is
    250. *)
Lemma C6_counterexample :
  exists a,
    Store.ai_analysis
      (World.store
         (after (AnalyzeWithAI.handler wordy_env "c1")
            (World.mk (sample_store (sample_content "One two  three" "en"))
               0 []))) !! "c1" = Some a /\
    ~ within 0 100 (AIAnalysisResult.wordCount a).
Proof.
  eexists. split; [reflexivity|].
  vm_compute. intros [_ H]. apply H. reflexivity.
Qed.

(** C6 at the content ["c1"] and the answer of [wordy_env]. *)
Lemma C6_witness :
  Env.MISTRAL_API_KEY wordy_env = true /\
  Store.content (sample_store (sample_content "One two  three" "en")) !! "c1"
    = Some (sample_content "One two  three" "en") /\
  Env.chat_complete wordy_env = Some wordy_text /\
  AnalyzeWithAI.parse wordy_env "One two  three" wordy_text
    <> JS.JNull /\
  exists a,
    Store.ai_analysis
      (World.store
         (after (AnalyzeWithAI.handler wordy_env "c1")
            (World.mk (sample_store (sample_content "One two  three" "en"))
               0 []))) !! "c1" = Some a /\
    within 0 100 (AIAnalysisResult.readabilityScore a) /\
    within 0 100 (AIAnalysisResult.qualityScore a) /\
    AIAnalysisResult.wordCount a = JS.num 250.
Proof.
  split; [reflexivity|]. split; [reflexivity|]. split; [reflexivity|].
  split; [discriminate|].
  destruct (C6_scores_clamped wordy_env "c1"
              (sample_store (sample_content "One two  three" "en")) 0
              (sample_content "One two  three" "en") wordy_text)
    as (a & Hai & _ & Hr & Hq & Hw); try reflexivity; try discriminate.
  exists a. split; [exact Hai|]. split; [exact Hr|]. split; [exact Hq|].
  exact Hw.
Defined.

(** ** Applying a rewrite, the variant that swaps the body *)

Section Apply.
Import ApplyImprovedContent.
Variable env : Env.t.

(** C9.  When the body-swap variant of the apply handler answers 200, the
    store differs from the one before only in the content record of the
    request: its body is the improved body, its improvedContent.appliedAt
    and its updatedAt are the two readings of the clock.  workflowStatus,
    aiAnalysis, recommendations and every other field of the record are as
    before, the other store groups are untouched, and the only effect is
    the one write: nothing is pushed to the stream and no event is
    emitted. *)
Theorem C9_apply_swaps_only_the_body (req : Http.Request) (w w' : World.t)
    (resp : Http.Response) :
  handler env req w = (Ok resp, w') ->
  Http.status resp = 200%nat ->
  exists contentId cs improved,
    Http.id req = Some contentId /\
    Store.content (World.store w) !! contentId = Some cs /\
    ContentState.improvedContent cs = Some improved /\
    let cs' :=
      ContentState.mk (ContentState.contentId cs) (ContentState.title cs)
        (ImprovedContent.improvedBody improved) (ContentState.author cs)
        (ContentState.language cs) (ContentState.userId cs)
        (ContentState.createdAt cs) (Env.clock env (S (World.ticks w)))
        (ContentState.workflowStatus cs) (ContentState.validationResult cs)
        (ContentState.aiAnalysis cs) (ContentState.recommendations cs)
        (Some (ImprovedContent.mk (ImprovedContent.originalBody improved)
                 (ImprovedContent.improvedBody improved)
                 (ImprovedContent.generatedAt improved)
                 (ImprovedContent.status improved)
                 (Some (Env.clock env (World.ticks w))))) in
    World.store w'
      = Store.with_content (insert contentId cs') (World.store w) /\
    World.trace w' = World.trace w ++ [StateSet "content" contentId] /\
    List.filter is_notification (World.trace w')
      = List.filter is_notification (World.trace w).
Proof.
  destruct w as [s n tr]. unfold handler. unfold_monad. cbn.
  destruct (Http.id req) as [contentId|] eqn:Hid; cbn;
    [|intros [= <- <-]; discriminate].
  destruct (String.eqb contentId "") eqn:Hne; cbn;
    [intros [= <- <-]; discriminate|].
  destruct (Store.content s !! contentId) as [cs|] eqn:Hc; cbn;
    [|intros [= <- <-]; discriminate].
  destruct (ContentState.improvedContent cs) as [improved|] eqn:Hi; cbn;
    [|intros [= <- <-]; discriminate].
  destruct (bool_decide _); cbn; [|intros [= <- <-]; discriminate].
  destruct (String.eqb (ImprovedContent.improvedBody improved) "");
    cbn; [intros [= <- <-]; discriminate|].
  intros [= <- <-] _. exists contentId, cs, improved.
  repeat split; try reflexivity; try assumption.
  cbn [World.trace]. rewrite List.filter_app. cbn. apply app_nil_r.
Qed.
End Apply.

(** C9 at a content record that has a finished rewrite. *)
Lemma C9_witness :
  exists resp w',
    ApplyImprovedContent.handler sample_env apply_request
      (World.init (sample_store improved_content)) = (Ok resp, w') /\
    Http.status resp = 200%nat /\
    exists cs',
      Store.content (World.store w') !! "c1" = Some cs' /\
      ContentState.body cs' = "The new body." /\
      ContentState.workflowStatus cs' = WorkflowStatus.completed /\
      ContentState.aiAnalysis cs' = Some analysis_85_neutral /\
      World.trace w' = [StateSet "content" "c1"].
Proof.
  eexists _, _. split; [reflexivity|]. split; [reflexivity|].
  destruct (C9_apply_swaps_only_the_body sample_env apply_request
              (World.init (sample_store improved_content)) _ _
              eq_refl eq_refl)
    as (contentId & cs & improved & Hid & Hc & Hi & Hs & Htr & _).
  injection Hid as <-.
  vm_compute in Hc. injection Hc as <-.
  vm_compute in Hi. injection Hi as <-.
  eexists. rewrite Hs, Htr. cbn. rewrite lookup_insert_eq.
  repeat split; reflexivity.
Defined.

(** ** Voting *)

Section VoteLemmas.
Import VoteRecommendation.

Lemma obj_set_idem (k v : string) (o : gmap string string) :
  obj_set k v (obj_set k v o) = obj_set k v o.
Proof.
  unfold obj_set.
  destruct (String.eqb k "__proto__" && negb (bool_decide (is_Some (o !! k))))
    eqn:H.
  - now rewrite H.
  - rewrite lookup_insert_eq.
    rewrite (bool_decide_eq_true_2 _ (mk_is_Some _ _ eq_refl)).
    rewrite andb_false_r. apply insert_insert_eq.
Qed.

Lemma find_update_first {A} (p : A -> bool) (f : A -> A) (l : list A) (x : A) :
  (forall y, p (f y) = p y) ->
  List.find p l = Some x ->
  List.find p (update_first p f l) = Some (f x).
Proof.
  intros Hp. induction l as [|y l IH]; simpl; [discriminate|].
  destruct (p y) eqn:Hy; simpl.
  - intros [= ->]. now rewrite Hp, Hy.
  - rewrite Hy. exact IH.
Qed.

Lemma update_first_idem {A} (p : A -> bool) (f : A -> A) (l : list A) :
  (forall y, p (f y) = p y) -> (forall y, f (f y) = f y) ->
  update_first p f (update_first p f l) = update_first p f l.
Proof.
  intros Hp Hf. induction l as [|y l IH]; simpl; [reflexivity|].
  destruct (p y) eqn:Hy; simpl.
  - now rewrite Hp, Hy, Hf.
  - now rewrite Hy, IH.
Qed.


Arguments obj_set : simpl never.
Arguments count : simpl never.
Arguments update_first : simpl never.
Arguments voteKey : simpl never.
Arguments JS.includes : simpl never.

Lemma filter_length_perm {A} (f : A -> bool) (l l' : list A) :
  l ≡ₚ l' -> List.length (List.filter f l) = List.length (List.filter f l').
Proof.
  induction 1 as [|y l l' _ IH|y z l|l l' l'' _ IH1 _ IH2]; simpl.
  - reflexivity.
  - destruct (f y); simpl; congruence.
  - destruct (f y), (f z); reflexivity.
  - congruence.
Qed.

Lemma count_split (x k : string) (o : gmap string string) :
  count x o
  = (count x (delete k o) +
     match o !! k with
     | Some y => if String.eqb y x then 1 else 0
     | None => 0
     end)%nat.
Proof.
  unfold count. destruct (o !! k) as [y|] eqn:Hk.
  - rewrite <- (filter_length_perm _ _ _
                  (fmap_Permutation snd _ _ (map_to_list_delete o k y Hk))).
    cbn. destruct (String.eqb y x); simpl; lia.
  - rewrite delete_id by exact Hk. lia.
Qed.

Lemma count_le_delete (x k : string) (o : gmap string string) :
  (count x o <= S (count x (delete k o)))%nat.
Proof.
  rewrite (count_split x k o).
  destruct (o !! k) as [y|]; [destruct (String.eqb y x)|]; lia.
Qed.

Lemma count_obj_set_le (x k y : string) (o : gmap string string) :
  (count x (obj_set k y o) <= S (count x (delete k o)))%nat.
Proof.
  unfold obj_set. destruct (_ && _).
  - apply count_le_delete.
  - rewrite <- (delete_insert_eq o k y). apply count_le_delete.
Qed.

Section Vote.
Variable req : Http.Request.

Abbreviation cid := (Http.text (Http.id req)).
Abbreviation rid := (Http.text (Http.recId req)).
Abbreviation u := (Http.text (Http.userId req)).
Abbreviation v := (Http.text (Http.vote req)).
Abbreviation refused :=
  (Http.missing (Http.id req) || Http.missing (Http.recId req)
   || (Http.missing (Http.userId req) || Http.missing (Http.vote req) ||
       negb (JS.includes (Http.text (Http.vote req)) ["up"; "down"]))).

Lemma handler_writes (env : Env.t) (s : Store.t) (n : nat) (tr : list Effect)
    (cs : ContentState.t) (x : Recommendation.t) :
  refused = false ->
  Store.content s !! cid = Some cs ->
  List.find (has_id rid) (default [] (ContentState.recommendations cs))
    = Some x ->
  let votes := obj_set u v (default ∅ (Store.votes s !! voteKey cid rid)) in
  World.store (after (handler env req) (World.mk s n tr))
  = Store.with_content
      (insert cid
         (ContentState.with_recommendations
            (Some (update_first (has_id rid)
                     (Recommendation.with_votes
                        (Votes.mk (count "up" votes) (count "down" votes)
                           votes))
                     (default [] (ContentState.recommendations cs))))
            cs))
      (Store.with_votes (insert (voteKey cid rid) votes) s).
Proof.
  intros Hacc Hc Hf. apply orb_false_iff in Hacc as [H1 H2].
  unfold handler. unfold_monad. cbn.
  rewrite H1. cbn. rewrite H2. cbn. rewrite Hc. cbn. rewrite Hf. cbn.
  destruct (Env.stream_ok env), (Env.emit_ok env); reflexivity.
Qed.

Lemma handler_refuses (env : Env.t) (s : Store.t) (n : nat) (tr : list Effect) :
  refused = true \/
  Store.content s !! cid = None \/
  (exists cs, Store.content s !! cid = Some cs /\
     List.find (has_id rid) (default [] (ContentState.recommendations cs))
     = None) ->
  World.store (after (handler env req) (World.mk s n tr)) = s.
Proof.
  unfold handler. unfold_monad. cbn.
  destruct (Http.missing (Http.id req) || Http.missing (Http.recId req));
    cbn; [reflexivity|].
  destruct (_ || _ || _); cbn; [reflexivity|].
  intros [H|[H|(cs & Hc & Hf)]]; [discriminate H|now rewrite H|].
  rewrite Hc. cbn. now rewrite Hf.
Qed.

Lemma with_votes_id (V : Votes.t) (y : Recommendation.t) :
  has_id rid (Recommendation.with_votes V y) = has_id rid y.
Proof. reflexivity. Qed.

Lemma vote_twice_store (env1 env2 : Env.t) (w : World.t) :
  World.store (after (handler env2 req) (after (handler env1 req) w))
  = World.store (after (handler env1 req) w).
Proof.
  destruct w as [s n tr].
  destruct (after (handler env1 req) (World.mk s n tr)) as [s1 n1 tr1] eqn:Hw1.
  assert (Hs1 : World.store (after (handler env1 req) (World.mk s n tr)) = s1)
    by now rewrite Hw1.
  clear Hw1. cbn [World.store].
  destruct refused eqn:Hacc.
  { rewrite handler_refuses in Hs1 by auto. subst s1.
    apply handler_refuses; auto. }
  destruct (Store.content s !! cid) as [cs|] eqn:Hc.
  2:{ rewrite handler_refuses in Hs1 by auto. subst s1.
      apply handler_refuses; auto. }
  destruct (List.find (has_id rid)
              (default [] (ContentState.recommendations cs))) as [x|] eqn:Hf.
  2:{ rewrite handler_refuses in Hs1 by eauto. subst s1.
      apply handler_refuses; eauto. }
  rewrite (handler_writes env1 s n tr cs x Hacc Hc Hf) in Hs1.
  set (votes := obj_set u v (default ∅ (Store.votes s !! voteKey cid rid)))
    in *.
  set (V := Votes.mk (count "up" votes) (count "down" votes) votes) in *.
  set (l := default [] (ContentState.recommendations cs)) in *.
  assert (Hc1 : Store.content s1 !! cid
                = Some (ContentState.with_recommendations
                          (Some (update_first (has_id rid)
                                   (Recommendation.with_votes V) l)) cs)).
  { subst s1. cbn. apply lookup_insert_eq. }
  assert (Hv1 : Store.votes s1 !! voteKey cid rid = Some votes).
  { subst s1. cbn. apply lookup_insert_eq. }
  rewrite (handler_writes env2 s1 n1 tr1 _ (Recommendation.with_votes V x)
             Hacc Hc1).
  2:{ cbn. apply find_update_first; [apply with_votes_id|exact Hf]. }
  rewrite Hv1. cbn [default from_option ContentState.recommendations
                      ContentState.with_recommendations].
  unfold id.
  assert (Hidem : obj_set u v votes = votes) by apply obj_set_idem.
  rewrite Hidem. fold V.
  rewrite update_first_idem by (intros; reflexivity).
  subst s1. unfold Store.with_content, Store.with_votes. cbn.
  now rewrite !insert_insert_eq.
Qed.

(** C8.  Handling the same vote request a second time, right after the
    first, leaves the store as the first left it, whatever it was before
    and whether or not the pushes and emissions of either call succeed: the
    vote map and the counts kept on the recommendation are those of a
    single cast.  In the vote map of the request the voter accounts for at
    most one upvote: the upvotes are at most one more than those of the
    other users in the map as it was before.  And when the request is well
    formed and names a recommendation of a stored content record, the
    counts kept on that recommendation are the counts of the stored vote
    map. *)
Theorem C8_vote_is_idempotent (env1 env2 : Env.t) (w : World.t) :
  let once := after (handler env1 req) w in
  let twice := after (handler env2 req) once in
  World.store twice = World.store once /\
  (forall votes,
     Store.votes (World.store twice) !! voteKey cid rid = Some votes ->
     (count "up" votes
      <= S (count "up"
              (delete u (default ∅ (Store.votes (World.store w)
                                      !! voteKey cid rid)))))%nat) /\
  (forall cs x,
     refused = false ->
     Store.content (World.store w) !! cid = Some cs ->
     List.find (has_id rid) (default [] (ContentState.recommendations cs))
       = Some x ->
     exists cs' votes,
       Store.votes (World.store twice) !! voteKey cid rid = Some votes /\
       Store.content (World.store twice) !! cid = Some cs' /\
       List.find (has_id rid) (default [] (ContentState.recommendations cs'))
       = Some (Recommendation.with_votes
                 (Votes.mk (count "up" votes) (count "down" votes) votes) x)).
Proof.
  cbv zeta. split; [apply vote_twice_store|].
  rewrite vote_twice_store. destruct w as [s n tr]. cbn [World.store].
  split.
  - assert (Hsame : forall votes,
              Store.votes s !! voteKey cid rid = Some votes ->
              (count "up" votes
               <= S (count "up"
                       (delete u (default ∅ (Store.votes s
                                               !! voteKey cid rid)))))%nat).
    { intros votes ->. apply count_le_delete. }
    destruct refused eqn:Hacc.
    { rewrite handler_refuses by auto. exact Hsame. }
    destruct (Store.content s !! cid) as [cs|] eqn:Hc.
    2:{ rewrite handler_refuses by auto. exact Hsame. }
    destruct (List.find (has_id rid)
                (default [] (ContentState.recommendations cs)))
      as [x|] eqn:Hf.
    2:{ rewrite handler_refuses by eauto. exact Hsame. }
    rewrite (handler_writes env1 s n tr cs x Hacc Hc Hf). cbn.
    rewrite lookup_insert_eq. intros votes [= <-]. apply count_obj_set_le.
  - intros cs x Hacc Hc Hf.
    rewrite (handler_writes env1 s n tr cs x Hacc Hc Hf). cbn.
    rewrite !lookup_insert_eq. eexists _, _.
    split; [reflexivity|]. split; [reflexivity|]. cbn.
    apply find_update_first; [apply with_votes_id|exact Hf].
Qed.
End Vote.
End VoteLemmas.

(** user-7 upvotes the same recommendation twice: one upvote is counted. *)
Example two_casts_one_upvote :
  let once := after (VoteRecommendation.handler sample_env vote_request)
                (World.init (sample_store improved_content)) in
  let twice := after (VoteRecommendation.handler sample_env vote_request)
                 once in
  Store.votes (World.store twice) !! "votes_c1_rec_c1_publish_2"
    = Some {["user-7" := "up"]} /\
  (ContentState.recommendations <$>
     Store.content (World.store twice) !! "c1")
    = Some (Some [Recommendation.with_votes
                    (Votes.mk 1 0 {["user-7" := "up"]})
                    (GenerateRecommendations.publishing "c1"
                       analysis_85_neutral)]).
Proof. split; vm_compute; reflexivity. Qed.

(** ** Retention job *)

Section Retention.
Import DailyProcessing.
Variable env : Env.t.

Abbreviation deletable c :=
  (stale env c && WorkflowStatus.is_final (ContentState.workflowStatus c)).

Abbreviation swept c s :=
  (if deletable c
   then Store.with_workflow (delete (ContentState.contentId c))
          (Store.with_content (delete (ContentState.contentId c)) s)
   else s).

Lemma process_run (acc : Counters) (c : ContentState.t) (s : Store.t)
    (n : nat) (tr : list Effect) :
  exists acc' tr',
    process env acc c (World.mk s n tr)
    = (Ok acc', World.mk (swept c s) n tr').
Proof.
  unfold process. unfold_monad. cbn.
  destruct (stale env c); cbn; [|eauto].
  destruct (WorkflowStatus.is_final _); cbn; eauto.
Qed.

Lemma for_each_run (l : list ContentState.t) :
  forall acc s n tr,
  exists acc' tr',
    for_each env l acc (World.mk s n tr)
    = (Ok acc', World.mk (fold_left (fun s c => swept c s) l s) n tr').
Proof.
  induction l as [|c l IH]; intros acc s n tr; simpl.
  - unfold ret. eauto.
  - destruct (process_run acc c s n tr) as (acc1 & tr1 & H1).
    unfold bind at 1. rewrite H1. apply IH.
Qed.

Lemma swept_content (l : list ContentState.t) (s : Store.t) (k : string) :
  Store.content (fold_left (fun s c => swept c s) l s) !! k
  = if existsb (fun c => deletable c &&
                         String.eqb (ContentState.contentId c) k) l
    then None else Store.content s !! k.
Proof.
  revert s. induction l as [|c l IH]; intros s; simpl; [reflexivity|].
  rewrite IH. destruct (existsb _ l); [now rewrite orb_true_r|].
  rewrite orb_false_r.
  destruct (stale env c && WorkflowStatus.is_final _); simpl; [|reflexivity].
  destruct (String.eqb_spec (ContentState.contentId c) k) as [->|Hne].
  - apply lookup_delete_eq.
  - now apply lookup_delete_ne.
Qed.

Lemma swept_workflow (l : list ContentState.t) (s : Store.t) (k : string) :
  Store.workflow (fold_left (fun s c => swept c s) l s) !! k
  = if existsb (fun c => deletable c &&
                         String.eqb (ContentState.contentId c) k) l
    then None else Store.workflow s !! k.
Proof.
  revert s. induction l as [|c l IH]; intros s; simpl; [reflexivity|].
  rewrite IH. destruct (existsb _ l); [now rewrite orb_true_r|].
  rewrite orb_false_r.
  destruct (stale env c && WorkflowStatus.is_final _); simpl; [|reflexivity].
  destruct (String.eqb_spec (ContentState.contentId c) k) as [->|Hne].
  - apply lookup_delete_eq.
  - now apply lookup_delete_ne.
Qed.

Lemma handler_run (s : Store.t) (n : nat) :
  let s' := fold_left (fun s c => swept c s)
              (map_to_list (Store.content s)).*2 s in
  let w' := after (handler env) (World.mk s n []) in
  Store.content (World.store w') = Store.content s' /\
  Store.workflow (World.store w') = Store.workflow s'.
Proof.
  cbv zeta. unfold handler, getGroup_content. unfold_monad. cbn.
  destruct (for_each_run (map_to_list (Store.content s)).*2
              (mkCounters 0 [] []) s n [])
    as (acc & tr & ->). cbn. split; reflexivity.
Qed.

Lemma deletable_spec (c : ContentState.t) :
  deletable c = true <->
  older_than_90_days env c /\ terminal (ContentState.workflowStatus c).
Proof.
  rewrite andb_true_iff.
  cut ((stale env c = true <-> older_than_90_days env c) /\
       (WorkflowStatus.is_final (ContentState.workflowStatus c) = true <->
        terminal (ContentState.workflowStatus c))); [tauto|]. split.
  - unfold stale, before, older_than_90_days, staleThreshold, STALE_AGE_DAYS.
    destruct (Env.Date_getTime env (ContentState.createdAt c)) as [t|].
    + rewrite Z.ltb_lt. split.
      * intros H. exists t. split; [reflexivity|lia].
      * intros (t' & [= <-] & H). lia.
    + split; [discriminate|]. intros (t' & H & _). discriminate H.
  - unfold terminal.
    destruct (ContentState.workflowStatus c); simpl;
      intuition (discriminate || auto).
Qed.

Lemma examined_spec (s : Store.t) (k : string) (c : ContentState.t) :
  keyed_by_contentId s ->
  Store.content s !! k = Some c ->
  existsb (fun c => deletable c && String.eqb (ContentState.contentId c) k)
    (map_to_list (Store.content s)).*2
  = deletable c.
Proof.
  intros Hkey Hc. apply eq_true_iff_eq. rewrite existsb_exists. split.
  - intros (c' & Hin & H). apply andb_true_iff in H as [Hd Hk].
    apply String.eqb_eq in Hk. apply list_elem_of_In in Hin.
    apply list_elem_of_fmap in Hin as ([k' c''] & -> & Hin).
    apply elem_of_map_to_list in Hin. cbn in *.
    pose proof (Hkey k' c'' Hin) as Hk'.
    assert (k' = k) as -> by congruence.
    rewrite Hc in Hin. injection Hin as <-. exact Hd.
  - intros Hd. exists c. split.
    + apply list_elem_of_In, list_elem_of_fmap. exists (k, c).
      split; [reflexivity|]. now apply elem_of_map_to_list.
    + rewrite Hd, (Hkey k c Hc). simpl. apply String.eqb_refl.
Qed.

(** C2.  In a store that keeps every content record under its own
    contentId, the daily job deletes the content record of an item it
    examines exactly when the item was created more than 90 days before the
    current time and its workflowStatus is 'completed', 'failed' or
    'rejected', and then the workflow record goes with it; otherwise both
    records stay as they are.  In particular an item whose status is
    'pending', 'validating', 'validated', 'analyzing' or 'analyzed' is kept
    whatever its age. *)
Theorem C2_retention_deletes_old_terminal_items (s : Store.t) (n : nat)
    (k : string) (c : ContentState.t) :
  keyed_by_contentId s ->
  Store.content s !! k = Some c ->
  let s' := World.store (after (handler env) (World.mk s n [])) in
  (Store.content s' !! k = None <->
   older_than_90_days env c /\ terminal (ContentState.workflowStatus c)) /\
  (older_than_90_days env c /\ terminal (ContentState.workflowStatus c) ->
   Store.workflow s' !! k = None) /\
  (~ (older_than_90_days env c /\ terminal (ContentState.workflowStatus c)) ->
   Store.content s' !! k = Some c /\
   Store.workflow s' !! k = Store.workflow s !! k) /\
  (In (ContentState.workflowStatus c)
      [WorkflowStatus.pending; WorkflowStatus.validating;
       WorkflowStatus.validated; WorkflowStatus.analyzing;
       WorkflowStatus.analyzed] ->
   Store.content s' !! k = Some c /\
   Store.workflow s' !! k = Store.workflow s !! k).
Proof.
  intros Hkey Hc. cbv zeta.
  destruct (handler_run s n) as [-> ->].
  rewrite swept_content, swept_workflow, (examined_spec s k c Hkey Hc), Hc.
  rewrite <- deletable_spec.
  destruct (deletable c) eqn:Hd.
  - split; [tauto|]. split; [tauto|]. split; [intros H; now destruct H|].
    apply andb_true_iff in Hd as [_ Hd]. intros Hin. exfalso. simpl in Hin.
    destruct Hin as [H|[H|[H|[H|[H|[]]]]]]; rewrite <- H in Hd; discriminate.
  - split; [split; [discriminate|intros H; discriminate H]|].
    split; [intros H; discriminate H|]. tauto.
Qed.
End Retention.

(** C2 at a store with an old completed item and an old item under
    analysis. *)
Lemma C2_witness :
  keyed_by_contentId retention_store /\
  Store.content retention_store !! "c1"
    = Some (old_item "c1" WorkflowStatus.completed) /\
  Store.content retention_store !! "c2"
    = Some (old_item "c2" WorkflowStatus.analyzing) /\
  (older_than_90_days retention_env (old_item "c1" WorkflowStatus.completed) /\
   terminal WorkflowStatus.completed) /\
  let s' := World.store (after (DailyProcessing.handler retention_env)
                           (World.init retention_store)) in
  Store.content s' !! "c1" = None /\
  Store.workflow s' !! "c1" = None /\
  Store.content s' !! "c2" = Some (old_item "c2" WorkflowStatus.analyzing).
Proof.
  assert (Hkey : keyed_by_contentId retention_store).
  { intros k c H. unfold retention_store in H. cbn in H.
    apply lookup_insert_Some in H as [[<- <-]|[_ H]]; [reflexivity|].
    apply lookup_insert_Some in H as [[<- <-]|[_ H]]; [reflexivity|].
    rewrite lookup_empty in H. discriminate H. }
  assert (H1 : Store.content retention_store !! "c1"
               = Some (old_item "c1" WorkflowStatus.completed))
    by reflexivity.
  assert (H2 : Store.content retention_store !! "c2"
               = Some (old_item "c2" WorkflowStatus.analyzing))
    by reflexivity.
  assert (Hold : older_than_90_days retention_env
                   (old_item "c1" WorkflowStatus.completed) /\
                 terminal WorkflowStatus.completed).
  { split; [|now left]. exists 1735689600000%Z. split; [reflexivity|].
    cbn. lia. }
  destruct (C2_retention_deletes_old_terminal_items retention_env
              retention_store 0 "c1" _ Hkey H1) as (Hc1 & Hw1 & _).
  destruct (C2_retention_deletes_old_terminal_items retention_env
              retention_store 0 "c2" _ Hkey H2) as (_ & _ & _ & Hc2).
  split; [exact Hkey|]. split; [exact H1|]. split; [exact H2|].
  split; [exact Hold|]. cbv zeta.
  split; [apply Hc1; exact Hold|]. split; [apply Hw1; exact Hold|].
  apply Hc2. cbn. tauto.
Defined.

(** * Further properties of the handlers *)

(** ** Validation stage *)

Section ValidationDecision.
Import ValidateContent.
Variable env : Env.t.
Variable contentId : string.

Lemma errors_nil_iff (cs : ContentState.t) :
  errors cs = [] <->
  (100 <= String.length (ContentState.body cs))%nat /\
  In (JS.toLowerCase (ContentState.language cs))
     ["en"; "es"; "fr"; "de"; "it"; "pt"].
Proof.
  unfold errors, body_error, language_error, language_ok, MIN_BODY_LENGTH.
  assert (Hin : JS.includes (JS.toLowerCase (ContentState.language cs))
                  SUPPORTED_LANGUAGES = true <->
                In (JS.toLowerCase (ContentState.language cs))
                  ["en"; "es"; "fr"; "de"; "it"; "pt"]).
  { unfold JS.includes. rewrite existsb_exists. split.
    - intros (c & Hc & Heq). apply String.eqb_eq in Heq. now subst.
    - intros H. eexists. split; [exact H|apply String.eqb_refl]. }
  rewrite <- Hin.
  destruct (Nat.ltb_spec (String.length (ContentState.body cs)) 100);
    destruct (JS.includes _ SUPPORTED_LANGUAGES); cbn;
    intuition (try discriminate; try lia).
Qed.

(** The run of the handler on content without errors. *)
Lemma handler_accepts (s : Store.t) (n : nat) (cs : ContentState.t) :
  Store.content s !! contentId = Some cs ->
  errors cs = [] ->
  let w' := after (handler env contentId) (World.mk s n []) in
  let vr := ValidationResult.mk true [] (warnings cs) (Env.clock env n) in
  result (handler env contentId) (World.mk s n []) = Ok tt /\
  Store.validation (World.store w') !! contentId = Some vr /\
  Store.content (World.store w') !! contentId
    = Some (ContentState.with_workflowStatus WorkflowStatus.validated
              (ContentState.with_updatedAt (Env.clock env (S n))
                 (ContentState.with_validationResult (Some vr) cs))) /\
  Store.workflow (World.store w') !! contentId
    = Some (WorkflowRecord.mk WorkflowStatus.validated contentId) /\
  World.trace w'
    = [StateSet "content" contentId; StateSet "validation" contentId;
       StateSet "content" contentId; StateSet "workflow" contentId;
       StreamSend contentId "validation_completed"] ++
      (if Env.stream_ok env
       then [Emit "content.validated"
               (DValidation contentId vr (Env.traceId env))]
       else []).
Proof.
  intros Hc He. cbv zeta.
  unfold handler. unfold_monad. cbn. rewrite Hc. cbn.
  unfold validate. rewrite He. cbn.
  destruct (Env.stream_ok env); cbn;
    [destruct (Env.emit_ok env); cbn|];
    rewrite ?lookup_insert_eq; repeat split; reflexivity.
Qed.

Lemma stored_status_one (s : Store.t) (k : string) (cs : ContentState.t)
    (st : WorkflowStatus.t) :
  Store.content s !! k = Some cs ->
  Store.workflow s !! k
    = Some (WorkflowRecord.mk (ContentState.workflowStatus cs) k) ->
  stored_status s k [st] <-> ContentState.workflowStatus cs = st.
Proof.
  intros Hc Hw. unfold stored_status. split.
  - intros (cs' & st' & Hc' & Hst & _ & [<-|[]]). congruence.
  - intros <-. exists cs, (ContentState.workflowStatus cs).
    repeat split; auto. now left.
Qed.

(** X1.  The validation stage leaves stored content 'validated' exactly
    when its body has at least 100 characters and its language, lower-cased,
    is one of en, es, fr, de, it, pt; otherwise it leaves it 'rejected'.
    The length of the title plays no part. *)
Theorem validation_decides (s : Store.t) (n : nat) (cs : ContentState.t) :
  Store.content s !! contentId = Some cs ->
  let s' := World.store (after (handler env contentId) (World.mk s n [])) in
  (stored_status s' contentId [WorkflowStatus.validated] <->
   (100 <= String.length (ContentState.body cs))%nat /\
   In (JS.toLowerCase (ContentState.language cs))
      ["en"; "es"; "fr"; "de"; "it"; "pt"]) /\
  (stored_status s' contentId [WorkflowStatus.rejected] <->
   ~ ((100 <= String.length (ContentState.body cs))%nat /\
      In (JS.toLowerCase (ContentState.language cs))
         ["en"; "es"; "fr"; "de"; "it"; "pt"])).
Proof.
  intros Hc. cbv zeta. rewrite <- errors_nil_iff.
  destruct (errors cs) as [|e l] eqn:He.
  - destruct (handler_accepts s n cs Hc He) as (_ & _ & Hc' & Hw' & _).
    rewrite !(stored_status_one _ _ _ _ Hc' Hw'). cbn.
    split; split; try tauto; try discriminate.
  - assert (Hne : errors cs <> []) by (rewrite He; discriminate).
    destruct (handler_rejects env contentId s n cs Hc Hne)
      as (_ & _ & Hc' & Hw' & _).
    rewrite !(stored_status_one _ _ _ _ Hc' Hw'). cbn.
    split; split; try tauto; try discriminate.
Qed.

(** X2.  When stored content passes validation and the stream push
    succeeds, the stage stores a result with isValid = true and no errors
    in the validation group and on the content record, records 'validated'
    on both records, and attempts exactly one emission, content.validated
    carrying that result; of the event steps only AnalyzeWithAI subscribes
    to it. *)
Theorem valid_content_goes_to_analysis (s : Store.t) (n : nat)
    (cs : ContentState.t) :
  Store.content s !! contentId = Some cs ->
  (100 <= String.length (ContentState.body cs))%nat ->
  In (JS.toLowerCase (ContentState.language cs))
     ["en"; "es"; "fr"; "de"; "it"; "pt"] ->
  Env.stream_ok env = true ->
  let w' := after (handler env contentId) (World.mk s n []) in
  exists vr cs',
    ValidationResult.isValid vr = true /\
    ValidationResult.errors vr = [] /\
    Store.validation (World.store w') !! contentId = Some vr /\
    Store.content (World.store w') !! contentId = Some cs' /\
    ContentState.validationResult cs' = Some vr /\
    ContentState.body cs' = ContentState.body cs /\
    stored_status (World.store w') contentId [WorkflowStatus.validated] /\
    List.filter (fun e => bool_decide (is_Some (emitted_topic e)))
      (World.trace w')
    = [Emit "content.validated"
         (DValidation contentId vr (Env.traceId env))] /\
    Step.triggered (World.trace w') = [Step.AnalyzeWithAI].
Proof.
  intros Hc Hlen Hlang Hso. cbv zeta.
  assert (He : errors cs = []) by (apply errors_nil_iff; auto).
  destruct (handler_accepts s n cs Hc He) as (_ & Hv & Hc' & Hw' & Htr).
  rewrite Htr, Hso. eexists _, _.
  split; [|split; [|split; [exact Hv|split; [exact Hc'|]]]]; try reflexivity.
  split; [reflexivity|]. split; [reflexivity|]. split.
  - now apply (stored_status_one _ _ _ _ Hc' Hw').
  - split; reflexivity.
Qed.

(** X3.  When stored content passes validation but the stream push fails,
    the handler still returns normally and the content stays 'validated',
    but content.validated is never emitted, so no step is triggered and the
    item goes no further, whether or not emissions would have succeeded. *)
Theorem failed_push_stalls_valid_content (s : Store.t) (n : nat)
    (cs : ContentState.t) :
  Store.content s !! contentId = Some cs ->
  (100 <= String.length (ContentState.body cs))%nat ->
  In (JS.toLowerCase (ContentState.language cs))
     ["en"; "es"; "fr"; "de"; "it"; "pt"] ->
  Env.stream_ok env = false ->
  let w' := after (handler env contentId) (World.mk s n []) in
  result (handler env contentId) (World.mk s n []) = Ok tt /\
  stored_status (World.store w') contentId [WorkflowStatus.validated] /\
  omap emitted_topic (World.trace w') = [] /\
  Step.triggered (World.trace w') = [].
Proof.
  intros Hc Hlen Hlang Hso. cbv zeta.
  assert (He : errors cs = []) by (apply errors_nil_iff; auto).
  destruct (handler_accepts s n cs Hc He) as (Hr & _ & Hc' & Hw' & Htr).
  rewrite Htr, Hso. split; [exact Hr|]. split.
  - now apply (stored_status_one _ _ _ _ Hc' Hw').
  - split; reflexivity.
Qed.
End ValidationDecision.

(** X1 at the content ["c1"] with the body [long_body] in French. *)
Lemma validation_decides_witness :
  let s' := World.store
              (after (ValidateContent.handler sample_env "c1")
                 (World.mk (sample_store (sample_content long_body "FR"))
                    0 [])) in
  (stored_status s' "c1" [WorkflowStatus.validated] <->
   (100 <= String.length long_body)%nat /\
   In (JS.toLowerCase "FR") ["en"; "es"; "fr"; "de"; "it"; "pt"]) /\
  (stored_status s' "c1" [WorkflowStatus.rejected] <->
   ~ ((100 <= String.length long_body)%nat /\
      In (JS.toLowerCase "FR") ["en"; "es"; "fr"; "de"; "it"; "pt"])).
Proof.
  apply (validation_decides sample_env "c1"
           (sample_store (sample_content long_body "FR")) 0
           (sample_content long_body "FR")).
  reflexivity.
Defined.

(** X2 at the same content. *)
Lemma valid_content_goes_to_analysis_witness :
  let w' := after (ValidateContent.handler sample_env "c1")
              (World.mk (sample_store (sample_content long_body "FR")) 0 []) in
  exists vr cs',
    ValidationResult.isValid vr = true /\
    ValidationResult.errors vr = [] /\
    Store.validation (World.store w') !! "c1" = Some vr /\
    Store.content (World.store w') !! "c1" = Some cs' /\
    ContentState.validationResult cs' = Some vr /\
    ContentState.body cs' = long_body /\
    stored_status (World.store w') "c1" [WorkflowStatus.validated] /\
    List.filter (fun e => bool_decide (is_Some (emitted_topic e)))
      (World.trace w')
    = [Emit "content.validated" (DValidation "c1" vr "trace-1")] /\
    Step.triggered (World.trace w') = [Step.AnalyzeWithAI].
Proof.
  apply (valid_content_goes_to_analysis sample_env "c1"
           (sample_store (sample_content long_body "FR")) 0
           (sample_content long_body "FR")).
  - reflexivity.
  - vm_compute. lia.
  - vm_compute. tauto.
  - reflexivity.
Defined.

(** X3 at the same content, with a stream that fails. *)
Lemma failed_push_stalls_valid_content_witness :
  let env := with_delivery false true sample_env in
  let w0 := World.mk (sample_store (sample_content long_body "FR")) 0 [] in
  let w' := after (ValidateContent.handler env "c1") w0 in
  result (ValidateContent.handler env "c1") w0 = Ok tt /\
  stored_status (World.store w') "c1" [WorkflowStatus.validated] /\
  omap emitted_topic (World.trace w') = [] /\
  Step.triggered (World.trace w') = [].
Proof.
  apply (failed_push_stalls_valid_content
           (with_delivery false true sample_env) "c1"
           (sample_store (sample_content long_body "FR")) 0
           (sample_content long_body "FR")).
  - reflexivity.
  - vm_compute. lia.
  - vm_compute. tauto.
  - reflexivity.
Defined.

(** ** Event steps on unknown content *)

(** X4.  An event step invoked for a contentId that has no content record
    (validation, analysis, recommendation or improvement generation) returns
    normally and does nothing at all: no write, no clock reading, no push,
    no emission, also when the API key is missing. *)
Theorem unknown_content_is_ignored (st : Stage) (env : Env.t)
    (contentId : string) (aiAnalysis : AIAnalysisResult.t) (w : World.t) :
  Store.content (World.store w) !! contentId = None ->
  run_stage st env contentId aiAnalysis w = (Ok tt, w) /\
  GenerateImprovedContent.handler env contentId w = (Ok tt, w).
Proof.
  intros Hc. destruct w as [s n tr]. cbn in Hc. split.
  - destruct st; cbn.
    + unfold ValidateContent.handler. unfold_monad. cbn. now rewrite Hc.
    + unfold AnalyzeWithAI.handler. unfold_monad. cbn.
      destruct (Env.MISTRAL_API_KEY env); cbn; now rewrite Hc.
    + unfold GenerateRecommendations.handler. unfold_monad. cbn.
      now rewrite Hc.
  - unfold GenerateImprovedContent.handler. unfold_monad. cbn.
    destruct (Env.MISTRAL_API_KEY env); cbn; now rewrite Hc.
Qed.

(** X4 at the analysis stage and the empty store. *)
Lemma unknown_content_is_ignored_witness :
  run_stage Analysis sample_env "c9" analysis_85_neutral
    (World.init Store.empty)
  = (Ok tt, World.init Store.empty) /\
  GenerateImprovedContent.handler sample_env "c9" (World.init Store.empty)
  = (Ok tt, World.init Store.empty).
Proof.
  apply (unknown_content_is_ignored Analysis sample_env "c9"
           analysis_85_neutral (World.init Store.empty)).
  reflexivity.
Defined.

(** ** Analysis stage *)

Section AnalysisOutcome.
Import AnalyzeWithAI.
Variable env : Env.t.
Variable contentId : string.

(** The run of the handler when the analysis cannot be made: the API key
    is missing, the LLM call fails, or the answer parses to [null]. *)
Lemma handler_fails (s : Store.t) (n : nat) (cs : ContentState.t) :
  Store.content s !! contentId = Some cs ->
  Env.MISTRAL_API_KEY env = false \/
  Env.chat_complete env = None \/
  (exists r, Env.chat_complete env = Some r /\
             parse env (ContentState.body cs) r = JS.JNull) ->
  let w' := after (handler env contentId) (World.mk s n []) in
  let st := match ContentState.aiAnalysis cs with
            | None => WorkflowStatus.failed
            | Some _ => WorkflowStatus.analyzed
            end in
  result (handler env contentId) (World.mk s n []) = Ok tt /\
  (exists cs',
     Store.content (World.store w') !! contentId = Some cs' /\
     ContentState.workflowStatus cs' = st /\
     ContentState.aiAnalysis cs' = ContentState.aiAnalysis cs /\
     ContentState.body cs' = ContentState.body cs) /\
  Store.workflow (World.store w') !! contentId
    = Some (WorkflowRecord.mk st contentId) /\
  Store.ai_analysis (World.store w') = Store.ai_analysis s /\
  List.filter is_notification (World.trace w') = [].
Proof.
  intros Hc Hfail. cbv zeta.
  unfold handler, set_status. unfold_monad. cbn.
  destruct Hfail as [Hkey|[Hchat|(r & Hchat & Hp)]].
  - rewrite Hkey. cbn. rewrite Hc. cbn.
    destruct (ContentState.aiAnalysis cs) eqn:Ha; cbn;
      rewrite !lookup_insert_eq; repeat split; eauto.
  - destruct (Env.MISTRAL_API_KEY env); cbn; rewrite Hc; cbn.
    + rewrite Hchat. cbn. rewrite lookup_insert_eq. cbn.
      destruct (ContentState.aiAnalysis cs) eqn:Ha; cbn;
        rewrite !lookup_insert_eq; repeat split; eauto.
    + destruct (ContentState.aiAnalysis cs) eqn:Ha; cbn;
        rewrite !lookup_insert_eq; repeat split; eauto.
  - destruct (Env.MISTRAL_API_KEY env); cbn; rewrite Hc; cbn.
    + rewrite Hchat. cbn. rewrite Hp. cbn. rewrite lookup_insert_eq. cbn.
      destruct (ContentState.aiAnalysis cs) eqn:Ha; cbn; unfold_monad; cbn;
        rewrite !lookup_insert_eq; repeat split; eauto.
    + destruct (ContentState.aiAnalysis cs) eqn:Ha; cbn;
        rewrite !lookup_insert_eq; repeat split; eauto.
Qed.

(** X5.  When the analysis of stored content cannot be made (the API key
    is missing, the LLM call fails or times out, or the answer parses to
    null), the handler still returns normally.  If the content record has
    no analysis from an earlier run, the content record and the workflow
    record end 'failed'; if it has one, they end 'analyzed' and the earlier
    analysis is kept.  Either way the body is untouched, nothing is written
    to the analysis group, and no push or emission is attempted, so no
    further step is triggered. *)
Theorem failed_analysis_falls_back_on_the_record (s : Store.t) (n : nat)
    (cs : ContentState.t) :
  Store.content s !! contentId = Some cs ->
  Env.MISTRAL_API_KEY env = false \/
  Env.chat_complete env = None \/
  (exists r, Env.chat_complete env = Some r /\
             parse env (ContentState.body cs) r = JS.JNull) ->
  let w' := after (handler env contentId) (World.mk s n []) in
  let st := match ContentState.aiAnalysis cs with
            | Some _ => WorkflowStatus.analyzed
            | None => WorkflowStatus.failed
            end in
  result (handler env contentId) (World.mk s n []) = Ok tt /\
  stored_status (World.store w') contentId [st] /\
  (exists cs', Store.content (World.store w') !! contentId = Some cs' /\
               ContentState.aiAnalysis cs' = ContentState.aiAnalysis cs /\
               ContentState.body cs' = ContentState.body cs) /\
  Store.ai_analysis (World.store w') = Store.ai_analysis s /\
  List.filter is_notification (World.trace w') = [] /\
  Step.triggered (World.trace w') = [].
Proof.
  intros Hc Hfail. cbv zeta.
  destruct (handler_fails s n cs Hc Hfail)
    as (Hr & (cs' & Hc' & Hst & Ha' & Hb') & Hw & Hai & Htr).
  split; [exact Hr|]. split.
  - exists cs', (ContentState.workflowStatus cs').
    split; [exact Hc'|]. split; [reflexivity|]. rewrite Hst.
    split; [exact Hw|]. destruct (ContentState.aiAnalysis cs); now left.
  - split; [eauto|]. split; [exact Hai|]. split; [exact Htr|].
    revert Htr. generalize (World.trace
      (after (handler env contentId) (World.mk s n []))).
    induction l as [|e l IH]; [reflexivity|].
    destruct e; cbn; try discriminate; auto.
Qed.

Lemma score_clamped (v : option JS.json) : clamped_to_0_100 v (score v).
Proof.
  unfold clamped_to_0_100, score.
  destruct v as [[| |[|q|]| | |]|]; cbn; try (unfold Qeq; reflexivity).
  destruct (Qle_bool 100 q) eqn:H100; cbn.
  - apply Qle_bool_iff in H100. split; [|split].
    + intros Hq. exfalso. apply (Qlt_not_le _ _ Hq).
      apply Qle_trans with 100%Q; [discriminate|exact H100].
    + intros [_ Hq]. apply Qle_antisym; assumption.
    + intros _. reflexivity.
  - assert (Hlt : (q < 100)%Q).
    { apply Qnot_le_lt. intros H. apply Qle_bool_iff in H. congruence. }
    destruct (Qle_bool 0 q) eqn:H0; cbn.
    + apply Qle_bool_iff in H0. split; [|split].
      * intros Hq. exfalso. exact (Qlt_not_le _ _ Hq H0).
      * intros _. reflexivity.
      * intros Hq. exfalso. exact (Qlt_irrefl _ (Qlt_trans _ _ _ Hq Hlt)).
    + assert (Hneg : (q < 0)%Q).
      { apply Qnot_le_lt. intros H. apply Qle_bool_iff in H. congruence. }
      split; [|split].
      * intros _. reflexivity.
      * intros [Hq _]. exfalso. exact (Qlt_not_le _ _ Hneg Hq).
      * intros Hq. exfalso. exact (Qlt_irrefl _ (Qlt_trans _ _ _ Hq Hlt)).
Qed.

(** X6.  The readabilityScore and the qualityScore of a stored analysis
    are the numbers the LLM gave when these lie between 0 and 100; a
    smaller number (or -Infinity) is stored as 0, a larger one (or
    Infinity) as 100, and a member that is missing or not a number as
    50. *)
Theorem scores_saturate (s : Store.t) (n : nat) (cs : ContentState.t)
    (r : string) :
  Env.MISTRAL_API_KEY env = true ->
  Store.content s !! contentId = Some cs ->
  Env.chat_complete env = Some r ->
  parse env (ContentState.body cs) r <> JS.JNull ->
  let w' := after (handler env contentId) (World.mk s n []) in
  let j := parse env (ContentState.body cs) r in
  exists a,
    Store.ai_analysis (World.store w') !! contentId = Some a /\
    clamped_to_0_100 (JS.get j "readabilityScore")
      (AIAnalysisResult.readabilityScore a) /\
    clamped_to_0_100 (JS.get j "qualityScore")
      (AIAnalysisResult.qualityScore a).
Proof.
  intros Hkey Hc Hchat Hnull. cbv zeta.
  destruct (handler_stores_analysis env contentId s n cs r Hkey Hc Hchat Hnull)
    as (Hai & _).
  eexists. split; [exact Hai|]. unfold construct. cbn.
  split; apply score_clamped.
Qed.

(** X7.  When the answer of the LLM parses to a JSON value that is not
    null and has none of the eight expected members (a number, a string, an
    array, an empty object), the stored analysis is made of the defaults
    only: sentiment 'neutral', no topics, both scores 50, the word count of
    the body, the first 200 characters of the body followed by three dots
    as summary, and no strengths or weaknesses. *)
Theorem answer_without_members_gives_defaults (s : Store.t) (n : nat)
    (cs : ContentState.t) (r : string) (j : JS.json) :
  Env.MISTRAL_API_KEY env = true ->
  Store.content s !! contentId = Some cs ->
  Env.chat_complete env = Some r ->
  Env.JSON_parse env (clean r) = Some j ->
  j <> JS.JNull ->
  (forall k, In k ["sentiment"; "topics"; "readabilityScore"; "wordCount";
                   "qualityScore"; "summary"; "strengths"; "weaknesses"] ->
             JS.get j k = None) ->
  let w' := after (handler env contentId) (World.mk s n []) in
  let body := ContentState.body cs in
  Store.ai_analysis (World.store w') !! contentId
  = Some (AIAnalysisResult.mk (JS.JStr "neutral") [] (JS.num 50)
            (JS.of_nat (List.length (JS.split_ws body))) (JS.num 50)
            (JS.substring 0 200 body +:+ "...") [] []
            (Env.clock env (S n))).
Proof.
  intros Hkey Hc Hchat Hparse Hnull Hnone. cbv zeta.
  assert (Hp : parse env (ContentState.body cs) r = j).
  { unfold parse. now rewrite Hparse. }
  destruct (handler_stores_analysis env contentId s n cs r Hkey Hc Hchat)
    as (Hai & _); [now rewrite Hp|].
  rewrite Hai, Hp. unfold construct.
  rewrite !Hnone by (cbn; tauto). reflexivity.
Qed.
End AnalysisOutcome.

(** X5 at the content ["c1"], which has no analysis, when the LLM call
    fails. *)
Lemma failed_analysis_falls_back_on_the_record_witness :
  let w0 := World.mk (sample_store (sample_content "One two" "en")) 0 [] in
  let w' := after (AnalyzeWithAI.handler silent_env "c1") w0 in
  result (AnalyzeWithAI.handler silent_env "c1") w0 = Ok tt /\
  stored_status (World.store w') "c1" [WorkflowStatus.failed] /\
  (exists cs', Store.content (World.store w') !! "c1" = Some cs' /\
               ContentState.aiAnalysis cs' = None /\
               ContentState.body cs' = "One two") /\
  Store.ai_analysis (World.store w')
    = Store.ai_analysis (sample_store (sample_content "One two" "en")) /\
  List.filter is_notification (World.trace w') = [] /\
  Step.triggered (World.trace w') = [].
Proof.
  apply (failed_analysis_falls_back_on_the_record silent_env "c1"
           (sample_store (sample_content "One two" "en")) 0
           (sample_content "One two" "en")).
  - reflexivity.
  - right. left. reflexivity.
Defined.

(** [improved_content] carries [analysis_85_neutral]: when the LLM call
    fails, it ends 'analyzed' and keeps that analysis. *)
Example earlier_analysis_survives_a_failed_run :
  let w' := after (AnalyzeWithAI.handler silent_env "c1")
              (World.mk (sample_store improved_content) 0 []) in
  (fun cs => (ContentState.workflowStatus cs, ContentState.aiAnalysis cs))
    <$> Store.content (World.store w') !! "c1"
  = Some (WorkflowStatus.analyzed, Some analysis_85_neutral).
Proof. reflexivity. Qed.

(** X6 at an answer with a readabilityScore of 130 and a qualityScore of
    72. *)
Lemma scores_saturate_witness :
  let w' := after (AnalyzeWithAI.handler scored_env "c1")
              (World.mk (sample_store (sample_content "One two" "en")) 0 []) in
  exists a,
    Store.ai_analysis (World.store w') !! "c1" = Some a /\
    clamped_to_0_100 (Some (JS.JNum (JS.Fin 130)))
      (AIAnalysisResult.readabilityScore a) /\
    clamped_to_0_100 (Some (JS.JNum (JS.Fin 72)))
      (AIAnalysisResult.qualityScore a).
Proof.
  apply (scores_saturate scored_env "c1"
           (sample_store (sample_content "One two" "en")) 0
           (sample_content "One two" "en") scored_text).
  - reflexivity.
  - reflexivity.
  - reflexivity.
  - vm_compute. discriminate.
Defined.

(** X7 at the answer [42]. *)
Lemma answer_without_members_gives_defaults_witness :
  let w' := after (AnalyzeWithAI.handler bare_env "c1")
              (World.mk (sample_store (sample_content "One two" "en")) 0 []) in
  Store.ai_analysis (World.store w') !! "c1"
  = Some (AIAnalysisResult.mk (JS.JStr "neutral") [] (JS.num 50)
            (JS.of_nat 2) (JS.num 50) "One two..." [] []
            (Env.clock bare_env 1)).
Proof.
  apply (answer_without_members_gives_defaults bare_env "c1"
           (sample_store (sample_content "One two" "en")) 0
           (sample_content "One two" "en") "42" (JS.JNum (JS.Fin 42))).
  - reflexivity.
  - reflexivity.
  - reflexivity.
  - reflexivity.
  - discriminate.
  - intros k _. reflexivity.
Defined.

(** ** Markdown fences around the answer of the LLM *)

Section Fences.
Import AnalyzeWithAI.

Lemma append_cons (c : ascii) (a b : string) :
  String c a +:+ b = String c (a +:+ b).
Proof. reflexivity. Qed.

Lemma append_nil (b : string) : EmptyString +:+ b = b.
Proof. reflexivity. Qed.

Lemma append_nonempty (a b : string) :
  b <> EmptyString -> a +:+ b <> EmptyString.
Proof. destruct a; [now rewrite append_nil|discriminate]. Qed.

(** [trimEnd] keeps a text whose end it keeps. *)
Lemma trimEnd_append (a b : string) :
  b <> EmptyString -> JS.trimEnd b = b -> JS.trimEnd (a +:+ b) = a +:+ b.
Proof.
  intros Hne Hb. induction a as [|c a IH]; [now rewrite append_nil|].
  rewrite append_cons. cbn [JS.trimEnd]. rewrite IH.
  destruct (a +:+ b) eqn:E; [|reflexivity].
  now apply append_nonempty in E.
Qed.

(** A pattern that starts with a backtick matches nowhere in a text
    without backticks: the text is kept up to its end. *)
Lemma remove_all_keeps (pat p tail : string) :
  occurs "`" p = false ->
  forall fuel, (String.length p <= fuel)%nat ->
  JS.remove_all fuel (String "`" pat) (p +:+ tail)
  = p +:+ JS.remove_all (fuel - String.length p) (String "`" pat) tail.
Proof.
  induction p as [|c p IH]; intros Hp fuel Hfuel.
  - rewrite !append_nil. simpl. now rewrite Nat.sub_0_r.
  - simpl in Hp. apply orb_false_iff in Hp as [Hc Hp].
    destruct fuel as [|fuel]; [simpl in Hfuel; lia|].
    rewrite !append_cons. cbn [JS.remove_all String.prefix].
    destruct (ascii_dec "`" c) as [<-|_]; [discriminate Hc|].
    rewrite IH by (simpl in Hfuel; auto; lia). reflexivity.
Qed.

(** What the two replacements do to a payload without backticks that is
    followed by a line feed and the closing fence. *)
Lemma remove_json_fence_keeps (p : string) (k : nat) :
  occurs "`" p = false ->
  JS.remove_all (k + String.length (p +:+ String "010" "```")) "```json"
    (p +:+ String "010" "```")
  = p +:+ String "010" "```".
Proof.
  intros Hp. rewrite remove_all_keeps by (auto; rewrite length_append; lia).
  f_equal. rewrite length_append.
  replace (k + (String.length p + String.length (String "010" "```"))
           - String.length p)%nat with (4 + k)%nat by (simpl; lia).
  destruct k; reflexivity.
Qed.

Lemma remove_closing_fence (p : string) (k : nat) :
  occurs "`" p = false ->
  JS.remove_all (k + String.length (p +:+ String "010" "```")) "```"
    (p +:+ String "010" "```")
  = p +:+ String "010" EmptyString.
Proof.
  intros Hp. rewrite remove_all_keeps by (auto; rewrite length_append; lia).
  f_equal. rewrite length_append.
  replace (k + (String.length p + String.length (String "010" "```"))
           - String.length p)%nat with (4 + k)%nat by (simpl; lia).
  destruct k; reflexivity.
Qed.

Lemma trim_fenced (s : string) :
  JS.trimEnd s = s -> JS.trim (String "`" s) = String "`" s.
Proof.
  intros Hs. unfold JS.trim.
  change (JS.trimStart (String "`" s)) with (String "`" s).
  cbn [JS.trimEnd]. rewrite Hs. destruct s; reflexivity.
Qed.

(** X8.  An answer that consists of a payload without backticks between an
    opening fence line (three backticks, with or without the word json) and
    a closing fence on a line of its own is cleaned to the payload followed
    by one line feed: both fences go, and so does the line feed after the
    opening one, while the line feed before the closing one stays. *)
Theorem clean_unwraps_fenced_payload (p : string) :
  occurs "`" p = false ->
  clean ("```json" +:+ LF +:+ p +:+ LF +:+ "```") = p +:+ LF /\
  clean ("```" +:+ LF +:+ p +:+ LF +:+ "```") = p +:+ LF.
Proof.
  intros Hp. unfold clean, LF.
  rewrite !append_cons, !append_nil.
  set (q := p +:+ String "010" "```").
  assert (Hq : forall a, JS.trimEnd (a +:+ q) = a +:+ q).
  { intros a. apply trimEnd_append.
    - apply append_nonempty. discriminate.
    - apply trimEnd_append; [discriminate|reflexivity]. }
  split.
  - rewrite trim_fenced
      by (apply (Hq (String "`" (String "`" (String "j" (String "s"
                       (String "o" (String "n" (String "010" EmptyString))))))))).
    change (JS.startsWith "```json" _) with true. cbv iota.
    change (JS.removeFence "```json" _)
      with (JS.remove_all (7 + String.length q) "```json" q).
    unfold q. rewrite remove_json_fence_keeps by exact Hp.
    unfold JS.removeFence.
    apply (remove_closing_fence p 0 Hp).
  - rewrite trim_fenced
      by (apply (Hq (String "`" (String "`" (String "010" EmptyString))))).
    change (JS.startsWith "```json" _) with false. cbv iota.
    change (JS.startsWith "```" _) with true. cbv iota.
    change (JS.removeFence "```" _)
      with (JS.remove_all (3 + String.length q) "```" q).
    unfold q. apply (remove_closing_fence p 3 Hp).
Qed.
End Fences.

(** X8 at the payload [{}]. *)
Lemma clean_unwraps_fenced_payload_witness :
  AnalyzeWithAI.clean ("```json" +:+ LF +:+ "{}" +:+ LF +:+ "```")
    = "{}" +:+ LF /\
  AnalyzeWithAI.clean ("```" +:+ LF +:+ "{}" +:+ LF +:+ "```") = "{}" +:+ LF.
Proof.
  apply (clean_unwraps_fenced_payload "{}"). reflexivity.
Defined.

(** ** Recommendation stage *)

Section RecommendationList.
Import GenerateRecommendations.

Lemma append_inj (a b c : string) : a +:+ b = a +:+ c -> b = c.
Proof.
  induction a as [|x a IH]; [trivial|].
  intros H. change (String x (a +:+ b) = String x (a +:+ c)) in H.
  injection H as H. auto.
Qed.

Lemma id_inj (contentId b c : string) :
  "rec_" +:+ contentId +:+ b = "rec_" +:+ contentId +:+ c -> b = c.
Proof.
  intros H. apply (append_inj contentId).
  now apply (append_inj "rec_").
Qed.

Lemma generated_ids (nts : JS.xreal -> string) (contentId : string)
    (a : AIAnalysisResult.t) :
  let l := generate nts contentId a in
  NoDup (List.map Recommendation.id l) /\
  (1 <= List.length l <= 4)%nat /\
  Forall (fun r => Recommendation.votes r = None) l.
Proof.
  cbv zeta. unfold generate, additional, publishing.
  destruct (JS.ge (AIAnalysisResult.qualityScore a) (JS.num 80) &&
            is_positive (AIAnalysisResult.sentiment a));
    [|destruct (JS.ge (AIAnalysisResult.qualityScore a) (JS.num 60))];
    destruct (0 <? List.length (AIAnalysisResult.weaknesses a))%nat;
    destruct (JS.lt (AIAnalysisResult.readabilityScore a) (JS.num 60));
    destruct ((0 <? List.length (AIAnalysisResult.topics a))%nat &&
              (List.length (AIAnalysisResult.topics a) <? 3)%nat);
    cbn [List.app List.map List.length Recommendation.id];
    (split; [|split; [cbn; lia|repeat constructor]]).
  all: repeat (apply NoDup_cons_2 || apply NoDup_nil_2).
  all: rewrite ?list_elem_of_In; cbn [In].
  all: intros H; repeat destruct H as [H|H];
    try (apply id_inj in H; discriminate H); try contradiction.
Qed.

(** X9.  The recommendation stage stores between one and four
    recommendations for stored content; their ids are pairwise different,
    so that a vote addressed to an id concerns one recommendation only, and
    none carries votes yet. *)
Theorem recommendations_have_distinct_ids (env : Env.t) (contentId : string)
    (aiAnalysis : AIAnalysisResult.t) (s : Store.t) (n : nat)
    (cs : ContentState.t) :
  Store.content s !! contentId = Some cs ->
  let w' := after (handler env contentId aiAnalysis) (World.mk s n []) in
  exists l cs',
    Store.recommendations (World.store w') !! contentId = Some l /\
    Store.content (World.store w') !! contentId = Some cs' /\
    ContentState.recommendations cs' = Some l /\
    NoDup (List.map Recommendation.id l) /\
    (1 <= List.length l <= 4)%nat /\
    Forall (fun r => Recommendation.votes r = None) l.
Proof.
  intros Hc. cbv zeta.
  destruct (handler_stores_recommendations env contentId aiAnalysis s n cs Hc)
    as (Hr & cs' & Hc' & Hl & _).
  eexists _, cs'. split; [exact Hr|]. split; [exact Hc'|].
  split; [exact Hl|]. apply generated_ids.
Qed.
End RecommendationList.

(** X9 at [improved_content] and [analysis_85_neutral]. *)
Lemma recommendations_have_distinct_ids_witness :
  let w' := after (GenerateRecommendations.handler sample_env "c1"
                     analysis_85_neutral)
              (World.mk (sample_store improved_content) 0 []) in
  exists l cs',
    Store.recommendations (World.store w') !! "c1" = Some l /\
    Store.content (World.store w') !! "c1" = Some cs' /\
    ContentState.recommendations cs' = Some l /\
    NoDup (List.map Recommendation.id l) /\
    (1 <= List.length l <= 4)%nat /\
    Forall (fun r => Recommendation.votes r = None) l.
Proof.
  apply (recommendations_have_distinct_ids sample_env "c1"
           analysis_85_neutral (sample_store improved_content) 0
           improved_content).
  reflexivity.
Defined.

(** ** Votes *)

Section Votes.
Import VoteRecommendation.
Variable env : Env.t.
Variable req : Http.Request.

Abbreviation cid := (Http.text (Http.id req)).
Abbreviation rid := (Http.text (Http.recId req)).
Abbreviation u := (Http.text (Http.userId req)).
Abbreviation v := (Http.text (Http.vote req)).
Abbreviation guard :=
  (Http.missing (Http.id req) || Http.missing (Http.recId req)
   || (Http.missing (Http.userId req) || Http.missing (Http.vote req) ||
       negb (JS.includes (Http.text (Http.vote req)) ["up"; "down"]))).

Lemma guard_spec : guard = false <-> well_formed_vote req.
Proof.
  unfold well_formed_vote.
  rewrite !orb_false_iff, negb_false_iff.
  assert (Hin : JS.includes v ["up"; "down"] = true <->
                In v ["up"; "down"]).
  { unfold JS.includes. rewrite existsb_exists. split.
    - intros (c & Hc & Heq). apply String.eqb_eq in Heq. now subst.
    - intros H. eexists. split; [exact H|apply String.eqb_refl]. }
  rewrite Hin.
  assert (Hv : In v ["up"; "down"] -> Http.missing (Http.vote req) = false).
  { unfold Http.text, Http.missing.
    destruct (Http.vote req) as [d|]; cbn.
    - intros [<-|[<-|[]]]; reflexivity.
    - intros [H|[H|[]]]; discriminate H. }
  tauto.
Qed.

Lemma find_none (l : list Recommendation.t) :
  List.find (has_id rid) l = None <->
  forall r, In r l -> Recommendation.id r <> rid.
Proof.
  split.
  - intros H r Hin Hid.
    apply (List.find_none _ _ H) in Hin. unfold has_id in Hin.
    rewrite Hid, String.eqb_refl in Hin. discriminate.
  - intros H. induction l as [|r l IH]; [reflexivity|]. simpl.
    unfold has_id at 1. destruct (String.eqb_spec (Recommendation.id r) rid).
    + exfalso. apply (H r); [now left|assumption].
    + apply IH. intros r' Hin. apply H. now right.
Qed.

(** X10.  A vote request that is not well formed (a missing or empty
    contentId, recommendationId or userId, or a vote other than 'up' and
    'down') is answered 400; a well-formed one that names unknown content,
    or a recommendation the content record does not have, is answered 404.
    In both cases nothing is written, pushed or emitted. *)
Theorem refused_vote_changes_nothing (w : World.t) :
  (~ well_formed_vote req ->
   exists resp, handler env req w = (Ok resp, w) /\ Http.status resp = 400) /\
  (well_formed_vote req ->
   Store.content (World.store w) !! cid = None \/
   (exists cs, Store.content (World.store w) !! cid = Some cs /\
      forall r, In r (recommendations_of cs) -> Recommendation.id r <> rid) ->
   exists resp, handler env req w = (Ok resp, w) /\ Http.status resp = 404).
Proof.
  rewrite <- guard_spec. destruct w as [s n tr].
  unfold handler. unfold_monad. cbn.
  destruct (Http.missing (Http.id req) || Http.missing (Http.recId req));
    cbn.
  { split; [eauto|discriminate]. }
  destruct (_ || _ || _); cbn.
  { split; [eauto|discriminate]. }
  split; [intros H; now destruct H|]. intros _ [Hc|(cs & Hc & Hr)].
  - rewrite Hc. eauto.
  - rewrite Hc. cbn. apply find_none in Hr. unfold recommendations_of in Hr.
    rewrite Hr. eauto.
Qed.

(** The effect of one more entry on a count. *)
Lemma count_insert (x : string) (o : gmap string string) :
  (count x (<[u:=v]> o) +
   match o !! u with
   | Some y => if String.eqb y x then 1 else 0
   | None => 0
   end
   = count x o + if String.eqb v x then 1 else 0)%nat.
Proof.
  rewrite (count_split x u (<[u:=v]> o)), (count_split x u o).
  rewrite delete_insert_eq, lookup_insert_eq.
  destruct (o !! u) as [y|]; [destruct (String.eqb y x)|];
    destruct (String.eqb v x); lia.
Qed.

Lemma obj_set_insert (o : gmap string string) :
  u <> "__proto__" \/ is_Some (o !! u) ->
  obj_set u v o = <[u:=v]> o.
Proof.
  unfold obj_set. intros [H|H].
  - destruct (String.eqb_spec u "__proto__"); [contradiction|reflexivity].
  - rewrite (bool_decide_eq_true_2 _ H). now rewrite andb_false_r.
Qed.

Lemma count_all (o : gmap string string) :
  map_Forall (fun _ y => y = "up" \/ y = "down") o ->
  (count "up" o + count "down" o = size o)%nat.
Proof.
  intros H. unfold count. rewrite <- length_map_to_list.
  rewrite <- (length_fmap snd (map_to_list o)).
  assert (Hall : Forall (fun y => y = "up" \/ y = "down")
                   (map_to_list o).*2).
  { apply Forall_forall. intros y Hy.
    apply list_elem_of_fmap in Hy as ([k y'] & -> & Hin).
    apply elem_of_map_to_list in Hin. exact (H k y' Hin). }
  induction Hall as [|y l [->| ->] _ IH]; cbn; [reflexivity|..]; lia.
Qed.

(** X11.  A well-formed vote on a recommendation of stored content, by a
    user whose id is not __proto__, replaces the earlier vote of that user
    in the vote map of the recommendation and leaves the votes of all other
    users as they were.  Each count then changes by one at most: the count
    of the new vote goes up by one unless the user had voted that way, and
    the count of the earlier vote goes down by one unless the vote is the
    same.  When the map held only 'up' and 'down' votes, upvotes and
    downvotes add up to the number of users who voted. *)
Theorem last_vote_wins (s : Store.t) (n : nat) (tr : list Effect)
    (cs : ContentState.t) (x : Recommendation.t) :
  well_formed_vote req ->
  Store.content s !! cid = Some cs ->
  List.find (has_id rid) (recommendations_of cs) = Some x ->
  u <> "__proto__" ->
  let old := default ∅ (Store.votes s !! voteKey cid rid) in
  let s' := World.store (after (handler env req) (World.mk s n tr)) in
  exists new,
    Store.votes s' !! voteKey cid rid = Some new /\
    new !! u = Some v /\
    (forall k, k <> u -> new !! k = old !! k) /\
    (forall y,
       (count y new + match old !! u with
                      | Some z => if String.eqb z y then 1 else 0
                      | None => 0
                      end
        = count y old + if String.eqb v y then 1 else 0)%nat) /\
    (map_Forall (fun _ y => y = "up" \/ y = "down") old ->
     (count "up" new + count "down" new = size new)%nat).
Proof.
  intros Hwf Hc Hf Hu. cbv zeta. apply guard_spec in Hwf as Hg.
  rewrite (handler_writes req env s n tr cs x Hg Hc Hf). cbn.
  rewrite lookup_insert_eq. rewrite obj_set_insert by auto.
  eexists. split; [reflexivity|]. split; [apply lookup_insert_eq|].
  split; [intros k Hk; now apply lookup_insert_ne|].
  split; [intros y; apply count_insert|].
  intros Hall. apply count_all. apply map_Forall_insert_2; [|exact Hall].
  destruct Hwf as (_ & _ & _ & [<-|[<-|[]]]); auto.
Qed.

(** X12.  When a vote was recorded but the stream push or the emission of
    vote.cast fails, the request is answered 500 although the vote map and
    the counts on the content record are stored exactly as after a
    successful request. *)
Theorem failed_notification_keeps_the_vote (s : Store.t) (n : nat)
    (tr : list Effect) (cs : ContentState.t) (x : Recommendation.t) :
  well_formed_vote req ->
  Store.content s !! cid = Some cs ->
  List.find (has_id rid) (recommendations_of cs) = Some x ->
  Env.stream_ok env = false \/ Env.emit_ok env = false ->
  let w := World.mk s n tr in
  (exists resp, result (handler env req) w = Ok resp /\
                Http.status resp = 500) /\
  (exists resp, result (handler (with_delivery true true env) req) w
                = Ok resp /\ Http.status resp = 200) /\
  World.store (after (handler env req) w)
  = World.store (after (handler (with_delivery true true env) req) w) /\
  Store.votes (World.store (after (handler env req) w)) !! voteKey cid rid
  = Some (obj_set u v (default ∅ (Store.votes s !! voteKey cid rid))).
Proof.
  intros Hwf Hc Hf Hfail. cbv zeta. apply guard_spec in Hwf as Hg.
  rewrite !(handler_writes req _ s n tr cs x Hg Hc Hf).
  apply orb_false_iff in Hg as [H1 H2].
  unfold recommendations_of in Hf.
  unfold handler. unfold_monad. rewrite !H1, !H2. cbn.
  rewrite Hc. cbn. rewrite Hf. cbn. rewrite lookup_insert_eq.
  destruct Hfail as [H|H]; rewrite H; cbn;
    [|destruct (Env.stream_ok env); cbn]; eauto 10.
Qed.
End Votes.

(** X11 at the upvote of user-7 on the recommendation of
    [improved_content]. *)
Lemma last_vote_wins_witness :
  let old := default ∅ (Store.votes (sample_store improved_content)
                          !! "votes_c1_rec_c1_publish_2") in
  let s' := World.store
              (after (VoteRecommendation.handler sample_env vote_request)
                 (World.mk (sample_store improved_content) 0 [])) in
  exists new,
    Store.votes s' !! "votes_c1_rec_c1_publish_2" = Some new /\
    new !! "user-7" = Some "up" /\
    (forall k, k <> "user-7" -> new !! k = old !! k) /\
    (forall y,
       (VoteRecommendation.count y new +
        match old !! "user-7" with
        | Some z => if String.eqb z y then 1 else 0
        | None => 0
        end
        = VoteRecommendation.count y old +
          if String.eqb "up" y then 1 else 0)%nat) /\
    (map_Forall (fun _ y => y = "up" \/ y = "down") old ->
     (VoteRecommendation.count "up" new +
      VoteRecommendation.count "down" new = size new)%nat).
Proof.
  apply (last_vote_wins sample_env vote_request
           (sample_store improved_content) 0 [] improved_content
           (GenerateRecommendations.publishing "c1" analysis_85_neutral)).
  - repeat split. now left.
  - reflexivity.
  - reflexivity.
  - discriminate.
Defined.

(** X12 at the same upvote, with a stream that fails. *)
Lemma failed_notification_keeps_the_vote_witness :
  let env := with_delivery false true sample_env in
  let w := World.mk (sample_store improved_content) 0 [] in
  (exists resp,
     result (VoteRecommendation.handler env vote_request) w = Ok resp /\
     Http.status resp = 500) /\
  (exists resp,
     result (VoteRecommendation.handler (with_delivery true true env)
               vote_request) w = Ok resp /\
     Http.status resp = 200) /\
  World.store (after (VoteRecommendation.handler env vote_request) w)
  = World.store
      (after (VoteRecommendation.handler (with_delivery true true env)
                vote_request) w) /\
  Store.votes
    (World.store (after (VoteRecommendation.handler env vote_request) w))
    !! "votes_c1_rec_c1_publish_2"
  = Some (VoteRecommendation.obj_set "user-7" "up" ∅).
Proof.
  apply (failed_notification_keeps_the_vote
           (with_delivery false true sample_env) vote_request
           (sample_store improved_content) 0 [] improved_content
           (GenerateRecommendations.publishing "c1" analysis_85_neutral)).
  - repeat split. now left.
  - reflexivity.
  - reflexivity.
  - left. reflexivity.
Defined.

(** ** Applying a rewrite *)

Section ApplyBoth.
Variable env : Env.t.
Variable req : Http.Request.

Abbreviation cid := (Http.text (Http.id req)).

(** X13.  Both apply handlers refuse a request that does not name stored
    content with a finished, non-empty rewrite: the answer is 404 when the
    contentId is given but no content is stored under it and 400 in every
    other case (no contentId, no rewrite, a rewrite that is still
    generating or has failed, an empty improved body), and nothing is
    written, pushed or emitted. *)
Theorem apply_refuses_unfinished_rewrite (w : World.t) :
  ~ (exists cs ic, applicable (World.store w) req cs ic) ->
  let code := if Http.missing (Http.id req) then 400
              else if bool_decide (Store.content (World.store w) !! cid = None)
                   then 404 else 400 in
  (exists resp, ApplyImprovedContent.handler env req w = (Ok resp, w) /\
                Http.status resp = code) /\
  (exists resp, ApplyAndReanalyze.handler env req w = (Ok resp, w) /\
                Http.status resp = code).
Proof.
  intros Hno. cbv zeta. destruct w as [s n tr]. cbn [World.store] in *.
  unfold ApplyImprovedContent.handler, ApplyAndReanalyze.handler,
    ApplyImprovedContent.error_response.
  unfold_monad. cbn.
  destruct (Http.missing (Http.id req)) eqn:Hid; cbn; [eauto 10|].
  destruct (Store.content s !! cid) as [cs|] eqn:Hc; cbn; [|eauto 10].
  destruct (ContentState.improvedContent cs) as [ic|] eqn:Hi; cbn;
    [|eauto 10].
  destruct (bool_decide_reflect
              (ImprovedContent.status ic = ImprovedContent.completed))
    as [Hst|Hst]; cbn; [|eauto 10].
  destruct (String.eqb_spec (ImprovedContent.improvedBody ic) EmptyString)
    as [Hb|Hb]; cbn; [eauto 10|].
  exfalso. apply Hno. exists cs, ic.
  repeat (split; [assumption|]). assumption.
Qed.

(** The run of the re-analysing variant on an applicable request. *)
Lemma reanalyze_run (s : Store.t) (n : nat) (cs : ContentState.t)
    (ic : ImprovedContent.t) :
  applicable s req cs ic ->
  let w' := after (ApplyAndReanalyze.handler env req) (World.mk s n []) in
  let cs' :=
    ContentState.mk (ContentState.contentId cs) (ContentState.title cs)
      (ImprovedContent.improvedBody ic) (ContentState.author cs)
      (ContentState.language cs) (ContentState.userId cs)
      (ContentState.createdAt cs) (Env.clock env (S n))
      WorkflowStatus.pending (ContentState.validationResult cs) None None
      (Some (ImprovedContent.mk (ImprovedContent.originalBody ic)
               (ImprovedContent.improvedBody ic)
               (ImprovedContent.generatedAt ic) (ImprovedContent.status ic)
               (Some (Env.clock env n)))) in
  World.store w'
  = Store.with_workflow
      (insert cid (WorkflowRecord.mk WorkflowStatus.pending cid))
      (Store.with_content (insert cid cs') s) /\
  World.trace w'
  = [StateSet "content" cid; StateSet "workflow" cid;
     StreamSend cid "improvement_applied";
     Emit "content.created" (DContent cid (Env.traceId env))] /\
  exists resp,
    result (ApplyAndReanalyze.handler env req) (World.mk s n []) = Ok resp /\
    Http.status resp = if Env.emit_ok env then 200 else 500.
Proof.
  intros (Hid & Hc & Hi & Hst & Hb). cbv zeta.
  unfold ApplyAndReanalyze.handler. unfold_monad. cbn.
  rewrite Hid. cbn. rewrite Hc. cbn. rewrite Hi. cbn.
  rewrite (bool_decide_eq_true_2 _ Hst). cbn.
  apply String.eqb_neq in Hb. rewrite Hb. cbn.
  destruct (Env.stream_ok env); cbn; destruct (Env.emit_ok env); cbn;
    repeat split; eauto.
Qed.

(** X14.  When the re-analysing variant of the apply handler gets an
    applicable request and the emission succeeds, it answers 200; the
    content record then has the improved body, status 'pending', no
    analysis and no recommendations, while title, author, language, the
    earlier validation result and the original body kept with the rewrite
    are as before; the workflow record is 'pending'; the analyses and
    recommendations kept in their own store groups are not cleared; and the
    one event emitted, content.created, triggers the validation step and
    no other. *)
Theorem apply_restarts_the_pipeline (s : Store.t) (n : nat)
    (cs : ContentState.t) (ic : ImprovedContent.t) :
  applicable s req cs ic ->
  Env.emit_ok env = true ->
  let w0 := World.mk s n [] in
  let w' := after (ApplyAndReanalyze.handler env req) w0 in
  (exists resp, result (ApplyAndReanalyze.handler env req) w0 = Ok resp /\
                Http.status resp = 200) /\
  (exists cs',
     Store.content (World.store w') !! cid = Some cs' /\
     ContentState.body cs' = ImprovedContent.improvedBody ic /\
     ContentState.aiAnalysis cs' = None /\
     ContentState.recommendations cs' = None /\
     ContentState.validationResult cs' = ContentState.validationResult cs /\
     (ContentState.title cs', ContentState.author cs',
      ContentState.language cs', ContentState.createdAt cs')
     = (ContentState.title cs, ContentState.author cs,
        ContentState.language cs, ContentState.createdAt cs) /\
     (ImprovedContent.originalBody <$> ContentState.improvedContent cs')
     = Some (ImprovedContent.originalBody ic)) /\
  stored_status (World.store w') cid [WorkflowStatus.pending] /\
  Store.ai_analysis (World.store w') = Store.ai_analysis s /\
  Store.recommendations (World.store w') = Store.recommendations s /\
  omap emitted_topic (World.trace w') = ["content.created"] /\
  Step.triggered (World.trace w') = [Step.ValidateContent].
Proof.
  intros Happ He. cbv zeta.
  destruct (reanalyze_run s n cs ic Happ) as (Hs & Htr & resp & Hr & Hcode).
  rewrite He in Hcode. rewrite Hs, Htr. unfold stored_status. cbn.
  rewrite !lookup_insert_eq. split; [eauto|]. split; [eexists; repeat split; reflexivity|].
  split; [|repeat split; reflexivity].
  eexists _, _. repeat split; cbn; tauto.
Qed.

(** X15.  When the emission of content.created fails, the re-analysing
    variant answers 500, yet the store is the one a successful request
    leaves: the body is replaced, analysis and recommendations are removed
    from the content record, and the status stays 'pending'. *)
Theorem failed_restart_is_not_rolled_back (s : Store.t) (n : nat)
    (cs : ContentState.t) (ic : ImprovedContent.t) :
  applicable s req cs ic ->
  Env.emit_ok env = false ->
  let w0 := World.mk s n [] in
  let w' := after (ApplyAndReanalyze.handler env req) w0 in
  (exists resp, result (ApplyAndReanalyze.handler env req) w0 = Ok resp /\
                Http.status resp = 500) /\
  World.store w'
  = World.store
      (after (ApplyAndReanalyze.handler (with_delivery true true env) req)
         w0) /\
  stored_status (World.store w') cid [WorkflowStatus.pending] /\
  (exists cs',
     Store.content (World.store w') !! cid = Some cs' /\
     ContentState.body cs' = ImprovedContent.improvedBody ic /\
     ContentState.aiAnalysis cs' = None /\
     ContentState.recommendations cs' = None).
Proof.
  intros Happ He. cbv zeta.
  destruct (reanalyze_run s n cs ic Happ) as (Hs & Htr & resp & Hr & Hcode).
  rewrite He in Hcode. rewrite Hs. split; [eauto|]. split.
  - symmetry. unfold ApplyAndReanalyze.handler.
    destruct Happ as (Hid & Hc & Hi & Hst & Hb).
    unfold_monad. cbn. rewrite Hid. cbn. rewrite Hc. cbn. rewrite Hi. cbn.
    rewrite (bool_decide_eq_true_2 _ Hst). cbn.
    apply String.eqb_neq in Hb. rewrite Hb. reflexivity.
  - unfold stored_status. cbn. rewrite !lookup_insert_eq. split.
    + eexists _, _. repeat split; cbn; tauto.
    + eexists. repeat split; reflexivity.
Qed.

(** X16.  Applying a rewrite with the body-swap variant a second time is
    answered 200 again and changes nothing but the two timestamps: the body
    is still the improved body and the original body kept with the rewrite
    is still the one recorded when the rewrite was made. *)
Theorem second_apply_changes_timestamps_only (s : Store.t) (n : nat)
    (cs : ContentState.t) (ic : ImprovedContent.t) :
  applicable s req cs ic ->
  let w1 := after (ApplyImprovedContent.handler env req) (World.mk s n []) in
  let w2 := after (ApplyImprovedContent.handler env req) w1 in
  (exists resp, result (ApplyImprovedContent.handler env req) w1 = Ok resp /\
                Http.status resp = 200) /\
  exists c1 c2 i1 i2,
    Store.content (World.store w1) !! cid = Some c1 /\
    Store.content (World.store w2) !! cid = Some c2 /\
    ContentState.improvedContent c1 = Some i1 /\
    ContentState.improvedContent c2 = Some i2 /\
    ContentState.body c1 = ImprovedContent.improvedBody ic /\
    ContentState.body c2 = ImprovedContent.improvedBody ic /\
    ImprovedContent.originalBody i2 = ImprovedContent.originalBody ic /\
    ContentState.with_updatedAt (ContentState.updatedAt c1)
      (ContentState.with_improvedContent
         (Some (ImprovedContent.mk (ImprovedContent.originalBody i2)
                  (ImprovedContent.improvedBody i2)
                  (ImprovedContent.generatedAt i2)
                  (ImprovedContent.status i2)
                  (ImprovedContent.appliedAt i1))) c2) = c1 /\
    Store.with_content (fun _ => Store.content s) (World.store w2) = s.
Proof.
  intros (Hid & Hc & Hi & Hst & Hb). cbv zeta.
  apply String.eqb_neq in Hb.
  unfold ApplyImprovedContent.handler. unfold_monad. cbn.
  rewrite Hid. cbn. rewrite Hc. cbn. rewrite Hi. cbn.
  rewrite (bool_decide_eq_true_2 _ Hst). cbn. rewrite Hb. cbn.
  rewrite ?lookup_insert_eq. cbn.
  rewrite ?(bool_decide_eq_true_2 _ Hst). cbn. rewrite ?Hb. cbn.
  rewrite ?lookup_insert_eq. split; [eauto|].
  eexists _, _, _, _. repeat split. destruct s; reflexivity.
Qed.
End ApplyBoth.

(** X13 at a request for content that has no rewrite. *)
Lemma apply_refuses_unfinished_rewrite_witness :
  let w := World.init (sample_store (sample_content "One two" "en")) in
  (exists resp,
     ApplyImprovedContent.handler sample_env apply_request w = (Ok resp, w) /\
     Http.status resp = 400) /\
  (exists resp,
     ApplyAndReanalyze.handler sample_env apply_request w = (Ok resp, w) /\
     Http.status resp = 400).
Proof.
  apply (apply_refuses_unfinished_rewrite sample_env apply_request
           (World.init (sample_store (sample_content "One two" "en")))).
  intros (cs & ic & _ & Hc & Hi & _).
  vm_compute in Hc. injection Hc as <-. discriminate Hi.
Defined.

Lemma improved_content_applicable :
  applicable (sample_store improved_content) apply_request improved_content
    (ImprovedContent.mk "The old body." "The new body."
       "2025-01-02T00:00:00.000Z" ImprovedContent.completed None).
Proof. repeat split. discriminate. Defined.

(** X14 at [improved_content]. *)
Lemma apply_restarts_the_pipeline_witness :
  let w0 := World.mk (sample_store improved_content) 0 [] in
  let w' := after (ApplyAndReanalyze.handler sample_env apply_request) w0 in
  (exists resp,
     result (ApplyAndReanalyze.handler sample_env apply_request) w0
     = Ok resp /\ Http.status resp = 200) /\
  (exists cs',
     Store.content (World.store w') !! "c1" = Some cs' /\
     ContentState.body cs' = "The new body." /\
     ContentState.aiAnalysis cs' = None /\
     ContentState.recommendations cs' = None /\
     ContentState.validationResult cs' = None /\
     (ContentState.title cs', ContentState.author cs',
      ContentState.language cs', ContentState.createdAt cs')
     = ("A title of some length", "Ann", "en", "2025-01-01T00:00:00.000Z") /\
     (ImprovedContent.originalBody <$> ContentState.improvedContent cs')
     = Some "The old body.") /\
  stored_status (World.store w') "c1" [WorkflowStatus.pending] /\
  Store.ai_analysis (World.store w')
    = Store.ai_analysis (sample_store improved_content) /\
  Store.recommendations (World.store w')
    = Store.recommendations (sample_store improved_content) /\
  omap emitted_topic (World.trace w') = ["content.created"] /\
  Step.triggered (World.trace w') = [Step.ValidateContent].
Proof.
  apply (apply_restarts_the_pipeline sample_env apply_request
           (sample_store improved_content) 0 improved_content _
           improved_content_applicable).
  reflexivity.
Defined.

(** X15 at [improved_content], with emissions that fail. *)
Lemma failed_restart_is_not_rolled_back_witness :
  let env := with_delivery true false sample_env in
  let w0 := World.mk (sample_store improved_content) 0 [] in
  let w' := after (ApplyAndReanalyze.handler env apply_request) w0 in
  (exists resp,
     result (ApplyAndReanalyze.handler env apply_request) w0 = Ok resp /\
     Http.status resp = 500) /\
  World.store w'
  = World.store
      (after (ApplyAndReanalyze.handler (with_delivery true true env)
                apply_request) w0) /\
  stored_status (World.store w') "c1" [WorkflowStatus.pending] /\
  (exists cs',
     Store.content (World.store w') !! "c1" = Some cs' /\
     ContentState.body cs' = "The new body." /\
     ContentState.aiAnalysis cs' = None /\
     ContentState.recommendations cs' = None).
Proof.
  apply (failed_restart_is_not_rolled_back
           (with_delivery true false sample_env) apply_request
           (sample_store improved_content) 0 improved_content _
           improved_content_applicable).
  reflexivity.
Defined.

(** X16 at [improved_content]. *)
Lemma second_apply_changes_timestamps_only_witness :
  let w1 := after (ApplyImprovedContent.handler sample_env apply_request)
              (World.mk (sample_store improved_content) 0 []) in
  let w2 := after (ApplyImprovedContent.handler sample_env apply_request)
              w1 in
  (exists resp,
     result (ApplyImprovedContent.handler sample_env apply_request) w1
     = Ok resp /\ Http.status resp = 200) /\
  exists c1 c2 i1 i2,
    Store.content (World.store w1) !! "c1" = Some c1 /\
    Store.content (World.store w2) !! "c1" = Some c2 /\
    ContentState.improvedContent c1 = Some i1 /\
    ContentState.improvedContent c2 = Some i2 /\
    ContentState.body c1 = "The new body." /\
    ContentState.body c2 = "The new body." /\
    ImprovedContent.originalBody i2 = "The old body." /\
    ContentState.with_updatedAt (ContentState.updatedAt c1)
      (ContentState.with_improvedContent
         (Some (ImprovedContent.mk (ImprovedContent.originalBody i2)
                  (ImprovedContent.improvedBody i2)
                  (ImprovedContent.generatedAt i2)
                  (ImprovedContent.status i2)
                  (ImprovedContent.appliedAt i1))) c2) = c1 /\
    Store.with_content (fun _ => Store.content (sample_store improved_content))
      (World.store w2)
    = sample_store improved_content.
Proof.
  apply (second_apply_changes_timestamps_only sample_env apply_request
           (sample_store improved_content) 0 improved_content _
           improved_content_applicable).
Defined.

(** ** Retention job: what it counts and what it leaves *)

Section Sweep.
Import DailyProcessing.
Variable env : Env.t.

Abbreviation sweep c s :=
  (if removable env c
   then Store.with_workflow (delete (ContentState.contentId c))
          (Store.with_content (delete (ContentState.contentId c)) s)
   else s).

Lemma process_counts (acc : Counters) (c : ContentState.t) (s : Store.t)
    (n : nat) (tr : list Effect) :
  exists tr',
    process env acc c (World.mk s n tr)
    = (Ok (mkCounters
             (staleContentCount acc + if removable env c then 1 else 0)
             (deletedContentIds acc ++
              if removable env c then [ContentState.contentId c] else [])
             (processingTimes acc ++
              if is_completed c then [duration env c] else [])),
       World.mk (sweep c s) n tr').
Proof.
  unfold process, removable, is_completed, duration. unfold_monad. cbn.
  destruct (bool_decide _); destruct (stale env c); cbn;
    try destruct (WorkflowStatus.is_final _); cbn;
    rewrite ?Nat.add_0_r, ?Nat.add_1_r, ?app_nil_r; eauto.
Qed.

Lemma for_each_counts (l : list ContentState.t) :
  forall acc s n tr,
  exists tr',
    for_each env l acc (World.mk s n tr)
    = (Ok (mkCounters
             (staleContentCount acc +
              List.length (List.filter (removable env) l))
             (deletedContentIds acc ++
              List.map ContentState.contentId
                (List.filter (removable env) l))
             (processingTimes acc ++
              List.map (duration env) (List.filter is_completed l))),
       World.mk (fold_left (fun s c => sweep c s) l s) n tr').
Proof.
  induction l as [|c l IH]; intros acc s n tr.
  - cbn. unfold ret. rewrite Nat.add_0_r, !app_nil_r.
    destruct acc. eauto.
  - destruct (process_counts acc c s n tr) as (tr1 & H1).
    cbn [for_each]. unfold bind at 1. rewrite H1.
    destruct (IH (mkCounters
                    (staleContentCount acc + if removable env c then 1 else 0)
                    (deletedContentIds acc ++
                     if removable env c then [ContentState.contentId c]
                     else [])
                    (processingTimes acc ++
                     if is_completed c then [duration env c] else []))
                (sweep c s) n tr1) as (tr2 & ->).
    exists tr2. cbn [staleContentCount deletedContentIds processingTimes
                     List.filter fold_left].
    destruct (removable env c), (is_completed c); cbn [List.map List.length];
      rewrite <- ?app_assoc, ?app_nil_r, ?Nat.add_0_r; cbn [List.app];
      do 3 f_equal; lia.
Qed.

(** The run of the job, in full. *)
Lemma handler_counts (s : Store.t) (n : nat) :
  let items := (map_to_list (Store.content s)).*2 in
  let gone := List.filter (removable env) items in
  let m := Metrics.mk (Env.clock env n) (List.length gone)
             (List.length items) (List.length gone)
             (average (List.map (duration env)
                         (List.filter is_completed items)))
             (List.length items - List.length gone) in
  let r := LastRun.mk (Env.clock env (S n))
             (take 100 (List.map ContentState.contentId gone)) in
  exists tr,
    handler env (World.mk s n [])
    = (Ok (Some m),
       World.mk (Store.with_last_run r
                   (Store.with_daily_metrics m
                      (fold_left (fun s c => sweep c s) items s)))
         (S (S n)) tr).
Proof.
  cbv zeta. unfold handler, getGroup_content. unfold_monad. cbn.
  destruct (for_each_counts (map_to_list (Store.content s)).*2
              (mkCounters 0 [] []) s n []) as (tr & ->).
  cbn. rewrite ?length_map. eauto.
Qed.

Lemma sweep_other_groups (l : list ContentState.t) (s : Store.t) :
  let s' := fold_left (fun s c => sweep c s) l s in
  Store.validation s' = Store.validation s /\
  Store.ai_analysis s' = Store.ai_analysis s /\
  Store.recommendations s' = Store.recommendations s /\
  Store.votes s' = Store.votes s.
Proof.
  cbv zeta. revert s. induction l as [|c l IH]; intros s; [cbn; auto|].
  cbn [fold_left]. destruct (IH (sweep c s)) as (-> & -> & -> & ->).
  destruct (removable env c); cbn; auto.
Qed.

(** The content group after the sweep, in a store keyed by contentId: the
    records that are not removable. *)
Lemma swept_is_filter (s : Store.t) :
  keyed_by_contentId s ->
  Store.content
    (fold_left (fun s c => sweep c s) (map_to_list (Store.content s)).*2 s)
  = filter (fun kc => removable env kc.2 = false) (Store.content s).
Proof.
  intros Hkey. apply map_eq. intros k.
  unfold removable. rewrite (swept_content env).
  destruct (Store.content s !! k) as [c|] eqn:Hc.
  - rewrite (examined_spec env s k c Hkey Hc).
    destruct (stale env c && WorkflowStatus.is_final _) eqn:Hd.
    + symmetry. apply map_lookup_filter_None. right. intros c' Hc'.
      cbn. rewrite Hc in Hc'. injection Hc' as <-. now rewrite Hd.
    + symmetry. apply map_lookup_filter_Some. split; [exact Hc|].
      cbn. exact Hd.
  - rewrite Tauto.if_same. symmetry. apply map_lookup_filter_None.
    now left.
Qed.

Lemma filter_length_split {A} (f : A -> bool) (l : list A) :
  (List.length (List.filter f l) +
   List.length (List.filter (fun x => negb (f x)) l)
   = List.length l)%nat.
Proof.
  induction l as [|x l IH]; [reflexivity|]. cbn.
  destruct (f x); cbn; lia.
Qed.

Lemma kept_length (f : ContentState.t -> bool)
    (l : list (string * ContentState.t)) :
  List.length (filter (fun kc => f kc.2 = false) l)
  = List.length (List.filter (fun c => negb (f c)) l.*2).
Proof.
  induction l as [|[k c] l IH]; [reflexivity|].
  rewrite filter_cons. cbn. destruct (f c) eqn:Hf; cbn.
  - rewrite decide_False by (cbn; congruence). exact IH.
  - rewrite decide_True by (cbn; congruence). cbn. now rewrite IH.
Qed.

Lemma size_filter_list {A} (P : string * A -> Prop)
    `{forall x, Decision (P x)} (m : gmap string A) :
  size (filter P m) = List.length (filter P (map_to_list m)).
Proof.
  rewrite map_filter_alt, <- length_map_to_list.
  apply Permutation_length, map_to_list_to_map.
  apply (sublist_NoDup _ (map_to_list m).*1).
  - apply NoDup_fst_map_to_list.
  - apply fmap_sublist, sublist_filter.
Qed.

(** X17.  The metrics the daily job returns are the ones it stores.  They
    count every content record as processed; deletedContentCount and
    staleContentCount are both the number of records deleted, so an old
    record that is kept because it is not in a final state is not counted
    as stale; activeContentCount is the rest, and in a store keyed by
    contentId it is the number of content records left.  The average
    processing time is taken over the 'completed' records, deleted or not.
    The last-run record keeps the ids of the first hundred deletions. *)
Theorem daily_metrics_account_for_the_sweep (s : Store.t) (n : nat) :
  let items := (map_to_list (Store.content s)).*2 in
  let gone := List.filter (removable env) items in
  let w' := after (handler env) (World.mk s n []) in
  exists m r,
    result (handler env) (World.mk s n []) = Ok (Some m) /\
    Store.daily_metrics (World.store w') = Some m /\
    Store.daily_processing_last_run (World.store w') = Some r /\
    Metrics.totalContentProcessed m = size (Store.content s) /\
    Metrics.deletedContentCount m = List.length gone /\
    Metrics.staleContentCount m = List.length gone /\
    (Metrics.activeContentCount m + Metrics.deletedContentCount m
     = Metrics.totalContentProcessed m)%nat /\
    Metrics.averageProcessingTime m
    = average (List.map (duration env) (List.filter is_completed items)) /\
    LastRun.deletedContentIds r
    = take 100 (List.map ContentState.contentId gone) /\
    (List.length (LastRun.deletedContentIds r) <= 100)%nat /\
    (keyed_by_contentId s ->
     Metrics.activeContentCount m = size (Store.content (World.store w'))).
Proof.
  cbv zeta. destruct (handler_counts s n) as (tr & H).
  unfold after, result. rewrite H. cbn.
  set (items := (map_to_list (Store.content s)).*2).
  pose proof (filter_length_split (removable env) items) as Hsplit.
  eexists _, _. split; [reflexivity|]. split; [reflexivity|].
  split; [reflexivity|]. cbn.
  split; [unfold items; now rewrite length_fmap, length_map_to_list|].
  split; [reflexivity|]. split; [reflexivity|]. split; [lia|].
  split; [reflexivity|]. split; [reflexivity|].
  split; [rewrite length_take; lia|].
  intros Hkey. unfold items in *. rewrite (swept_is_filter s Hkey).
  rewrite size_filter_list, kept_length. lia.
Qed.

(** X18.  The daily job deletes content and workflow records only: the
    validation results, analyses, recommendations and vote maps kept in
    their own store groups are all left as they were, those of the deleted
    items included. *)
Theorem daily_job_leaves_the_other_groups (s : Store.t) (n : nat) :
  let s' := World.store (after (handler env) (World.mk s n [])) in
  Store.validation s' = Store.validation s /\
  Store.ai_analysis s' = Store.ai_analysis s /\
  Store.recommendations s' = Store.recommendations s /\
  Store.votes s' = Store.votes s.
Proof.
  cbv zeta. destruct (handler_counts s n) as (tr & H).
  unfold after. rewrite H. cbn. apply sweep_other_groups.
Qed.

Lemma sweep_nothing (l : list ContentState.t) (s : Store.t) :
  Forall (fun c => removable env c = false) l ->
  fold_left (fun s c => sweep c s) l s = s.
Proof.
  induction 1 as [|c l Hc _ IH]; [reflexivity|].
  cbn [fold_left]. now rewrite Hc.
Qed.

(** X19.  In a store keyed by contentId, running the daily job a second
    time with the same current time deletes nothing: the content and
    workflow groups stay as the first run left them, and the second run
    reports no deletion and as many processed records as the first run
    reported active. *)
Theorem second_daily_run_deletes_nothing (s : Store.t) (n n' : nat) :
  keyed_by_contentId s ->
  let w1 := after (handler env) (World.mk s n []) in
  let w2 := after (handler env) (World.mk (World.store w1) n' []) in
  Store.content (World.store w2) = Store.content (World.store w1) /\
  Store.workflow (World.store w2) = Store.workflow (World.store w1) /\
  exists m1 m2,
    Store.daily_metrics (World.store w1) = Some m1 /\
    Store.daily_metrics (World.store w2) = Some m2 /\
    Metrics.deletedContentCount m2 = 0%nat /\
    Metrics.totalContentProcessed m2 = Metrics.activeContentCount m1.
Proof.
  intros Hkey. cbv zeta.
  destruct (daily_metrics_account_for_the_sweep s n)
    as (m1 & r1 & _ & Hm1 & _ & _ & _ & _ & _ & _ & _ & _ & Hact).
  specialize (Hact Hkey).
  set (s1 := World.store (after (handler env) (World.mk s n []))) in *.
  assert (Hc1 : Store.content s1
                = filter (fun kc => removable env kc.2 = false)
                    (Store.content s)).
  { unfold s1. destruct (handler_counts s n) as (tr & H).
    unfold after. rewrite H. cbn. apply (swept_is_filter s Hkey). }
  assert (Hnone : Forall (fun c => removable env c = false)
                    (map_to_list (Store.content s1)).*2).
  { apply Forall_forall. intros c Hin.
    apply list_elem_of_fmap in Hin as ([k c'] & -> & Hin).
    apply elem_of_map_to_list in Hin. rewrite Hc1 in Hin.
    apply map_lookup_filter_Some in Hin as [_ Hin]. exact Hin. }
  destruct (handler_counts s1 n') as (tr & H).
  unfold after. rewrite H. cbn.
  rewrite (sweep_nothing _ _ Hnone).
  split; [reflexivity|]. split; [reflexivity|].
  eexists m1, _. split; [exact Hm1|]. split; [reflexivity|]. cbn.
  split.
  - clear H. induction Hnone as [|c l Hc _ IH]; [reflexivity|].
    cbn. now rewrite Hc.
  - now rewrite length_fmap, length_map_to_list, Hact.
Qed.
End Sweep.

Lemma retention_store_keyed : keyed_by_contentId retention_store.
Proof.
  intros k c H. unfold retention_store in H. cbn in H.
  apply lookup_insert_Some in H as [[<- <-]|[_ H]]; [reflexivity|].
  apply lookup_insert_Some in H as [[<- <-]|[_ H]]; [reflexivity|].
  rewrite lookup_empty in H. discriminate H.
Defined.

(** X19 at the store with one old 'completed' item and one old 'analyzing'
    item. *)
Lemma second_daily_run_deletes_nothing_witness :
  let w1 := after (DailyProcessing.handler retention_env)
              (World.mk retention_store 0 []) in
  let w2 := after (DailyProcessing.handler retention_env)
              (World.mk (World.store w1) 0 []) in
  Store.content (World.store w2) = Store.content (World.store w1) /\
  Store.workflow (World.store w2) = Store.workflow (World.store w1) /\
  exists m1 m2,
    Store.daily_metrics (World.store w1) = Some m1 /\
    Store.daily_metrics (World.store w2) = Some m2 /\
    Metrics.deletedContentCount m2 = 0%nat /\
    Metrics.totalContentProcessed m2 = Metrics.activeContentCount m1.
Proof.
  apply (second_daily_run_deletes_nothing retention_env retention_store 0 0).
  exact retention_store_keyed.
Defined.

(** ** Creating, reading and deleting content *)

Section CreateReadDelete.
Variable env : Env.t.
Variable randomSuffix : string.

Abbreviation create := (CreateContent.handler env randomSuffix).
Abbreviation new_id := (CreateContent.new_contentId env randomSuffix).

(** The run of the creation handler on a complete submission. *)
Lemma create_run (input : CreateContent.Input) (s : Store.t) (n : nat) :
  complete input ->
  let cs :=
    ContentState.mk new_id (Http.text (CreateContent.title input))
      (Http.text (CreateContent.body input))
      (Http.text (CreateContent.author input))
      (Http.text (CreateContent.language input))
      (CreateContent.userId input) (Env.clock env n) (Env.clock env n)
      WorkflowStatus.pending None None None None in
  let w' := after (create input) (World.mk s n []) in
  World.store w'
  = Store.with_workflow
      (insert new_id (WorkflowRecord.mk WorkflowStatus.pending new_id))
      (Store.with_content (insert new_id cs) s) /\
  World.trace w'
  = [StateSet "content" new_id; StateSet "workflow" new_id;
     Emit "content.created" (DContent new_id (Env.traceId env))] /\
  exists resp,
    result (create input) (World.mk s n []) = Ok resp /\
    Http.status resp = (if Env.emit_ok env then 201 else 500) /\
    (Env.emit_ok env = true ->
     JS.get (Http.body resp) "contentId" = Some (JS.JStr new_id)).
Proof.
  intros (H1 & H2 & H3 & H4). cbv zeta.
  unfold CreateContent.handler. unfold_monad. cbn.
  rewrite H1, H2, H3, H4. cbn.
  destruct (Env.emit_ok env); cbn; repeat split; eauto.
  eexists. repeat split. discriminate.
Qed.

(** X20.  A complete submission whose event is emitted is answered 201
    with the new contentId; the content record stored under that id carries
    the submitted title, body, author and language, status 'pending', one
    timestamp for createdAt and updatedAt, and no validation result,
    analysis, recommendations or rewrite; the workflow record is 'pending';
    the one event emitted, content.created, triggers the validation step
    and no other; and reading the id back with the read handler is answered
    200 with the same title, body, author and language. *)
Theorem created_content_can_be_read_back (input : CreateContent.Input)
    (s : Store.t) (n : nat) :
  complete input ->
  Env.emit_ok env = true ->
  let w0 := World.mk s n [] in
  let w' := after (create input) w0 in
  (exists resp, result (create input) w0 = Ok resp /\
                Http.status resp = 201 /\
                JS.get (Http.body resp) "contentId"
                = Some (JS.JStr new_id)) /\
  (exists cs,
     Store.content (World.store w') !! new_id = Some cs /\
     ContentState.contentId cs = new_id /\
     ContentState.createdAt cs = ContentState.updatedAt cs /\
     (ContentState.validationResult cs, ContentState.aiAnalysis cs,
      ContentState.recommendations cs, ContentState.improvedContent cs)
     = (None, None, None, None)) /\
  stored_status (World.store w') new_id [WorkflowStatus.pending] /\
  omap emitted_topic (World.trace w') = ["content.created"] /\
  Step.triggered (World.trace w') = [Step.ValidateContent] /\
  (exists view,
     result (GetContent.handler (content_request new_id)) w'
     = Ok (GetContent.mkResponse 200 (GetContent.Found view)) /\
     (GetContent.title view, GetContent.body view, GetContent.author view,
      GetContent.language view)
     = (Http.text (CreateContent.title input),
        Http.text (CreateContent.body input),
        Http.text (CreateContent.author input),
        Http.text (CreateContent.language input)) /\
     GetContent.status view = WorkflowStatus.pending /\
     GetContent.recommendations view = []).
Proof.
  intros Hin He. cbv zeta.
  destruct (create_run input s n Hin) as (Hs & Htr & resp & Hr & Hcode & Hid).
  rewrite He in Hcode. specialize (Hid He).
  split; [eauto|]. rewrite Htr.
  assert (Hnew : Http.missing (Some new_id) = false) by reflexivity.
  unfold stored_status, GetContent.handler, content_request. unfold_monad.
  cbn [Http.id]. rewrite Hnew. cbn [Http.text default from_option id].
  unfold after in Hs. rewrite Hs. cbn. rewrite !lookup_insert_eq.
  split; [eexists; repeat split; reflexivity|].
  split; [eexists _, _; repeat split; cbn; tauto|].
  split; [reflexivity|]. split; [reflexivity|].
  set (w1 := snd _). destruct w1 eqn:Hw1. cbn.
  assert (Hst : World.store w1 = store) by now rewrite Hw1.
  unfold w1 in Hst. rewrite Hs in Hst. subst store. cbn.
  rewrite lookup_insert_eq. cbn. eexists. repeat split.
Qed.

(** X21.  A submission that lacks a title, a body, an author or a language
    (missing or empty) is answered 400 and nothing is written or
    emitted. *)
Theorem incomplete_submission_changes_nothing (input : CreateContent.Input)
    (w : World.t) :
  ~ complete input ->
  exists resp, create input w = (Ok resp, w) /\ Http.status resp = 400.
Proof.
  intros Hno. unfold CreateContent.handler. unfold_monad.
  destruct (Http.missing (CreateContent.title input)) eqn:H1;
    [cbn; eauto|].
  destruct (Http.missing (CreateContent.body input)) eqn:H2;
    [cbn; eauto|].
  destruct (Http.missing (CreateContent.author input)) eqn:H3;
    [cbn; eauto|].
  destruct (Http.missing (CreateContent.language input)) eqn:H4;
    [cbn; eauto|].
  exfalso. apply Hno. repeat split; assumption.
Qed.

(** X22.  When the emission of content.created fails, a complete
    submission is answered 500, yet the content record and the workflow
    record are stored as for a successful submission and stay
    'pending'. *)
Theorem failed_submission_leaves_a_pending_record
    (input : CreateContent.Input) (s : Store.t) (n : nat) :
  complete input ->
  Env.emit_ok env = false ->
  let w0 := World.mk s n [] in
  let w' := after (create input) w0 in
  (exists resp, result (create input) w0 = Ok resp /\
                Http.status resp = 500) /\
  World.store w'
  = World.store
      (after (CreateContent.handler (with_delivery true true env)
                randomSuffix input) w0) /\
  stored_status (World.store w') new_id [WorkflowStatus.pending].
Proof.
  intros Hin He. cbv zeta.
  destruct (create_run input s n Hin) as (Hs & _ & resp & Hr & Hcode & _).
  rewrite He in Hcode. split; [eauto|]. rewrite Hs. split.
  - destruct Hin as (H1 & H2 & H3 & H4).
    unfold CreateContent.handler. unfold_monad. cbn.
    rewrite H1, H2, H3, H4. reflexivity.
  - unfold stored_status. cbn. rewrite !lookup_insert_eq.
    eexists _, _. repeat split; cbn; tauto.
Qed.
End CreateReadDelete.

Section ReadDelete.
Variable req : Http.Request.

Abbreviation cid := (Http.text (Http.id req)).

(** X23.  The read handler never changes anything: whatever the request,
    it returns an answer and leaves the store, the clock and the trace as
    they were.  The answer is 200 exactly when the request names stored
    content, 404 when it names a contentId nothing is stored under, and 400
    when it names none. *)
Theorem reading_changes_nothing (w : World.t) :
  exists resp,
    GetContent.handler req w = (Ok resp, w) /\
    (GetContent.code resp = 200 <->
     Http.missing (Http.id req) = false /\
     is_Some (Store.content (World.store w) !! cid)) /\
    (GetContent.code resp = 404 <->
     Http.missing (Http.id req) = false /\
     Store.content (World.store w) !! cid = None) /\
    (GetContent.code resp = 400 <-> Http.missing (Http.id req) = true).
Proof.
  unfold GetContent.handler. unfold_monad.
  destruct (Http.missing (Http.id req)) eqn:Hid; cbn.
  - eexists. split; [reflexivity|]. cbn.
    repeat split; try discriminate; try tauto; intros [H _]; discriminate H.
  - destruct (Store.content (World.store w) !! cid) as [cs|] eqn:Hc; cbn.
    + eexists. split; [reflexivity|]. cbn.
      repeat split; try discriminate; eauto; intros [_ H]; discriminate H.
    + eexists. split; [reflexivity|]. cbn.
      repeat split; try discriminate.
      intros [_ [x H]]. discriminate H.
Qed.

(** X24.  Deleting stored content is answered 200 and removes its content
    record and its workflow record; every other content and workflow record
    stays, and so do the validation results, analyses, recommendations and
    vote maps of all items, those of the deleted one included.  Reading or
    deleting the same id afterwards is answered 404. *)
Theorem deleted_content_is_gone (s : Store.t) (n : nat)
    (cs : ContentState.t) :
  Http.missing (Http.id req) = false ->
  Store.content s !! cid = Some cs ->
  let w0 := World.mk s n [] in
  let w' := after (DeleteContent.handler req) w0 in
  (exists resp, result (DeleteContent.handler req) w0 = Ok resp /\
                Http.status resp = 200) /\
  World.store w'
  = Store.with_workflow (delete cid) (Store.with_content (delete cid) s) /\
  Store.content (World.store w') !! cid = None /\
  Store.workflow (World.store w') !! cid = None /\
  (forall k, k <> cid ->
     Store.content (World.store w') !! k = Store.content s !! k /\
     Store.workflow (World.store w') !! k = Store.workflow s !! k) /\
  (exists resp, GetContent.handler req w' = (Ok resp, w') /\
                GetContent.code resp = 404) /\
  (exists resp, DeleteContent.handler req w' = (Ok resp, w') /\
                Http.status resp = 404).
Proof.
  intros Hid Hc. cbv zeta.
  unfold DeleteContent.handler, GetContent.handler. unfold_monad. cbn.
  rewrite Hid. cbn. rewrite Hc. cbn. rewrite !lookup_delete_eq.
  split; [eauto|]. split; [reflexivity|]. split; [reflexivity|].
  split; [reflexivity|]. split; [|split; eauto].
  intros k Hk. now rewrite !lookup_delete_ne by congruence.
Qed.

(** X25.  An improvement request for stored content that has an analysis
    and no rewrite in progress is answered 202 when the event is emitted;
    the handler itself writes nothing: it only emits
    content.improvement.requested, which triggers the improvement step and
    no other. *)
Theorem improvement_request_only_emits (env : Env.t) (s : Store.t)
    (n : nat) (cs : ContentState.t) :
  improvable s req cs ->
  Env.emit_ok env = true ->
  let w0 := World.mk s n [] in
  let w' := after (RequestContentImprovement.handler env req) w0 in
  (exists resp,
     result (RequestContentImprovement.handler env req) w0 = Ok resp /\
     Http.status resp = 202) /\
  World.store w' = s /\
  World.trace w'
  = [Emit "content.improvement.requested" (DContent cid (Env.traceId env))] /\
  Step.triggered (World.trace w') = [Step.GenerateImprovedContent].
Proof.
  intros (Hid & Hc & [a Ha] & Hgen) He. cbv zeta.
  unfold RequestContentImprovement.handler. unfold_monad. cbn.
  rewrite Hid. cbn. rewrite Hc. cbn. rewrite Ha. cbn.
  rewrite (bool_decide_eq_false_2 _ Hgen). cbn. rewrite He. cbn.
  repeat split. eauto.
Qed.

(** X26.  Any other improvement request is refused and changes nothing:
    400 without a contentId, 404 for unknown content, 400 for content that
    has no analysis yet, and 409 while a rewrite of the content is being
    generated. *)
Theorem improvement_request_refusals (env : Env.t) (w : World.t) :
  ~ (exists cs, improvable (World.store w) req cs) ->
  exists resp,
    RequestContentImprovement.handler env req w = (Ok resp, w) /\
    Http.status resp
    = if Http.missing (Http.id req) then 400
      else match Store.content (World.store w) !! cid with
           | None => 404
           | Some cs =>
               match ContentState.aiAnalysis cs with
               | None => 400
               | Some _ => 409
               end
           end.
Proof.
  intros Hno. destruct w as [s n tr]. cbn [World.store] in *.
  unfold RequestContentImprovement.handler. unfold_monad. cbn.
  destruct (Http.missing (Http.id req)) eqn:Hid; cbn; [eauto|].
  destruct (Store.content s !! cid) as [cs|] eqn:Hc; cbn; [|eauto].
  destruct (ContentState.aiAnalysis cs) as [a|] eqn:Ha; cbn; [|eauto].
  destruct (bool_decide_reflect
              (ImprovedContent.status <$> ContentState.improvedContent cs
               = Some ImprovedContent.generating)) as [Hg|Hg]; cbn; [eauto|].
  exfalso. apply Hno. exists cs. repeat (split; [eauto|]). exact Hg.
Qed.
End ReadDelete.

Lemma sample_input_complete : complete sample_input.
Proof. repeat split. Defined.

(** X20 at [sample_input] and the empty store. *)
Lemma created_content_can_be_read_back_witness :
  let create := CreateContent.handler sample_env "k3x9q2a" in
  let new_id := CreateContent.new_contentId sample_env "k3x9q2a" in
  let w0 := World.mk Store.empty 0 [] in
  let w' := after (create sample_input) w0 in
  (exists resp, result (create sample_input) w0 = Ok resp /\
                Http.status resp = 201 /\
                JS.get (Http.body resp) "contentId"
                = Some (JS.JStr new_id)) /\
  (exists cs,
     Store.content (World.store w') !! new_id = Some cs /\
     ContentState.contentId cs = new_id /\
     ContentState.createdAt cs = ContentState.updatedAt cs /\
     (ContentState.validationResult cs, ContentState.aiAnalysis cs,
      ContentState.recommendations cs, ContentState.improvedContent cs)
     = (None, None, None, None)) /\
  stored_status (World.store w') new_id [WorkflowStatus.pending] /\
  omap emitted_topic (World.trace w') = ["content.created"] /\
  Step.triggered (World.trace w') = [Step.ValidateContent] /\
  (exists view,
     result (GetContent.handler (content_request new_id)) w'
     = Ok (GetContent.mkResponse 200 (GetContent.Found view)) /\
     (GetContent.title view, GetContent.body view, GetContent.author view,
      GetContent.language view)
     = ("A title of some length", long_body, "Ann", "en") /\
     GetContent.status view = WorkflowStatus.pending /\
     GetContent.recommendations view = []).
Proof.
  apply (created_content_can_be_read_back sample_env "k3x9q2a" sample_input
           Store.empty 0 sample_input_complete).
  reflexivity.
Defined.

(** X21 at a submission without a body. *)
Lemma incomplete_submission_changes_nothing_witness :
  exists resp,
    CreateContent.handler sample_env "k3x9q2a"
      (CreateContent.mkInput (Some "A title") None (Some "Ann") (Some "en")
         None)
      (World.init Store.empty)
    = (Ok resp, World.init Store.empty) /\
    Http.status resp = 400.
Proof.
  apply (incomplete_submission_changes_nothing sample_env "k3x9q2a"
           (CreateContent.mkInput (Some "A title") None (Some "Ann")
              (Some "en") None)
           (World.init Store.empty)).
  intros (_ & H & _). discriminate H.
Defined.

(** X22 at [sample_input], with emissions that fail. *)
Lemma failed_submission_leaves_a_pending_record_witness :
  let env := with_delivery true false sample_env in
  let w0 := World.mk Store.empty 0 [] in
  let w' := after (CreateContent.handler env "k3x9q2a" sample_input) w0 in
  (exists resp,
     result (CreateContent.handler env "k3x9q2a" sample_input) w0 = Ok resp /\
     Http.status resp = 500) /\
  World.store w'
  = World.store
      (after (CreateContent.handler (with_delivery true true env) "k3x9q2a"
                sample_input) w0) /\
  stored_status (World.store w')
    (CreateContent.new_contentId env "k3x9q2a") [WorkflowStatus.pending].
Proof.
  apply (failed_submission_leaves_a_pending_record
           (with_delivery true false sample_env) "k3x9q2a" sample_input
           Store.empty 0 sample_input_complete).
  reflexivity.
Defined.

(** X24 at [improved_content]. *)
Lemma deleted_content_is_gone_witness :
  let s := sample_store improved_content in
  let w0 := World.mk s 0 [] in
  let w' := after (DeleteContent.handler apply_request) w0 in
  (exists resp, result (DeleteContent.handler apply_request) w0 = Ok resp /\
                Http.status resp = 200) /\
  World.store w'
  = Store.with_workflow (delete "c1") (Store.with_content (delete "c1") s) /\
  Store.content (World.store w') !! "c1" = None /\
  Store.workflow (World.store w') !! "c1" = None /\
  (forall k, k <> "c1" ->
     Store.content (World.store w') !! k = Store.content s !! k /\
     Store.workflow (World.store w') !! k = Store.workflow s !! k) /\
  (exists resp, GetContent.handler apply_request w' = (Ok resp, w') /\
                GetContent.code resp = 404) /\
  (exists resp, DeleteContent.handler apply_request w' = (Ok resp, w') /\
                Http.status resp = 404).
Proof.
  apply (deleted_content_is_gone apply_request
           (sample_store improved_content) 0 improved_content);
    reflexivity.
Defined.

Lemma improved_content_improvable :
  improvable (sample_store improved_content) apply_request improved_content.
Proof.
  split; [reflexivity|]. split; [reflexivity|]. split; [now eexists|].
  discriminate.
Defined.

(** X25 at [improved_content], whose rewrite is finished. *)
Lemma improvement_request_only_emits_witness :
  let w0 := World.mk (sample_store improved_content) 0 [] in
  let w' := after (RequestContentImprovement.handler sample_env
                     apply_request) w0 in
  (exists resp,
     result (RequestContentImprovement.handler sample_env apply_request) w0
     = Ok resp /\ Http.status resp = 202) /\
  World.store w' = sample_store improved_content /\
  World.trace w'
  = [Emit "content.improvement.requested" (DContent "c1" "trace-1")] /\
  Step.triggered (World.trace w') = [Step.GenerateImprovedContent].
Proof.
  apply (improvement_request_only_emits apply_request sample_env
           (sample_store improved_content) 0 improved_content
           improved_content_improvable).
  reflexivity.
Defined.

(** X26 at content that has no analysis yet. *)
Lemma improvement_request_refusals_witness :
  let w := World.init (sample_store (sample_content "One two" "en")) in
  exists resp,
    RequestContentImprovement.handler sample_env apply_request w
    = (Ok resp, w) /\
    Http.status resp = 400.
Proof.
  apply (improvement_request_refusals apply_request sample_env
           (World.init (sample_store (sample_content "One two" "en")))).
  intros (cs & _ & Hc & [a Ha] & _).
  vm_compute in Hc. injection Hc as <-. discriminate Ha.
Defined.

(** ** Generating a rewrite *)

Ltac run_on :=
  repeat (progress
            (rewrite ?lookup_insert_eq,
               ?(bool_decide_eq_true_2
                   (ImprovedContent.generating = ImprovedContent.generating)
                   eq_refl);
             try rewrite (bool_decide_eq_false_2
                            (ImprovedContent.failed
                             = ImprovedContent.generating))
               by discriminate;
             cbn; unfold_monad; cbn)).

Section Improvement.
Import GenerateImprovedContent.
Variable env : Env.t.
Variable contentId : string.

(** The run of the handler on stored content that has an analysis. *)
Lemma handler_rewrites (s : Store.t) (n : nat)
    (cs : ContentState.t) (a : AIAnalysisResult.t) :
  Env.MISTRAL_API_KEY env = true ->
  Store.content s !! contentId = Some cs ->
  ContentState.aiAnalysis cs = Some a ->
  let w0 := World.mk s n [] in
  let w' := after (handler env contentId) w0 in
  result (handler env contentId) w0 = Ok tt /\
  (exists cs' ic,
     Store.content (World.store w') !! contentId = Some cs' /\
     ContentState.improvedContent cs' = Some ic /\
     ContentState.with_updatedAt (ContentState.updatedAt cs)
       (ContentState.with_improvedContent (ContentState.improvedContent cs)
          cs') = cs /\
     ImprovedContent.originalBody ic = ContentState.body cs /\
     ImprovedContent.appliedAt ic = None /\
     ImprovedContent.status ic <> ImprovedContent.generating /\
     (ImprovedContent.status ic = ImprovedContent.completed <->
      exists r, Env.chat_complete env = Some r /\ clean r <> EmptyString) /\
     (forall r, Env.chat_complete env = Some r -> clean r <> EmptyString ->
                ImprovedContent.improvedBody ic = clean r) /\
     (ImprovedContent.status ic = ImprovedContent.failed ->
      ImprovedContent.improvedBody ic = EmptyString) /\
     (In "content.improvement.completed"
         (omap emitted_topic (World.trace w')) ->
      ImprovedContent.status ic = ImprovedContent.completed)) /\
  Store.with_content (fun _ => Store.content s) (World.store w') = s /\
  (forall k, k <> contentId ->
     Store.content (World.store w') !! k = Store.content s !! k) /\
  Step.triggered (World.trace w') = [].
Proof.
  intros Hkey Hc Ha. cbv zeta.
  unfold handler, store_draft, draft. unfold_monad. cbn.
  rewrite Hkey. cbn. rewrite Hc. cbn. rewrite Ha. cbn.
  destruct (Env.chat_complete env) as [r|] eqn:Hchat;
    [destruct (String.eqb_spec (clean r) EmptyString) as [He|He]|];
    destruct (Env.stream_ok env); cbn; run_on;
    try (destruct (Env.emit_ok env); cbn; run_on);
    (split; [reflexivity|]);
    (split;
     [eexists _, _;
      split; [reflexivity|]; split; [reflexivity|];
      split; [destruct cs; reflexivity|];
      split; [reflexivity|]; split; [reflexivity|];
      split; [discriminate|];
      split;
      [split;
       [first [discriminate | eauto]
       |first [reflexivity
              |intros (r0 & Hr0 & Hne); first [discriminate Hr0
                |injection Hr0 as <-; contradiction]]]
      |];
      split;
      [intros r0 Hr0 Hne;
       first [discriminate Hr0
             |injection Hr0 as <-; first [reflexivity|contradiction]]
      |];
      split; [first [reflexivity|discriminate]|];
      first [reflexivity|intros []|intros _; reflexivity]
     |]);
    (split; [destruct s; reflexivity|]);
    (split; [intros k Hk; now rewrite !lookup_insert_ne by congruence
            |reflexivity]).
Qed.

(** X27.  For stored content that has an analysis, with the API key set,
    the improvement step returns normally and never leaves the rewrite
    'generating': it ends 'completed', with the cleaned answer of the LLM
    as improved body, exactly when the LLM answered and the cleaned answer
    is not empty, and 'failed' with an empty improved body otherwise.  The
    rewrite records the body as original body and is not applied; the body,
    status, analysis, recommendations and validation result of the content
    record are as before, and no other store group changes.  The
    completion event is emitted only for a 'completed' rewrite and triggers
    no event step. *)
Theorem rewrite_ends_completed_or_failed (s : Store.t) (n : nat)
    (cs : ContentState.t) (a : AIAnalysisResult.t) :
  Env.MISTRAL_API_KEY env = true ->
  Store.content s !! contentId = Some cs ->
  ContentState.aiAnalysis cs = Some a ->
  let w0 := World.mk s n [] in
  let w' := after (handler env contentId) w0 in
  result (handler env contentId) w0 = Ok tt /\
  (exists cs' ic,
     Store.content (World.store w') !! contentId = Some cs' /\
     ContentState.improvedContent cs' = Some ic /\
     ContentState.with_updatedAt (ContentState.updatedAt cs)
       (ContentState.with_improvedContent (ContentState.improvedContent cs)
          cs') = cs /\
     ImprovedContent.originalBody ic = ContentState.body cs /\
     ImprovedContent.appliedAt ic = None /\
     ImprovedContent.status ic <> ImprovedContent.generating /\
     (ImprovedContent.status ic = ImprovedContent.completed <->
      exists r, Env.chat_complete env = Some r /\ clean r <> EmptyString) /\
     (forall r, Env.chat_complete env = Some r -> clean r <> EmptyString ->
                ImprovedContent.improvedBody ic = clean r) /\
     (ImprovedContent.status ic = ImprovedContent.failed ->
      ImprovedContent.improvedBody ic = EmptyString) /\
     (In "content.improvement.completed"
         (omap emitted_topic (World.trace w')) ->
      ImprovedContent.status ic = ImprovedContent.completed)) /\
  Store.with_content (fun _ => Store.content s) (World.store w') = s /\
  (forall k, k <> contentId ->
     Store.content (World.store w') !! k = Store.content s !! k) /\
  Step.triggered (World.trace w') = [].
Proof. exact (handler_rewrites s n cs a). Qed.


(** X28.  A rewrite the improvement step completed can be applied at
    once: the body-swap variant of the apply handler answers 200 for the
    same contentId, the body of the content record becomes the cleaned
    answer of the LLM, and the body the content had before the rewrite is
    kept with it as original body; status and analysis stay as they
    were. *)
Theorem completed_rewrite_can_be_applied (s : Store.t) (n n' : nat)
    (cs : ContentState.t) (a : AIAnalysisResult.t) (r : string) :
  Env.MISTRAL_API_KEY env = true ->
  Store.content s !! contentId = Some cs ->
  ContentState.aiAnalysis cs = Some a ->
  Env.chat_complete env = Some r ->
  clean r <> EmptyString ->
  contentId <> EmptyString ->
  let w1 := after (handler env contentId) (World.mk s n []) in
  let apply := ApplyImprovedContent.handler env (content_request contentId) in
  let w2 := after apply (World.mk (World.store w1) n' []) in
  (exists resp,
     result apply (World.mk (World.store w1) n' []) = Ok resp /\
     Http.status resp = 200) /\
  exists cs2,
    Store.content (World.store w2) !! contentId = Some cs2 /\
    ContentState.body cs2 = clean r /\
    ImprovedContent.originalBody <$> ContentState.improvedContent cs2
    = Some (ContentState.body cs) /\
    ContentState.workflowStatus cs2 = ContentState.workflowStatus cs /\
    ContentState.aiAnalysis cs2 = Some a.
Proof.
  intros Hkey Hc Ha Hchat Hne Hid. cbv zeta.
  destruct (handler_rewrites s n cs a Hkey Hc Ha)
    as (_ & (cs' & ic & Hc' & Hi & Hsame & Horig & _ & _ & Hdone & Hbody & _)
        & _).
  assert (Hst : ImprovedContent.status ic = ImprovedContent.completed)
    by (apply Hdone; eauto).
  specialize (Hbody r Hchat Hne).
  assert (Hb : String.eqb (ImprovedContent.improvedBody ic) EmptyString = false)
    by (apply String.eqb_neq; congruence).
  assert (Hm : Http.missing (Some contentId) = false)
    by (now apply String.eqb_neq).
  unfold ApplyImprovedContent.handler, content_request. unfold_monad.
  cbn [Http.id]. rewrite Hm. cbn [Http.text default from_option id].
  cbn. rewrite Hc'. cbn. rewrite Hi. cbn.
  rewrite (bool_decide_eq_true_2 _ Hst). cbn. rewrite Hb. cbn.
  rewrite lookup_insert_eq. split; [eauto|].
  assert (Hws : ContentState.workflowStatus cs'
                = ContentState.workflowStatus cs)
    by (rewrite <- Hsame; reflexivity).
  assert (Han : ContentState.aiAnalysis cs' = ContentState.aiAnalysis cs)
    by (rewrite <- Hsame; reflexivity).
  eexists. split; [reflexivity|]. cbn.
  rewrite Hbody, Horig, Hws, Han. repeat split. exact Ha.
Qed.
End Improvement.

(** X27 at [improved_content], when the LLM answers with plain text. *)
Lemma rewrite_ends_completed_or_failed_witness :
  let w' := after (GenerateImprovedContent.handler sample_env "c1")
              (World.mk (sample_store improved_content) 0 []) in
  exists cs' ic,
    Store.content (World.store w') !! "c1" = Some cs' /\
    ContentState.improvedContent cs' = Some ic /\
    ImprovedContent.status ic = ImprovedContent.completed /\
    ImprovedContent.improvedBody ic = "I cannot answer." /\
    ImprovedContent.originalBody ic = "The old body.".
Proof.
  destruct (rewrite_ends_completed_or_failed sample_env "c1"
              (sample_store improved_content) 0 improved_content
              analysis_85_neutral eq_refl eq_refl eq_refl)
    as (_ & (cs' & ic & Hc & Hi & _ & Horig & _ & _ & Hdone & Hbody & _) & _).
  exists cs', ic. split; [exact Hc|]. split; [exact Hi|]. split.
  - apply Hdone. exists "I cannot answer.". split; [reflexivity|].
    vm_compute. discriminate.
  - split; [|exact Horig].
    apply (Hbody "I cannot answer." eq_refl). vm_compute. discriminate.
Defined.

(** X28 at [improved_content], when the LLM answers with plain text. *)
Lemma completed_rewrite_can_be_applied_witness :
  let w1 := after (GenerateImprovedContent.handler sample_env "c1")
              (World.mk (sample_store improved_content) 0 []) in
  let apply := ApplyImprovedContent.handler sample_env
                 (content_request "c1") in
  let w2 := after apply (World.mk (World.store w1) 0 []) in
  (exists resp,
     result apply (World.mk (World.store w1) 0 []) = Ok resp /\
     Http.status resp = 200) /\
  exists cs2,
    Store.content (World.store w2) !! "c1" = Some cs2 /\
    ContentState.body cs2 = "I cannot answer." /\
    ImprovedContent.originalBody <$> ContentState.improvedContent cs2
    = Some "The old body." /\
    ContentState.workflowStatus cs2 = WorkflowStatus.completed /\
    ContentState.aiAnalysis cs2 = Some analysis_85_neutral.
Proof.
  apply (completed_rewrite_can_be_applied sample_env "c1"
           (sample_store improved_content) 0 0 improved_content
           analysis_85_neutral "I cannot answer.").
  - reflexivity.
  - reflexivity.
  - reflexivity.
  - reflexivity.
  - vm_compute. discriminate.
  - discriminate.
Defined.

(** ** What every handler keeps *)

Section WellKept.

Lemma kept_set_both c w k cs' st :
  kept c w ->
  ContentState.contentId cs' = k ->
  ContentState.workflowStatus cs' = st ->
  kept (<[k:=cs']> c) (<[k:=WorkflowRecord.mk st k]> w).
Proof.
  intros H Hid <- k' x Hx.
  destruct (decide (k' = k)) as [->|Hne].
  - rewrite lookup_insert_eq in Hx. injection Hx as <-.
    now rewrite lookup_insert_eq.
  - rewrite lookup_insert_ne in Hx by congruence.
    rewrite lookup_insert_ne by congruence. now apply H.
Qed.

Lemma kept_set_content c w k cs cs' :
  kept c w ->
  c !! k = Some cs ->
  ContentState.contentId cs' = ContentState.contentId cs ->
  ContentState.workflowStatus cs' = ContentState.workflowStatus cs ->
  kept (<[k:=cs']> c) w.
Proof.
  intros H Hc Hid Hst k' x Hx.
  destruct (decide (k' = k)) as [->|Hne].
  - rewrite lookup_insert_eq in Hx. injection Hx as <-.
    rewrite Hid, Hst. now apply H.
  - rewrite lookup_insert_ne in Hx by congruence. now apply H.
Qed.

Lemma kept_delete c w k : kept c w -> kept (delete k c) (delete k w).
Proof.
  intros H k' x Hx. apply lookup_delete_Some in Hx as [Hne Hx].
  rewrite lookup_delete_ne by congruence. now apply H.
Qed.

Ltac keep H Hc :=
  unfold well_kept; cbn; rewrite ?insert_insert_eq;
  first [ exact H
        | apply kept_set_both;
          [exact H | cbn; apply (H _ _ Hc) | reflexivity]
        | eapply kept_set_content;
          [exact H | exact Hc | reflexivity | reflexivity]
        | apply kept_delete; exact H ].

Lemma validate_kept (env : Env.t) (n : nat) (contentId : string)
    (s : Store.t) :
  well_kept s -> well_kept (invoke env n (Validate contentId) s).
Proof.
  intros H. unfold invoke, ValidateContent.handler. unfold_monad. cbn.
  destruct (Store.content s !! contentId) as [cs|] eqn:Hc; cbn;
    [|exact H].
  destruct (negb _); cbn.
  - destruct (Env.emit_ok env); keep H Hc.
  - destruct (Env.stream_ok env); cbn;
      [destruct (Env.emit_ok env)|]; keep H Hc.
Qed.

Lemma analyze_kept (env : Env.t) (n : nat) (contentId : string)
    (s : Store.t) :
  well_kept s -> well_kept (invoke env n (Analyze contentId) s).
Proof.
  intros H. unfold invoke, AnalyzeWithAI.handler, AnalyzeWithAI.set_status,
    AnalyzeWithAI.parse.
  unfold_monad. cbn.
  destruct (Env.MISTRAL_API_KEY env); cbn;
    (destruct (Store.content s !! contentId) as [cs|] eqn:Hc; cbn;
     rewrite ?Hc; [|exact H]).
  - destruct (Env.chat_complete env) as [r|]; cbn.
    + destruct (Env.JSON_parse env (AnalyzeWithAI.clean r)) as [j|]; cbn.
      * destruct j; cbn; rewrite ?lookup_insert_eq; cbn;
          try (destruct (Env.stream_ok env), (Env.emit_ok env); keep H Hc);
          destruct (ContentState.aiAnalysis cs); unfold_monad; keep H Hc.
      * destruct (Env.stream_ok env), (Env.emit_ok env); keep H Hc.
    + rewrite lookup_insert_eq. cbn.
      destruct (ContentState.aiAnalysis cs); keep H Hc.
  - destruct (ContentState.aiAnalysis cs); keep H Hc.
Qed.

Lemma recommend_kept (env : Env.t) (n : nat) (contentId : string)
    (aiAnalysis : AIAnalysisResult.t) (s : Store.t) :
  well_kept s ->
  well_kept (invoke env n (Recommend contentId aiAnalysis) s).
Proof.
  intros H. unfold invoke, GenerateRecommendations.handler.
  unfold_monad. cbn.
  destruct (Store.content s !! contentId) as [cs|] eqn:Hc; cbn;
    [|exact H].
  destruct (Env.stream_ok env), (Env.emit_ok env); keep H Hc.
Qed.

Lemma improve_kept (env : Env.t) (n : nat) (contentId : string)
    (s : Store.t) :
  well_kept s -> well_kept (invoke env n (Improve contentId) s).
Proof.
  intros H. unfold invoke, GenerateImprovedContent.handler,
    GenerateImprovedContent.store_draft, GenerateImprovedContent.draft.
  unfold_monad. cbn.
  destruct (Env.MISTRAL_API_KEY env); cbn;
    (destruct (Store.content s !! contentId) as [cs|] eqn:Hc; cbn;
     rewrite ?Hc; [|exact H]).
  - destruct (ContentState.aiAnalysis cs); cbn; [|exact H].
    destruct (Env.chat_complete env) as [r|];
      [destruct (String.eqb (GenerateImprovedContent.clean r) EmptyString)|];
      destruct (Env.stream_ok env); cbn; run_on;
      try (destruct (Env.emit_ok env); cbn; run_on); keep H Hc.
  - destruct (ContentState.improvedContent cs) as [ic|]; cbn; [|exact H].
    destruct (bool_decide _); cbn; keep H Hc.
Qed.

Lemma create_kept (env : Env.t) (n : nat) (randomSuffix : string)
    (input : CreateContent.Input) (s : Store.t) :
  well_kept s -> well_kept (invoke env n (Create randomSuffix input) s).
Proof.
  intros H. unfold invoke, CreateContent.handler. unfold_monad. cbn.
  destruct (_ || _ || _ || _); cbn; [exact H|].
  destruct (Env.emit_ok env); unfold well_kept; cbn;
    apply kept_set_both; auto.
Qed.

Lemma read_kept (env : Env.t) (n : nat) (req : Http.Request) (s : Store.t) :
  well_kept s -> well_kept (invoke env n (Read req) s).
Proof.
  intros H. unfold invoke, GetContent.handler. unfold_monad. cbn.
  destruct (Http.missing _); cbn; [exact H|].
  destruct (Store.content s !! _); exact H.
Qed.

Lemma delete_kept (env : Env.t) (n : nat) (req : Http.Request)
    (s : Store.t) :
  well_kept s -> well_kept (invoke env n (Delete req) s).
Proof.
  intros H. unfold invoke, DeleteContent.handler. unfold_monad. cbn.
  destruct (Http.missing _); cbn; [exact H|].
  destruct (Store.content s !! _) as [cs|] eqn:Hc; cbn; keep H Hc.
Qed.

Lemma request_kept (env : Env.t) (n : nat) (req : Http.Request)
    (s : Store.t) :
  well_kept s -> well_kept (invoke env n (RequestImprovement req) s).
Proof.
  intros H. unfold invoke, RequestContentImprovement.handler.
  unfold_monad. cbn.
  destruct (Http.missing _); cbn; [exact H|].
  destruct (Store.content s !! _) as [cs|]; cbn; [|exact H].
  destruct (ContentState.aiAnalysis cs); cbn; [|exact H].
  destruct (bool_decide _); cbn; [exact H|].
  destruct (Env.emit_ok env); exact H.
Qed.

Lemma vote_kept (env : Env.t) (n : nat) (req : Http.Request) (s : Store.t) :
  well_kept s -> well_kept (invoke env n (Vote req) s).
Proof.
  intros H. unfold invoke, VoteRecommendation.handler. unfold_monad. cbn.
  destruct (Http.missing (Http.id req) || Http.missing (Http.recId req));
    cbn; [exact H|].
  destruct (_ || _ || _); cbn; [exact H|].
  destruct (Store.content s !! _) as [cs|] eqn:Hc; cbn; [|exact H].
  destruct (List.find _ _); cbn; [|exact H].
  destruct (Env.stream_ok env); cbn;
    [destruct (Env.emit_ok env)|]; keep H Hc.
Qed.

Lemma apply_kept (env : Env.t) (n : nat) (req : Http.Request)
    (s : Store.t) :
  well_kept s -> well_kept (invoke env n (Apply req) s).
Proof.
  intros H. unfold invoke, ApplyImprovedContent.handler. unfold_monad. cbn.
  destruct (Http.missing _); cbn; [exact H|].
  destruct (Store.content s !! _) as [cs|] eqn:Hc; cbn; [|exact H].
  destruct (ContentState.improvedContent cs) as [ic|]; cbn; [|exact H].
  destruct (negb _); cbn; [exact H|].
  destruct (String.eqb _ _); cbn; keep H Hc.
Qed.

Lemma reapply_kept (env : Env.t) (n : nat) (req : Http.Request)
    (s : Store.t) :
  well_kept s -> well_kept (invoke env n (ApplyReanalyze req) s).
Proof.
  intros H. unfold invoke, ApplyAndReanalyze.handler. unfold_monad. cbn.
  destruct (Http.missing _); cbn; [exact H|].
  destruct (Store.content s !! _) as [cs|] eqn:Hc; cbn; [|exact H].
  destruct (ContentState.improvedContent cs) as [ic|]; cbn; [|exact H].
  destruct (negb _); cbn; [exact H|].
  destruct (String.eqb _ _); cbn; [exact H|].
  destruct (Env.stream_ok env), (Env.emit_ok env); keep H Hc.
Qed.

Lemma daily_kept (env : Env.t) (n : nat) (s : Store.t) :
  well_kept s -> well_kept (invoke env n Daily s).
Proof.
  intros H. unfold invoke, DailyProcessing.handler,
    DailyProcessing.getGroup_content.
  unfold_monad. cbn.
  destruct (for_each_run env (map_to_list (Store.content s)).*2
              (DailyProcessing.mkCounters 0 [] []) s n [])
    as (acc & tr & ->). cbn. unfold well_kept. cbn.
  generalize (map_to_list (Store.content s)).*2. intros l.
  revert s H. induction l as [|c l IH]; intros s H; [exact H|].
  cbn [fold_left]. apply IH.
  destruct (DailyProcessing.stale env c && _); [|exact H].
  unfold well_kept. cbn. now apply kept_delete.
Qed.

Lemma invoke_kept (env : Env.t) (n : nat) (i : Invocation) (s : Store.t) :
  well_kept s -> well_kept (invoke env n i s).
Proof.
  destruct i.
  - apply create_kept.
  - apply read_kept.
  - apply delete_kept.
  - apply vote_kept.
  - apply apply_kept.
  - apply reapply_kept.
  - apply request_kept.
  - apply validate_kept.
  - apply analyze_kept.
  - apply recommend_kept.
  - apply improve_kept.
  - apply daily_kept.
Qed.

Lemma replay_kept (calls : list (Env.t * nat * Invocation)) (s : Store.t) :
  well_kept s -> well_kept (replay calls s).
Proof.
  revert s. induction calls as [|[[env n] i] calls IH]; intros s H;
    [exact H|].
  apply IH. now apply invoke_kept.
Qed.

(** X29.  Starting from the empty store, after any sequence of handler
    invocations (submissions, reads, deletions, votes, both ways of
    applying a rewrite, improvement requests, the four event steps on any
    contentId and the daily job, each with any collaborators, failing or
    not) every content record is stored under its own contentId and has a
    workflow record under the same key that carries the same status.  The
    same holds from any store that is kept that way. *)
Theorem handlers_keep_records_in_step
    (calls : list (Env.t * nat * Invocation)) :
  well_kept (replay calls Store.empty) /\
  keyed_by_contentId (replay calls Store.empty) /\
  (forall s, well_kept s -> well_kept (replay calls s)).
Proof.
  assert (H : well_kept (replay calls Store.empty)).
  { apply replay_kept. intros k cs Hc. cbn in Hc.
    rewrite lookup_empty in Hc. discriminate Hc. }
  split; [exact H|]. split; [|intros s; apply replay_kept].
  intros k cs Hc. now apply H.
Qed.
End WellKept.

(** ** From submission to recommendations *)

Section Pipeline.
Variable env : Env.t.

(** The run of the analysis stage when everything succeeds. *)
Lemma analysis_run (contentId : string) (s : Store.t) (n : nat)
    (cs : ContentState.t) (r : string) :
  Env.MISTRAL_API_KEY env = true ->
  Store.content s !! contentId = Some cs ->
  Env.chat_complete env = Some r ->
  AnalyzeWithAI.parse env (ContentState.body cs) r <> JS.JNull ->
  Env.stream_ok env = true ->
  Env.emit_ok env = true ->
  let a := AnalyzeWithAI.construct (ContentState.body cs)
             (AnalyzeWithAI.parse env (ContentState.body cs) r)
             (Env.clock env (S n)) in
  let w' := after (AnalyzeWithAI.handler env contentId) (World.mk s n []) in
  Store.content (World.store w') !! contentId
  = Some (ContentState.with_updatedAt (Env.clock env (S (S n)))
            (ContentState.with_workflowStatus WorkflowStatus.analyzed
               (ContentState.with_aiAnalysis (Some a) cs))) /\
  Store.workflow (World.store w') !! contentId
  = Some (WorkflowRecord.mk WorkflowStatus.analyzed contentId) /\
  omap emitted_topic (World.trace w') = ["content.analyzed"] /\
  In (Emit "content.analyzed" (DAnalysis contentId a (Env.traceId env)))
     (World.trace w').
Proof.
  intros Hkey Hc Hchat Hnull Hso Heo. cbv zeta.
  unfold AnalyzeWithAI.handler. unfold_monad. cbn.
  rewrite Hkey. cbn. rewrite Hc. cbn. rewrite Hchat. cbn.
  destruct (AnalyzeWithAI.parse env (ContentState.body cs) r) eqn:Hp;
    [now destruct Hnull|..];
    cbn; rewrite Hso, Heo; cbn; rewrite !lookup_insert_eq;
    (split; [destruct cs; reflexivity|]);
    (split; [reflexivity|]); (split; [reflexivity|]);
    cbn; tauto.
Qed.

(** The run of the recommendation stage when everything succeeds. *)
Lemma recommendation_run (contentId : string)
    (aiAnalysis : AIAnalysisResult.t) (s : Store.t) (n : nat)
    (cs : ContentState.t) :
  Store.content s !! contentId = Some cs ->
  Env.stream_ok env = true ->
  Env.emit_ok env = true ->
  let l := GenerateRecommendations.generate (Env.Number_toString env)
             contentId aiAnalysis in
  let w' := after (GenerateRecommendations.handler env contentId aiAnalysis)
              (World.mk s n []) in
  Store.content (World.store w') !! contentId
  = Some (ContentState.with_updatedAt (Env.clock env n)
            (ContentState.with_workflowStatus WorkflowStatus.completed
               (ContentState.with_recommendations (Some l) cs))) /\
  Store.workflow (World.store w') !! contentId
  = Some (WorkflowRecord.mk WorkflowStatus.completed contentId) /\
  omap emitted_topic (World.trace w') = ["content.completed"].
Proof.
  intros Hc Hso Heo. cbv zeta.
  unfold GenerateRecommendations.handler. unfold_monad. cbn.
  rewrite Hc. cbn. rewrite Hso, Heo. cbn. rewrite !lookup_insert_eq.
  repeat split.
Qed.

(** X30.  End to end: a complete submission with a body of at least 100
    characters in a supported language, when the API key is set, the LLM
    answers with text that does not parse to null, and pushes and emissions
    succeed.  The event of each handler triggers exactly the next step:
    submission triggers validation, validation triggers analysis, analysis
    triggers recommendation, and the last event, content.completed,
    triggers none.  Running these steps in turn on the new contentId, the
    recommendation step with the analysis carried by content.analyzed,
    leaves the content record 'completed' with the submitted title and
    body, a valid validation result, that analysis and the recommendations
    generated from it. *)
Theorem submission_runs_to_completion (randomSuffix : string)
    (input : CreateContent.Input) (s : Store.t) (n1 n2 n3 n4 : nat)
    (r : string) :
  complete input ->
  (100 <= String.length (Http.text (CreateContent.body input)))%nat ->
  In (JS.toLowerCase (Http.text (CreateContent.language input)))
     ["en"; "es"; "fr"; "de"; "it"; "pt"] ->
  Env.MISTRAL_API_KEY env = true ->
  Env.chat_complete env = Some r ->
  AnalyzeWithAI.parse env (Http.text (CreateContent.body input)) r
  <> JS.JNull ->
  Env.stream_ok env = true ->
  Env.emit_ok env = true ->
  let contentId := CreateContent.new_contentId env randomSuffix in
  let w1 := after (CreateContent.handler env randomSuffix input)
              (World.mk s n1 []) in
  let w2 := after (ValidateContent.handler env contentId)
              (World.mk (World.store w1) n2 []) in
  let w3 := after (AnalyzeWithAI.handler env contentId)
              (World.mk (World.store w2) n3 []) in
  exists a,
    let w4 := after (GenerateRecommendations.handler env contentId a)
                (World.mk (World.store w3) n4 []) in
    Step.triggered (World.trace w1) = [Step.ValidateContent] /\
    Step.triggered (World.trace w2) = [Step.AnalyzeWithAI] /\
    Step.triggered (World.trace w3) = [Step.GenerateRecommendations] /\
    In (Emit "content.analyzed" (DAnalysis contentId a (Env.traceId env)))
       (World.trace w3) /\
    Step.triggered (World.trace w4) = [] /\
    stored_status (World.store w4) contentId [WorkflowStatus.completed] /\
    exists cs vr,
      Store.content (World.store w4) !! contentId = Some cs /\
      ContentState.title cs = Http.text (CreateContent.title input) /\
      ContentState.body cs = Http.text (CreateContent.body input) /\
      ContentState.validationResult cs = Some vr /\
      ValidationResult.isValid vr = true /\
      ContentState.aiAnalysis cs = Some a /\
      ContentState.recommendations cs
      = Some (GenerateRecommendations.generate (Env.Number_toString env)
                contentId a) /\
      Store.ai_analysis (World.store w4) !! contentId = Some a.
Proof.
  intros Hin Hlen Hlang Hkey Hchat Hnull Hso Heo. cbv zeta.
  set (contentId := CreateContent.new_contentId env randomSuffix).
  destruct (create_run env randomSuffix input s n1 Hin)
    as (Hs1 & Htr1 & _).
  fold contentId in Hs1, Htr1.
  set (cs1 := ContentState.mk contentId _ _ _ _ _ _ _ _ _ _ _ _) in Hs1.
  set (w1 := after (CreateContent.handler env randomSuffix input) _) in *.
  assert (Hc1 : Store.content (World.store w1) !! contentId = Some cs1).
  { rewrite Hs1. cbn. apply lookup_insert_eq. }
  assert (He1 : ValidateContent.errors cs1 = []).
  { apply errors_nil_iff. split; assumption. }
  destruct (handler_accepts env contentId (World.store w1) n2 cs1 Hc1 He1)
    as (_ & _ & Hc2 & _ & Htr2).
  rewrite Hso in Htr2.
  set (w2 := after (ValidateContent.handler env contentId) _) in *.
  set (cs2 := ContentState.with_workflowStatus _ _) in Hc2.
  destruct (analysis_run contentId (World.store w2) n3 cs2 r Hkey Hc2 Hchat
              Hnull Hso Heo) as (Hc3 & _ & Htr3 & Hin3).
  destruct (handler_stores_analysis env contentId (World.store w2) n3 cs2 r
              Hkey Hc2 Hchat Hnull) as (Hai3 & _).
  set (w3 := after (AnalyzeWithAI.handler env contentId) _) in *.
  set (a := AnalyzeWithAI.construct _ _ _) in *.
  set (cs3 := ContentState.with_updatedAt _ _) in Hc3.
  exists a.
  destruct (recommendation_run contentId a (World.store w3) n4 cs3 Hc3 Hso
              Heo) as (Hc4 & Hw4 & Htr4).
  assert (Hai4 : Store.ai_analysis
                   (World.store
                      (after (GenerateRecommendations.handler env contentId a)
                         (World.mk (World.store w3) n4 []))) !! contentId
                 = Some a).
  { rewrite <- Hai3. unfold GenerateRecommendations.handler.
    unfold_monad. cbn. rewrite Hc3. cbn. rewrite Hso, Heo. reflexivity. }
  assert (Htrig : forall tr topic,
            omap emitted_topic tr = [topic] ->
            Step.triggered tr = Step.triggered_by topic).
  { intros tr topic. unfold Step.triggered.
    induction tr as [|e tr IH]; [discriminate|]. cbn.
    destruct (emitted_topic e) as [t|]; cbn.
    - intros [= -> Hrest]. rewrite <- app_nil_r. f_equal.
      clear IH. induction tr as [|e' tr IH']; [reflexivity|]. cbn in *.
      destruct (emitted_topic e'); [discriminate|]. cbn. auto.
    - exact IH. }
  split; [rewrite Htr1; reflexivity|].
  split; [rewrite Htr2; reflexivity|].
  split; [now rewrite (Htrig _ _ Htr3)|].
  split; [exact Hin3|].
  split; [now rewrite (Htrig _ _ Htr4)|].
  split; [eexists _, _; repeat split; [exact Hc4|exact Hw4|now left]|].
  eexists _, _. split; [exact Hc4|]. repeat split. exact Hai4.
Qed.
End Pipeline.

(** X30 at [sample_input], when the LLM answers with the JSON text of
    [scored_json]. *)
Lemma submission_runs_to_completion_witness :
  let contentId := CreateContent.new_contentId scored_env "k3x9q2a" in
  let w1 := after (CreateContent.handler scored_env "k3x9q2a" sample_input)
              (World.mk Store.empty 0 []) in
  let w2 := after (ValidateContent.handler scored_env contentId)
              (World.mk (World.store w1) 0 []) in
  let w3 := after (AnalyzeWithAI.handler scored_env contentId)
              (World.mk (World.store w2) 0 []) in
  exists a,
    let w4 := after (GenerateRecommendations.handler scored_env contentId a)
                (World.mk (World.store w3) 0 []) in
    Step.triggered (World.trace w1) = [Step.ValidateContent] /\
    Step.triggered (World.trace w2) = [Step.AnalyzeWithAI] /\
    Step.triggered (World.trace w3) = [Step.GenerateRecommendations] /\
    In (Emit "content.analyzed" (DAnalysis contentId a "trace-1"))
       (World.trace w3) /\
    Step.triggered (World.trace w4) = [] /\
    stored_status (World.store w4) contentId [WorkflowStatus.completed] /\
    exists cs vr,
      Store.content (World.store w4) !! contentId = Some cs /\
      ContentState.title cs = "A title of some length" /\
      ContentState.body cs = long_body /\
      ContentState.validationResult cs = Some vr /\
      ValidationResult.isValid vr = true /\
      ContentState.aiAnalysis cs = Some a /\
      ContentState.recommendations cs
      = Some (GenerateRecommendations.generate
                (Env.Number_toString scored_env) contentId a) /\
      Store.ai_analysis (World.store w4) !! contentId = Some a.
Proof.
  apply (submission_runs_to_completion scored_env "k3x9q2a" sample_input
           Store.empty 0 0 0 0 scored_text sample_input_complete).
  - vm_compute. lia.
  - vm_compute. tauto.
  - reflexivity.
  - reflexivity.
  - vm_compute. discriminate.
  - reflexivity.
  - reflexivity.
Defined.
